(** * AJAX: the XENONnT event-builder cleaning tool ([bin/ajax])

    A shallow embedding of the deletion core of [bin/ajax] and the
    properties of its retention logic.

    Conventions of the embedding.
    - A data document ([ddoc], an element of [rd["data"]]) is a Python
      dictionary: an association list in insertion order, because the
      [$addToSet] of MongoDB compares documents field by field, in order.
    - A run document ([rundoc]) is a record with the top-level fields the
      tool reads; its [data] field is the list of data documents.
    - The outside world ([world]) is the file system (the set of paths that
      exist), the runs collection, the wall clock, the lines the operator
      will type, and the trace of observable events, newest first.
    - A [str] is the list of its characters, each a code point below 256
      (Latin-1); the operations on strings are those of Python on such a
      [str].
    - Python code that can raise runs in a state-and-exception monad: an
      exception keeps the effects that happened before it.
    - A delete thread ([threading.Thread]) is taken in the schedule in which
      it has ended before the main thread goes on: its [delete_data] runs
      where the thread is started, and an exception in it ends the thread
      only. Schedules in which a thread is still at work when the next one
      is started, or when [wait_on_delete_thread] looks for it, are outside
      the embedding. The trace keeps every [Thread.start] and every
      [wait_on_delete_thread], so the threads started between two waits are
      counted on it. *)

From Stdlib Require Import String Ascii List ZArith Bool Lia Arith.
From Stdlib Require Import DecimalString DecimalZ.
Import ListNotations.

#[local] Open Scope list_scope.
#[local] Open Scope string_scope.

(** ** Python strings *)

Module PyStr.

(** [sub in s] for two [str]. *)
Fixpoint contains (sub s : string) : bool :=
  String.prefix sub s ||
  match s with
  | EmptyString => false
  | String _ s' => contains sub s'
  end.

(** [s.startswith(p)]. *)
Definition startswith (s p : string) : bool := String.prefix p s.

Fixpoint endswith_slash (s : string) : bool :=
  match s with
  | EmptyString => false
  | String c EmptyString => Ascii.eqb c "/"
  | String _ s' => endswith_slash s'
  end.

Definition starts_with_slash (s : string) : bool :=
  match s with
  | String c _ => Ascii.eqb c "/"
  | EmptyString => false
  end.

(** [os.path.join(a, b)] on POSIX. *)
Definition path_join (a b : string) : string :=
  if starts_with_slash b then b
  else if (a =? "") || endswith_slash a then a ++ b
  else a ++ "/" ++ b.

(** [s.split("/")[-1]]. *)
Fixpoint last_segment_from (acc s : string) : string :=
  match s with
  | EmptyString => acc
  | String c s' =>
      if Ascii.eqb c "/" then last_segment_from "" s'
      else last_segment_from (acc ++ String c "") s'
  end.

Definition last_segment (s : string) : string := last_segment_from "" s.

Fixpoint zeros (n : nat) : string :=
  match n with
  | O => ""
  | S n' => String "0" (zeros n')
  end.

Definition zfill (width : nat) (digits : string) : string :=
  zeros (width - String.length digits) ++ digits.

(** ["%06d" % n] and [f"{n:06}"]: the sign counts in the width. *)
Definition format06 (n : Z) : string :=
  match Z.to_int n with
  | Decimal.Pos d => zfill 6 (NilEmpty.string_of_uint d)
  | Decimal.Neg d => String "-" (zfill 5 (NilEmpty.string_of_uint d))
  end.

(** [str(n)] for an [int]. *)
Definition of_Z (n : Z) : string := NilEmpty.string_of_int (Z.to_int n).

Definition of_nat (n : nat) : string := of_Z (Z.of_nat n).

(** [int(s)] for a plain decimal literal with an optional minus sign
    (the strings the tool builds with ["%06d"]); [None] is [ValueError]. *)
Definition to_Z (s : string) : option Z :=
  option_map Z.of_int (NilZero.int_of_string s).

(** [c.lower()] for one character: the letters A to Z and, beyond ASCII, the
    capital letters 192 to 222 of Latin-1 (215, the multiplication sign, is
    no letter). *)
Definition lower_char (c : ascii) : ascii :=
  let n := nat_of_ascii c in
  if ((65 <=? n)%nat && (n <=? 90)%nat)
     || ((192 <=? n)%nat && (n <=? 222)%nat && negb (n =? 215)%nat)
  then ascii_of_nat (n + 32) else c.

(** [s.lower()]. *)
Fixpoint lower (s : string) : string :=
  match s with
  | EmptyString => ""
  | String c s' => String (lower_char c) (lower s')
  end.

(** [c.isspace()], the white space that [str.strip] removes: tab to carriage
    return (9 to 13), the separators 28 to 31, the blank, and beyond ASCII
    the next-line character (133) and the no-break space (160). *)
Definition is_space (c : ascii) : bool :=
  let n := nat_of_ascii c in
  ((9 <=? n)%nat && (n <=? 13)%nat) || ((28 <=? n)%nat && (n <=? 32)%nat)
  || (n =? 133)%nat || (n =? 160)%nat.

Fixpoint lstrip (s : string) : string :=
  match s with
  | String c s' => if is_space c then lstrip s' else s
  | EmptyString => ""
  end.

Fixpoint rstrip (s : string) : string :=
  match s with
  | EmptyString => ""
  | String c s' =>
      match rstrip s' with
      | EmptyString => if is_space c then "" else String c ""
      | r => String c r
      end
  end.

(** [s.strip()]. *)
Definition strip (s : string) : string := rstrip (lstrip s).

End PyStr.

(** ** Python dictionaries and MongoDB documents *)

Inductive value : Type :=
| VStr (s : string)
| VTime (t : Z)
| VOther (n : nat).

Definition value_eqb (a b : value) : bool :=
  match a, b with
  | VStr s, VStr t => s =? t
  | VTime s, VTime t => Z.eqb s t
  | VOther s, VOther t => Nat.eqb s t
  | _, _ => false
  end.

Definition ddoc : Type := list (string * value).

Module Dict.

(** [d[k]]; [None] is [KeyError]. *)
Fixpoint get (k : string) (d : ddoc) : option value :=
  match d with
  | [] => None
  | (k', v) :: d' => if k' =? k then Some v else get k d'
  end.

(** [d.pop(k)] for every [k] of [ks] that is a key of [d]. *)
Definition pop_all (ks : list string) (d : ddoc) : ddoc :=
  filter (fun kv => negb (existsb (String.eqb (fst kv)) ks)) d.

(** [d[k] = v]: a key that exists keeps its place, a new one goes last. *)
Fixpoint set (k : string) (v : value) (d : ddoc) : ddoc :=
  match d with
  | [] => [(k, v)]
  | (k', v') :: d' => if k' =? k then (k', v) :: d' else (k', v') :: set k v d'
  end.

(** [d.update(u)]. *)
Definition update (u : ddoc) (d : ddoc) : ddoc :=
  fold_left (fun acc kv => set (fst kv) (snd kv) acc) u d.

Definition entry_eqb (a b : string * value) : bool :=
  (fst a =? fst b) && value_eqb (snd a) (snd b).

(** Equality of two documents as [$addToSet] sees it. *)
Fixpoint eqb (a b : ddoc) : bool :=
  match a, b with
  | [], [] => true
  | x :: a', y :: b' => entry_eqb x y && eqb a' b'
  | _, _ => false
  end.

End Dict.

(** A document of the runs collection. *)
Record rundoc : Type := mkRundoc {
  rd_id : nat;                  (* _id *)
  number : Z;                   (* number *)
  bootstrax_state : string;     (* bootstrax.state *)
  bootstrax_time : Z;           (* bootstrax.time *)
  bootstrax_host : string;      (* bootstrax.host *)
  status : string;              (* status *)
  start : Z;                    (* start *)
  data : list ddoc;             (* data *)
  deleted_data : list ddoc      (* deleted_data *)
}.

Definition set_data (rd : rundoc) (l : list ddoc) : rundoc :=
  mkRundoc (rd_id rd) (number rd) (bootstrax_state rd) (bootstrax_time rd)
           (bootstrax_host rd) (status rd) (start rd) l (deleted_data rd).

(** ** Exceptions, events and the world *)

Inductive exn : Type :=
| KeyboardInterrupt
| SystemExit
| NotImplementedError (msg : string)
| ValueError (msg : string)
| KeyError (key : string)
| TypeError (msg : string)
| AttributeError (msg : string)
| UnboundLocalError (name : string)
| FileNotFoundError (msg : string)
| OSError (msg : string)
| EOFError
| RecursionError.

Inductive event : Type :=
| EvLog (level msg : string)                            (* log.<level>(msg) *)
| EvReport (priority : string) (run_id : option string) (msg : string)
                                                        (* databases.log_warning *)
| EvSleep (seconds : Z)                                 (* time.sleep *)
| EvRmtree (path : string)                              (* shutil.rmtree *)
| EvMove (src dst : string)                             (* shutil.move *)
| EvUpdateOne (id : nat) (added : ddoc) (pulled_type : string)
                                                        (* run_coll.update_one *)
| EvSetState (state : string)                           (* bs_coll.insert_one *)
| EvThreadStart (name : string)                         (* Thread.start *)
| EvJoinThreads.                                        (* wait_on_delete_thread *)

Record world : Type := mkWorld {
  fs : list string;          (* the paths that exist *)
  run_coll : list rundoc;    (* the runs collection, in natural order *)
  clock : Z;                 (* seconds, UTC *)
  stdin : list string;       (* the lines the operator will type *)
  trace : list event         (* newest first *)
}.

(** The command line and the configuration the script reads as globals. *)
Record env : Type := mkEnv {
  hostname : string;              (* socket.getfqdn() *)
  args_production : bool;         (* --production *)
  args_ask_confirm : bool;        (* --ask_confirm *)
  args_force : bool;              (* --force *)
  ceph_folder : string;           (* daq_core.ceph_folder *)
  output_folder : string;         (* daq_core.output_folder *)
  pre_folder : string;            (* daq_core.pre_folder *)
  non_registered_folder : string  (* daq_core.non_registered_folder *)
}.

Definition remove_live_after : Z := 24 * 3600.
Definition wait_after_processing : Z := 12 * 3600.
Definition remove_high_level_data : Z := 365 * 24 * 3600.
Definition nap_time : Z := 3600.
Definition short_nap : Z := 5.

Definition low_level_data : list string :=
  ["raw_records*"; "records*"; "veto_regions"; "pulse_counts";
   "led_calibration"; "peaklets"].

Definition thread_prefix : string := "ajax_delete".
Definition eb_can_clean_ceph : string := "eb0.xenon.local".

(** ** The state-and-exception monad *)

Inductive result (A : Type) : Type :=
| Ok (a : A)
| Raise (e : exn).
Arguments Ok {A} a.
Arguments Raise {A} e.

Definition ST (S A : Type) : Type := S -> result A * S.

Definition ret {S A : Type} (a : A) : ST S A := fun s => (Ok a, s).

Definition raise {S A : Type} (e : exn) : ST S A := fun s => (Raise e, s).

Definition bind {S A B : Type} (m : ST S A) (k : A -> ST S B) : ST S B :=
  fun s =>
    match m s with
    | (Ok a, s') => k a s'
    | (Raise e, s') => (Raise e, s')
    end.

Declare Scope py_scope.
Delimit Scope py_scope with py.
Notation "x <- m ;; k" := (bind m (fun x => k))
  (at level 61, m at next level, right associativity) : py_scope.
Notation "' p <- m ;; k" := (bind m (fun x => let p := x in k))
  (at level 61, p pattern, m at next level, right associativity) : py_scope.
Notation "m ;; k" := (bind m (fun _ => k))
  (at level 61, right associativity) : py_scope.
#[local] Open Scope py_scope.

(** Code that only touches the world. *)
Definition M (A : Type) : Type := ST world A.

(** Code that also mutates the run document it was handed. *)
Definition RD (A : Type) : Type := ST (rundoc * world) A.

Definition lift {A : Type} (m : M A) : RD A :=
  fun s =>
    match m (snd s) with
    | (r, w') => (r, (fst s, w'))
    end.

Definition get_rd : RD rundoc := fun s => (Ok (fst s), s).

Definition put_rd (rd : rundoc) : RD unit := fun s => (Ok tt, (rd, snd s)).

Definition of_result {S A : Type} (r : result A) : ST S A := fun s => (r, s).

Definition of_option {S A : Type} (o : option A) (e : exn) : ST S A :=
  match o with
  | Some a => ret a
  | None => raise e
  end.

(** ** The world's primitives *)

Definition emit (ev : event) : M unit :=
  fun w => (Ok tt, mkWorld (fs w) (run_coll w) (clock w) (stdin w) (ev :: trace w)).

(** [log.info], [log.warning], [log.error]. *)
Definition log_info (msg : string) : M unit := emit (EvLog "info" msg).
Definition log_warn (msg : string) : M unit := emit (EvLog "warning" msg).
Definition log_error (msg : string) : M unit := emit (EvLog "error" msg).

(** [log_warning(message, priority, run_id)]: the logger's method named by
    the priority in lower case, then the report to the DAQ log collection. *)
Definition log_warning (message priority : string) (run_id : option string) : M unit :=
  emit (EvLog (PyStr.lower priority) message) ;;
  emit (EvReport priority run_id message).

(** [now(plus)], in seconds. *)
Definition now (plus : Z) : M Z := fun w => (Ok (clock w + plus)%Z, w).

(** [time.sleep(seconds)]. *)
Definition sleep (seconds : Z) : M unit :=
  fun w => (Ok tt, mkWorld (fs w) (run_coll w) (clock w + seconds)%Z (stdin w)
                           (EvSleep seconds :: trace w)).

Definition in_strings (s : string) (l : list string) : bool :=
  existsb (String.eqb s) l.

(** [os.path.exists(path)]. *)
Definition path_exists (path : string) : M bool :=
  fun w => (Ok (in_strings path (fs w)), w).

(** [path] itself or something below it. *)
Definition under (path q : string) : bool :=
  (q =? path) || String.prefix (path ++ "/") q.

(** [shutil.rmtree(path)]. *)
Definition rmtree (path : string) : M unit :=
  fun w =>
    if in_strings path (fs w) then
      (Ok tt, mkWorld (filter (fun q => negb (under path q)) (fs w))
                      (run_coll w) (clock w) (stdin w) (EvRmtree path :: trace w))
    else (Raise (FileNotFoundError path), w).

(** The name of [q] in the directory [base], when [q] is directly in it. *)
Definition child_name (base q : string) : option string :=
  let b := if PyStr.endswith_slash base then base else base ++ "/" in
  if String.prefix b q then
    let name := String.substring (String.length b) (String.length q - String.length b) q in
    if (name =? "") || PyStr.contains "/" name then None else Some name
  else None.

Fixpoint children (base : string) (l : list string) : list string :=
  match l with
  | [] => []
  | q :: l' =>
      match child_name base q with
      | Some name => name :: children base l'
      | None => children base l'
      end
  end.

(** [os.listdir(base)]. *)
Definition listdir (base : string) : M (list string) :=
  fun w =>
    if in_strings base (fs w) then (Ok (children base (fs w)), w)
    else (Raise (FileNotFoundError base), w).

Definition rebase (src dst q : string) : string :=
  if under src q
  then dst ++ String.substring (String.length src) (String.length q - String.length src) q
  else q.

(** [shutil.move(src, dst)]: into [dst] when it exists, else a rename. *)
Definition move (src dst : string) : M unit :=
  fun w =>
    if negb (in_strings src (fs w)) then (Raise (FileNotFoundError src), w)
    else
      let real_dst :=
        if in_strings dst (fs w)
        then PyStr.path_join dst (PyStr.last_segment src) else dst in
      if in_strings dst (fs w) && in_strings real_dst (fs w)
      then (Raise (OSError ("Destination path '" ++ real_dst ++ "' already exists")), w)
      else (Ok tt, mkWorld (map (rebase src real_dst) (fs w))
                           (run_coll w) (clock w) (stdin w) (EvMove src dst :: trace w)).

(** The operator's answers: [input] until one is [y] or [n]. Only the first
    answer decides; after a first answer that is neither, [confirm] asks again
    and returns [None] whatever comes. *)
Fixpoint read_answer (lines : list string) : result bool * list string :=
  match lines with
  | [] => (Raise EOFError, [])
  | l :: rest =>
      let answer := PyStr.strip (PyStr.lower l) in
      if in_strings answer ["y"; "n"] then (Ok (answer =? "y"), rest)
      else
        match read_answer rest with
        | (Ok _, rest') => (Ok false, rest')
        | (Raise e, rest') => (Raise e, rest')
        end
  end.

(** [confirm(question)], as a truth value. *)
Definition confirm (e : env) (question : string) : M bool :=
  if negb (args_ask_confirm e) then ret true
  else fun w =>
    match read_answer (stdin w) with
    | (r, rest) => (r, mkWorld (fs w) (run_coll w) (clock w) rest (trace w))
    end.

(** ** The runs collection *)

(** A query is the predicate it stands for. *)
Definition query : Type := rundoc -> bool.

(** [run_coll.find_one(q)]. *)
Definition find_one (q : query) : M (option rundoc) :=
  fun w => (Ok (List.find q (run_coll w)), w).

(** [run_coll.find(q)], read in full. *)
Definition find_all (q : query) : M (list rundoc) :=
  fun w => (Ok (filter q (run_coll w)), w).

(** ["data.<field>": v]: some element of [data] has that field with value [v]. *)
Definition data_has (field : string) (v : string) (rd : rundoc) : bool :=
  existsb (fun d => match Dict.get field d with
                    | Some x => value_eqb x (VStr v)
                    | None => false
                    end) (data rd).

(** The condition of the [$pull]: [{"type": t, "host": {"$in": ["daq", host]}}]. *)
Definition pull_matches (host data_type : string) (d : ddoc) : bool :=
  match Dict.get "type" d, Dict.get "host" d with
  | Some t, Some h =>
      value_eqb t (VStr data_type) && (value_eqb h (VStr "daq") || value_eqb h (VStr host))
  | _, _ => false
  end.

(** [$addToSet]. *)
Definition add_to_set (x : ddoc) (l : list ddoc) : list ddoc :=
  if existsb (Dict.eqb x) l then l else (l ++ [x])%list.

(** The two operators of the update, on one document. *)
Definition apply_update (host : string) (added : ddoc) (data_type : string)
  (rd : rundoc) : rundoc :=
  mkRundoc (rd_id rd) (number rd) (bootstrax_state rd) (bootstrax_time rd)
           (bootstrax_host rd) (status rd) (start rd)
           (filter (fun d => negb (pull_matches host data_type d)) (data rd))
           (add_to_set added (deleted_data rd)).

Fixpoint update_first (id : nat) (f : rundoc -> rundoc) (l : list rundoc) : list rundoc :=
  match l with
  | [] => []
  | rd :: l' => if Nat.eqb (rd_id rd) id then f rd :: l' else rd :: update_first id f l'
  end.

(** [run_coll.update_one({"_id": id}, {"$addToSet": {"deleted_data": added},
    "$pull": {"data": {"type": data_type, "host": {"$in": ["daq", hostname]}}}})]. *)
Definition update_one (e : env) (id : nat) (added : ddoc) (data_type : string) : M unit :=
  fun w =>
    (Ok tt, mkWorld (fs w)
                    (update_first id (apply_update (hostname e) added data_type) (run_coll w))
                    (clock w) (stdin w) (EvUpdateOne id added data_type :: trace w)).

(** [set_state(state)]. *)
Definition set_state (state : string) : M unit := emit (EvSetState state).

(** ** Core functions *)

(** The text an f-string puts for a value. *)
Definition fmt (v : value) : string :=
  match v with
  | VStr s => s
  | VTime t => PyStr.of_Z t
  | VOther n => PyStr.of_nat n
  end.

(** [d[k]] where the code goes on to use it as a [str]: a value that is not
    one raises TypeError here, where the code would at that use. *)
Definition getitem_str {S : Type} (k : string) (d : ddoc) : ST S string :=
  match Dict.get k d with
  | None => raise (KeyError k)
  | Some (VStr s) => ret s
  | Some _ => raise (TypeError ("field " ++ k ++ " is not a str"))
  end.

(** The loop of [check_rundoc_for_live_and_raw]. *)
Fixpoint count_live_and_raw (l : list ddoc) (n_live_data n_raw_records : nat)
  : result (nat * nat) :=
  match l with
  | [] => Ok (n_live_data, n_raw_records)
  | dd :: l' =>
      match Dict.get "type" dd with
      | None => Raise (KeyError "type")
      | Some t =>
          count_live_and_raw l'
            (if value_eqb t (VStr "live") then S n_live_data else n_live_data)
            (if value_eqb t (VStr "raw_records") then S n_raw_records else n_raw_records)
      end
  end.

(** [check_rundoc_for_live_and_raw(rd)]; [rd] is [None] when a [find_one]
    found nothing. *)
Definition check_rundoc_for_live_and_raw (rd : option rundoc) : result (nat * nat) :=
  match rd with
  | None => Raise (TypeError "'NoneType' object is not subscriptable")
  | Some rd => count_live_and_raw (data rd) 0 0
  end.

(** [_rmtree(path)]. *)
Definition _rmtree (e : env) (path : string) : M unit :=
  if args_production e then
    ok <- confirm e ("delete " ++ path ++ "?") ;;
    if ok then rmtree path else ret tt
  else
    log_info ("TESTING:	shutil.rmtree(" ++ path ++ ")") ;;
    ex <- path_exists path ;;
    if negb ex then raise (ValueError (path ++ " does not exist")) else ret tt.

Definition essential_copy_message (what : string) (n_live n_rr : nat) : string :=
  "Trying to delete " ++ what ++ " but we only have " ++ PyStr.of_nat n_live ++
  " live- and " ++ PyStr.of_nat n_rr ++
  " raw_record-files in the runs-database. This might be an essential copy of the data!".

(** [n_live or n_rr >= 1 + int("raw_records" in what)]. *)
Definition enough_copies (what : string) (n_live n_rr : nat) : bool :=
  negb (Nat.eqb n_live 0) ||
  (1 + (if PyStr.contains "raw_records" what then 1 else 0) <=? n_rr)%nat.

(** The first statement of [delete_data]: the check on the copies that are
    left, lines 526 to 537. *)
Definition low_data_check (e : env) (data_type : string)
  (test ignore_low_data_check : bool) : RD unit :=
  if negb ignore_low_data_check then
    rd <- get_rd ;;
    '(n_live, n_rr) <- of_result (check_rundoc_for_live_and_raw (Some rd)) ;;
    if negb (enough_copies data_type n_live n_rr) then
      let message := essential_copy_message data_type n_live n_rr in
      lift (log_warning message "fatal" (Some (PyStr.format06 (number rd)))) ;;
      if negb test then raise (ValueError message) else ret tt
    else ret tt
  else ret tt.

(** The [for ... break] of [delete_data]: the index of the first element with
    that type on ["daq"] or this host; without one the loop variable keeps
    the last element, and is unbound when [data] is empty. *)
Fixpoint select_ddoc (host data_type : string) (l : list ddoc) (i : nat) : result nat :=
  match l with
  | [] => match i with
          | O => Raise (UnboundLocalError "ddoc")
          | S j => Ok j
          end
  | d :: l' =>
      match Dict.get "type" d with
      | None => Raise (KeyError "type")
      | Some t =>
          if value_eqb t (VStr data_type) then
            match Dict.get "host" d with
            | None => Raise (KeyError "host")
            | Some h =>
                if value_eqb h (VStr "daq") || value_eqb h (VStr host)
                then Ok i
                else select_ddoc host data_type l' (S i)
            end
          else select_ddoc host data_type l' (S i)
      end
  end.

(** What [delete_data] makes of the element it selected. *)
Definition deletion_record (host reason : string) (at_time : Z) (d : ddoc) : ddoc :=
  Dict.update [("at", VTime at_time); ("by", VStr ("ajax." ++ host)); ("reason", VStr reason)]
              (Dict.pop_all ["location"; "meta"; "protocol"] d).

Fixpoint replace_nth (i : nat) (x : ddoc) (l : list ddoc) : list ddoc :=
  match l, i with
  | [], _ => []
  | _ :: l', O => x :: l'
  | y :: l', S j => y :: replace_nth j x l'
  end.

(** [delete_data(rd, path, data_type, test, ignore_low_data_check, reason)];
    [rd] is the state of [RD]. *)
Definition delete_data (e : env) (path data_type : string)
  (test ignore_low_data_check : bool) (reason : string) : RD unit :=
  low_data_check e data_type test ignore_low_data_check ;;
  ex <- lift (path_exists path) ;;
  (if ex then
     lift (log_info ("Deleting data at " ++ path)) ;;
     (if negb test then lift (_rmtree e path) else ret tt) ;;
     lift (log_info ("deleting " ++ path ++ " finished"))
   else
     lift (log_info ("There is no data on " ++ path ++ "! Just doing the rundoc."))) ;;
  still <- lift (path_exists path) ;;
  if negb still then
    lift (log_info "changing data field in rundoc") ;;
    rd <- get_rd ;;
    i <- of_result (select_ddoc (hostname e) data_type (data rd) 0) ;;
    old <- of_option (nth_error (data rd) i) (UnboundLocalError "ddoc") ;;
    t <- lift (now 0) ;;
    let ddoc := deletion_record (hostname e) reason t old in
    put_rd (set_data rd (replace_nth i ddoc (data rd))) ;;
    lift (log_info "update with {ddoc}") ;;
    if args_production e && negb test then
      ok <- lift (confirm e "update rundoc?") ;;
      if ok then lift (update_one e (rd_id rd) ddoc data_type) else ret tt
    else lift (log_info "Update ddoc with : {ddoc}")
  else if negb test && negb (args_ask_confirm e) then
    raise (ValueError ("Something went wrong we wanted to delete " ++ path ++ "!"))
  else ret tt.

(** [threaded_delete_data]: the thread runs [delete_data] on the same [rd];
    whatever it raises stays in the thread. The thread is taken to have
    ended before the main thread goes on, so its [delete_data] runs here,
    between the two log lines of the main thread (which carry the time as
    well, left out of the messages). *)
Definition threaded_delete_data (e : env) (path data_type : string)
  (test ignore_low_data_check : bool) (reason : string) : RD unit :=
  let thread_name := thread_prefix ++ PyStr.last_segment path in
  lift (log_info ("Starting thread to delete " ++ path)) ;;
  lift (emit (EvThreadStart thread_name)) ;;
  (fun s => (Ok tt, snd (delete_data e path data_type test ignore_low_data_check reason s))) ;;
  lift (log_info ("DeleteThread " ++ path ++ " should be running in parallel, continue MainThread now")).

(** [wait_on_delete_thread()]. In the schedule of the embedding the delete
    threads have ended when this is reached: [threading.enumerate()] holds
    none, the poll of [Thread.isAlive] is not entered, and the log line is
    all that happens. (A thread found alive is polled every [short_nap]
    seconds where [Thread.isAlive] exists; Python 3.9 and later have
    dropped it, and the poll raises AttributeError there.) [EvJoinThreads]
    marks the wait in the trace. *)
Definition wait_on_delete_thread : M unit :=
  emit EvJoinThreads ;;
  log_info ("wait_on_delete_thread::	Checked that all " ++ thread_prefix ++ "* finished").

(** Run code that holds [rd]; the object is dropped at the end. *)
Definition with_rd {A : Type} (rd : rundoc) (m : RD A) : M A :=
  fun w => match m (rd, w) with
           | (r, s) => (r, snd s)
           end.

Definition host_is (h : string) (d : ddoc) : bool :=
  match Dict.get "host" d with
  | Some v => value_eqb v (VStr h)
  | None => false
  end.

(** One round of the loop of [remove_run_from_host] over [rd["data"]]. *)
Definition remove_run_from_host_step (e : env) (number : Z)
  (delete_live force : bool) (reason : string) (have_live_data have_raw_records : nat)
  (i : nat) : RD unit :=
  rd <- get_rd ;;
  match nth_error (data rd) i with
  | None => ret tt
  | Some ddoc =>
      if host_is (hostname e) ddoc then
        if delete_live then ret tt
        else
          loc <- getitem_str "location" ddoc ;;
          protect <-
            (if negb force && Nat.eqb have_live_data 0 then
               ty <- getitem_str "type" ddoc ;; ret (PyStr.contains "raw_records" ty)
             else ret false) ;;
          if protect then
            lift (log_info ("prevent " ++ loc ++
                            " from being deleted. The live_data has already been removed"))
          else
            lift (log_info ("delete data at " ++ loc)) ;;
            ty <- getitem_str "type" ddoc ;;
            delete_data e loc ty (negb (args_production e)) force reason ;;
            let loc := loc ++ "_temp" in
            ex <- lift (path_exists loc) ;;
            if ex then
              lift (log_info ("delete data at " ++ loc)) ;;
              rd' <- get_rd ;;
              ddoc' <- of_option (nth_error (data rd') i) (UnboundLocalError "ddoc") ;;
              ty' <- getitem_str "type" ddoc' ;;
              delete_data e loc ty' (negb (args_production e)) force reason
            else ret tt
      else if host_is "daq" ddoc then
        if negb delete_live then
          l <- of_option (Dict.get "location" ddoc) (KeyError "location") ;;
          lift (log_info ("prevent " ++ fmt l ++
                          " from being deleted. Do so with --delete_live"))
        else
          let run_id := PyStr.format06 number in
          l <- getitem_str "location" ddoc ;;
          let loc := PyStr.path_join l run_id in
          if negb force && Nat.eqb have_raw_records 0 then
            lift (log_warning ("Unsafe to delete " ++ loc ++
                               ", no raw_records registered. Force with --force")
                              "info" None)
          else if negb force && negb (Nat.eqb have_raw_records 0) then
            lift (log_info ("Deleting " ++ loc ++ " since we have raw_records registered.")) ;;
            ty <- getitem_str "type" ddoc ;;
            threaded_delete_data e loc ty (negb (args_production e)) false reason
          else if force then
            lift (log_info ("Forcefully delete " ++ loc ++ ", but no raw_records registered!")) ;;
            ty <- getitem_str "type" ddoc ;;
            threaded_delete_data e loc ty (negb (args_production e)) true reason
          else ret tt
      else ret tt
  end.

(** [for ddoc in rd["data"]]: the rounds [i], [i+1], ... *)
Fixpoint remove_run_from_host_loop (e : env) (number : Z)
  (delete_live force : bool) (reason : string) (have_live_data have_raw_records : nat)
  (rounds i : nat) : RD unit :=
  match rounds with
  | O => ret tt
  | S rounds' =>
      remove_run_from_host_step e number delete_live force reason
                                have_live_data have_raw_records i ;;
      remove_run_from_host_loop e number delete_live force reason
                                have_live_data have_raw_records rounds' (S i)
  end.

(** [{"number": number, "data.host": host}]. *)
Definition number_on_host (n : Z) (host : string) : query :=
  fun rd => Z.eqb (number rd) n && data_has "host" host rd.

(** [remove_run_from_host(number, delete_live, force, reason)]. *)
Definition remove_run_from_host (e : env) (number : Z)
  (delete_live force : bool) (reason : string) : M unit :=
  rd <- find_one (number_on_host number (if negb delete_live then hostname e else "daq")) ;;
  match rd with
  | None =>
      log_warning ("No registered data for " ++ PyStr.of_Z number ++ " on " ++ hostname e)
                  "info" (Some (PyStr.format06 number))
  | Some rd =>
      '(have_live_data, have_raw_records) <-
        of_result (check_rundoc_for_live_and_raw (Some rd)) ;;
      with_rd rd (remove_run_from_host_loop e number delete_live force reason
                    have_live_data have_raw_records (length (data rd)) 0)
  end.


(** ** Cleaning modes *)

(** The query of [clean_ceph], with the two times already computed. *)
Definition ceph_query (started_before processed_before : Z) : query :=
  fun rd =>
    (bootstrax_state rd =? "done") && (status rd =? "transferred")
    && (start rd <? started_before)%Z
    && (bootstrax_time rd <? processed_before)%Z
    && data_has "type" "live" rd.

(** [clean_ceph()]; [depth] is how many frames of it the interpreter still
    allows. *)
Fixpoint clean_ceph (depth : nat) (e : env) : M unit :=
  match depth with
  | O => raise RecursionError
  | S depth' =>
      set_state "clean_ceph" ;;
      if negb (hostname e =? eb_can_clean_ceph) then
        log_info ("for cleaning ceph, go to " ++ eb_can_clean_ceph)
      else
        started_before <- now (- remove_live_after) ;;
        processed_before <- now (- wait_after_processing) ;;
        rd <- find_one (ceph_query started_before processed_before) ;;
        match rd with
        | None => ret tt
        | Some rd =>
            let run_number := number rd in
            log_info ("remove data associated to run " ++ PyStr.of_Z run_number) ;;
            remove_run_from_host e run_number true (args_force e) "clean ceph" ;;
            log_info ("finished for " ++ PyStr.of_Z run_number ++ ", take a " ++
                      PyStr.of_Z short_nap ++ " s nap") ;;
            sleep short_nap ;;
            if args_production e then
              wait_on_delete_thread ;;
              clean_ceph depth' e
            else ret tt
        end
  end.

(** The alternatives of ["|".join(low_level_data)] match somewhere in a string
    exactly when one of these is in it: [s*] is any number of [s]. *)
Definition low_level_stems : list string :=
  ["raw_record"; "record"; "veto_regions"; "pulse_counts"; "led_calibration"; "peaklets"].

(** [re.findall("|".join(low_level_data), ty)], as a truth value. *)
Definition is_low_level (ty : string) : bool :=
  existsb (fun stem => PyStr.contains stem ty) low_level_stems.

(** The inner loop of [clean_high_level_data], after the [raise]. *)
Fixpoint clean_high_level_ddocs (e : env) (rounds i : nat) : RD unit :=
  match rounds with
  | O => ret tt
  | S rounds' =>
      rd <- get_rd ;;
      (match nth_error (data rd) i with
       | None => ret tt
       | Some ddoc =>
           if host_is (hostname e) ddoc then
             ty <- getitem_str "type" ddoc ;;
             if is_low_level ty then ret tt
             else
               loc <- getitem_str "location" ddoc ;;
               if PyStr.contains "raw_records" ty then
                 raise (ValueError "your regex syntax fails!")
               else
                 ex <- lift (path_exists loc) ;;
                 let loc := if ex then loc else loc ++ "_temp" in
                 lift (log_info ("delete data at " ++ loc)) ;;
                 delete_data e loc ty (negb (args_production e)) false "high level data"
           else ret tt
       end) ;;
      clean_high_level_ddocs e rounds' (S i)
  end.

Fixpoint clean_high_level_runs (e : env) (rds : list rundoc) : M unit :=
  match rds with
  | [] => ret tt
  | rd :: rds' =>
      '(_, have_raw_records) <- of_result (check_rundoc_for_live_and_raw (Some rd)) ;;
      if Nat.eqb have_raw_records 0 then ret tt
      else
        with_rd rd (clean_high_level_ddocs e (length (data rd)) 0) ;;
        clean_high_level_runs e rds'
  end.

(** [clean_high_level_data()]: everything after the [raise] is kept as the
    source has it. *)
Definition clean_high_level_data (e : env) : M unit :=
  set_state "clean_high_level_data" ;;
  @raise world unit
    (NotImplementedError
       "This is a drastic measure that we do not intend using at the time of writing") ;;
  old <- now (- remove_high_level_data) ;;
  rds <- find_all (fun rd =>
           (bootstrax_state rd =? "done") && (status rd =? "transferred")
           && (start rd <? old)%Z && data_has "host" (hostname e) rd) ;;
  clean_high_level_runs e rds.

(** The first loop of [clean_non_latest] over [rd["data"]]: raw_records on
    another host. *)
Fixpoint raw_records_elsewhere (host : string) (l : list ddoc) : result bool :=
  match l with
  | [] => Ok false
  | dd :: l' =>
      match Dict.get "type" dd with
      | None => Raise (KeyError "type")
      | Some t =>
          if value_eqb t (VStr "raw_records") then
            match Dict.get "host" dd with
            | None => Raise (KeyError "host")
            | Some h =>
                if negb (value_eqb h (VStr host)) then Ok true
                else raw_records_elsewhere host l'
            end
          else raw_records_elsewhere host l'
      end
  end.

Fixpoint clean_non_latest_ddocs (e : env) (rounds i : nat) : RD unit :=
  match rounds with
  | O => ret tt
  | S rounds' =>
      rd <- get_rd ;;
      (match nth_error (data rd) i with
       | None => ret tt
       | Some ddoc =>
           if host_is (hostname e) ddoc then
             loc <- getitem_str "location" ddoc ;;
             ex <- lift (path_exists loc) ;;
             let loc := if ex then loc else loc ++ "_temp" in
             lift (log_info ("clean_non_latest::	delete data at " ++ loc)) ;;
             ty <- getitem_str "type" ddoc ;;
             delete_data e loc ty (negb (args_production e)) false "non latest"
           else ret tt
       end) ;;
      clean_non_latest_ddocs e rounds' (S i)
  end.

Fixpoint clean_non_latest_runs (e : env) (rds : list rundoc) : M unit :=
  match rds with
  | [] => ret tt
  | rd :: rds' =>
      have_raw_records <- of_result (raw_records_elsewhere (hostname e) (data rd)) ;;
      if negb have_raw_records then ret tt
      else
        with_rd rd (clean_non_latest_ddocs e (length (data rd)) 0) ;;
        clean_non_latest_runs e rds'
  end.

(** [clean_non_latest()]. *)
Definition clean_non_latest (e : env) : M unit :=
  set_state "clean_non_latest" ;;
  processed_before <- now (- wait_after_processing) ;;
  rds <- find_all (fun rd =>
           (bootstrax_state rd =? "done") && (status rd =? "transferred")
           && (bootstrax_time rd <? processed_before)%Z
           && negb (bootstrax_host rd =? hostname e)
           && data_has "host" (hostname e) rd) ;;
  clean_non_latest_runs e rds.

(** The [for rd in rds] of [clean_abandoned]: at most [i_max] runs; the
    result is the counter [i]. *)
Fixpoint clean_abandoned_runs (e : env) (delete_live : bool) (i_max : nat)
  (rds : list rundoc) (i : nat) : M nat :=
  match rds with
  | [] => ret i
  | rd :: rds' =>
      if (i_max <=? i)%nat then ret i
      else
        let run_number := number rd in
        log_info ("clean_abandoned::	remove data associated to run " ++
                  PyStr.of_Z run_number) ;;
        remove_run_from_host e run_number delete_live true "run abandonned" ;;
        clean_abandoned_runs e delete_live i_max rds' (S i)
  end.

(** [clean_abandoned(delete_live)]. *)
Fixpoint clean_abandoned (depth : nat) (e : env) (delete_live : bool) : M unit :=
  match depth with
  | O => raise RecursionError
  | S depth' =>
      set_state "clean_abandoned" ;;
      rds <-
        (if negb delete_live then
           rd <- find_one (fun rd => (bootstrax_state rd =? "abandoned")
                                     && data_has "host" (hostname e) rd) ;;
           match rd with
           | None => ret None
           | Some rd => ret (Some [rd])
           end
         else
           processed_before <- now (- wait_after_processing) ;;
           rds <- find_all (fun rd =>
                    (bootstrax_state rd =? "abandoned")
                    && (bootstrax_time rd <? processed_before)%Z
                    && data_has "location" "/live_data/xenonnt" rd
                    && data_has "host" "daq" rd) ;;
           ret (Some rds)) ;;
      match rds with
      | None => log_info "clean_abandoned::	No more matches in rundoc"
      | Some rds =>
          let i_max := if args_ask_confirm e then 1 else 5 in
          i <- clean_abandoned_runs e delete_live i_max rds 0 ;;
          if Nat.eqb i 0 then
            log_info "clean_abandoned::	No more live_data matches in rundoc"
          else if args_production e then
            (if delete_live then wait_on_delete_thread else ret tt) ;;
            clean_abandoned depth' e delete_live
          else ret tt
      end
  end.

(** ** Unregistered data *)

(** [any(ddoc.get("location", "").startswith(clean_from) for ddoc in data)]. *)
Fixpoint any_location_under (clean_from : string) (l : list ddoc) : result bool :=
  match l with
  | [] => Ok false
  | ddoc :: l' =>
      match Dict.get "location" ddoc with
      | None =>
          if PyStr.startswith "" clean_from then Ok true
          else any_location_under clean_from l'
      | Some (VStr loc) =>
          if PyStr.startswith loc clean_from then Ok true
          else any_location_under clean_from l'
      | Some _ => Raise (AttributeError "startswith")
      end
  end.

(** The loop of [_remove_unregistered_run] over the listing; the result is
    [deleted_data]. *)
Fixpoint remove_unregistered_folders (e : env) (base_folder run_id : string)
  (folders : list string) (deleted_data : bool) : M bool :=
  match folders with
  | [] => ret deleted_data
  | folder :: folders' =>
      if PyStr.contains run_id folder then
        log_info ("Cleaning " ++ base_folder ++ folder) ;;
        n <- of_option (PyStr.to_Z run_id)
                       (ValueError ("invalid literal for int() with base 10: " ++ run_id)) ;;
        rd <- find_one (fun rd => Z.eqb (number rd) n) ;;
        '(n_live, n_rr) <- of_result (check_rundoc_for_live_and_raw rd) ;;
        if negb (enough_copies folder n_live n_rr) then
          let message := essential_copy_message folder n_live n_rr in
          log_warning message "fatal" (Some run_id) ;;
          raise (ValueError message)
        else
          (if args_production e then
             ok <- confirm e ("Should we really move " ++ PyStr.path_join base_folder folder
                              ++ " to " ++ PyStr.path_join (non_registered_folder e) folder
                              ++ "?") ;;
             if ok then move (PyStr.path_join base_folder folder)
                             (PyStr.path_join (non_registered_folder e) folder)
             else ret tt
           else log_info ("TEST	moving " ++ base_folder ++ folder)) ;;
          remove_unregistered_folders e base_folder run_id folders' true
      else remove_unregistered_folders e base_folder run_id folders' deleted_data
  end.

(** [_remove_unregistered_run(base_folder, run_id, checked_db)]. *)
Definition _remove_unregistered_run (e : env) (base_folder run_id : string)
  (checked_db : bool) : M unit :=
  if negb checked_db then
    log_warning ("remove_if_unregistered::	rogue ajax operations! Trying to delete " ++
                 run_id ++ " from " ++ hostname e) "fatal" (Some run_id) ;;
    raise (ValueError ("Only insert runs where for it is checked that it is " ++
                       "not registered in the runs database and double checked."))
  else
    log_warning ("No data for " ++ run_id ++ " found! Double checking " ++ base_folder ++ "!")
                "warning" (Some run_id) ;;
    folders <- listdir base_folder ;;
    deleted_data <- remove_unregistered_folders e base_folder run_id folders false ;;
    if negb deleted_data then
      let message := "No data registered on " ++ hostname e ++ " for " ++ run_id in
      log_warning message "fatal" None ;;
      raise (FileNotFoundError message)
    else ret tt.

(** [remove_if_unregistered(number, delete_live, clean_from)]. *)
Definition remove_if_unregistered (e : env) (number : Z) (delete_live : bool)
  (clean_from : string) : M unit :=
  rd <- find_one (number_on_host number (if negb delete_live then hostname e else "daq")) ;;
  let run_id := PyStr.format06 number in
  registered <-
    match rd with
    | None => ret false
    | Some rd => of_result (any_location_under clean_from (data rd))
    end ;;
  if registered then ret tt
  else
    log_warning ("remove_if_unregistered::	run " ++ PyStr.of_Z number ++
                 " is NOT registered in the runDB but is stored on " ++ hostname e)
                "error" (Some run_id) ;;
    if negb delete_live then _remove_unregistered_run e clean_from run_id true
    else _remove_unregistered_run e (ceph_folder e) run_id true.

(** ** The main loop *)

(** [str(exception)]. *)
Definition exn_message (x : exn) : string :=
  match x with
  | KeyboardInterrupt | SystemExit | EOFError => ""
  | RecursionError => "maximum recursion depth exceeded"
  | NotImplementedError m | ValueError m | TypeError m | AttributeError m
  | FileNotFoundError m | OSError m => m
  | KeyError k => "'" ++ k ++ "'"
  | UnboundLocalError n => "local variable '" ++ n ++ "' referenced before assignment"
  end.

(** The first [except] clause of the loop of [main_ajax]. *)
Definition stops_the_loop (x : exn) : bool :=
  match x with
  | KeyboardInterrupt | SystemExit | NotImplementedError _ => true
  | _ => false
  end.

(** The body of the [try] for [--clean all]. *)
Definition cleaning_sequence (depth : nat) (e : env) : M unit :=
  (if hostname e =? eb_can_clean_ceph then
     clean_ceph depth e ;;
     clean_abandoned depth e true
   else ret tt) ;;
  clean_abandoned depth e false ;;
  clean_non_latest e.

Inductive loop_end : Type :=
| Returned        (* the [break]: one pass without [--production] *)
| StillRunning.   (* the rounds given to the model are used up *)

(** [while True: try: ... except ...] of [main_ajax], for a given body. The
    report of the second clause cannot fail here, so its inner [try] has no
    branch to take. *)
Fixpoint main_loop (sequence : M unit) (e : env) (rounds : nat) : M loop_end :=
  match rounds with
  | O => ret StillRunning
  | S rounds' =>
      fun w =>
        match sequence w with
        | (Ok tt, w1) =>
            if negb (args_production e) then (Ok Returned, w1)
            else
              (log_info ("Loop finished, take a " ++ PyStr.of_Z nap_time ++ " s nap") ;;
               sleep nap_time ;;
               main_loop sequence e rounds') w1
        | (Raise x, w1) =>
            if stops_the_loop x then
              (log_info "Stopping, wait a second for the delete threads" ;;
               wait_on_delete_thread ;;
               raise x) w1
            else
              (log_error ("Fatal warning:	ran into " ++ exn_message x ++
                          ". Try logging error and restart ajax") ;;
               log_warning ("Fatal warning:	ran into " ++ exn_message x) "error" None ;;
               sleep 60 ;;
               log_warn "Restarting main loop" ;;
               main_loop sequence e rounds') w1
        end
  end.

(** The loop of [main_ajax] for [--clean all]. *)
Definition main_ajax_all (depth : nat) (e : env) (rounds : nat) : M loop_end :=
  main_loop (cleaning_sequence depth e) e rounds.

(** [main_ajax()] with [--number]: one run, then the wait. *)
Definition main_ajax_number (e : env) (number : Z) (delete_live : bool) : M unit :=
  remove_run_from_host e number delete_live (args_force e) "manual" ;;
  wait_on_delete_thread.

(** The [except] clause around [main_ajax()] at the end of the script. *)
Definition interrupts (x : exn) : bool :=
  match x with
  | KeyboardInterrupt | SystemExit => true
  | _ => false
  end.

(** The last lines of the script: [set_state("idle")] and [main_ajax()] in
    their [try], and the wait that follows a normal return. *)
Definition main {A : Type} (main_ajax : M A) : M A :=
  fun w =>
    match (set_state "idle" ;; main_ajax) w with
    | (Ok a, w1) => (wait_on_delete_thread ;; ret a) w1
    | (Raise x, w1) =>
        if interrupts x then
          (log_info "Stopping, wait a second for the delete threads" ;;
           wait_on_delete_thread ;;
           raise x) w1
        else (Raise x, w1)
    end.

(** ** The other cleaning modes *)

Module PyLib.

(** [s.split(sep)] for a separator of one character. *)
Fixpoint split_from (sep : ascii) (acc s : string) : list string :=
  match s with
  | EmptyString => [acc]
  | String c s' =>
      if Ascii.eqb c sep then acc :: split_from sep "" s'
      else split_from sep (acc ++ String c "") s'
  end.

Definition split (sep : ascii) (s : string) : list string := split_from sep "" s.

(** The white space that [int] strips from the ends of a [str]. Of ASCII text
    it is tab to carriage return (9 to 13) and the blank: unlike
    [str.strip], [int] leaves the separators 28 to 31, on which it fails. A
    [str] with a character beyond ASCII has its Unicode white space beyond
    ASCII, the next-line character (133) and the no-break space (160) here,
    turned into blanks first. *)
Definition is_space (c : ascii) : bool :=
  let n := nat_of_ascii c in
  ((9 <=? n)%nat && (n <=? 13)%nat) || (n =? 32)%nat
  || (n =? 133)%nat || (n =? 160)%nat.

Fixpoint lstrip (s : string) : string :=
  match s with
  | String c s' => if is_space c then lstrip s' else s
  | EmptyString => ""
  end.

Fixpoint rstrip (s : string) : string :=
  match s with
  | EmptyString => ""
  | String c s' =>
      match rstrip s' with
      | EmptyString => if is_space c then "" else String c ""
      | r => String c r
      end
  end.

Definition is_digit (c : ascii) : bool :=
  let n := nat_of_ascii c in (48 <=? n)%nat && (n <=? 57)%nat.

Definition digit_value (c : ascii) : Z := Z.of_nat (nat_of_ascii c - 48).

(** Decimal digits, with single underscores between them. *)
Fixpoint digits (s : string) (acc : Z) (after_digit : bool) : option Z :=
  match s with
  | EmptyString => if after_digit then Some acc else None
  | String c s' =>
      if is_digit c then digits s' (10 * acc + digit_value c)%Z true
      else if Ascii.eqb c "_" && after_digit then digits s' acc false
      else None
  end.

(** [int(s)] for a [str]: white space at the ends, a sign, and decimal
    digits (below 256 the only ones are 0 to 9) with single underscores
    between them; [None] is [ValueError]. *)
Definition int_of_str (s : string) : option Z :=
  match rstrip (lstrip s) with
  | String "-" r => option_map Z.opp (digits r 0 false)
  | String "+" r => digits r 0 false
  | t => digits t 0 false
  end.

(** A [str] read back from a NumPy array: NumPy keeps strings at a fixed
    width, padded with NUL characters, and a value it hands back has lost
    the NUL characters at its end. *)
Fixpoint rstrip_nul (s : string) : string :=
  match s with
  | EmptyString => ""
  | String c s' =>
      match rstrip_nul s' with
      | EmptyString => if Ascii.eqb c zero then "" else String c ""
      | r => String c r
      end
  end.

Fixpoint insert_unique (x : string) (l : list string) : list string :=
  match l with
  | [] => [x]
  | y :: l' =>
      match String.compare x y with
      | Lt => x :: y :: l'
      | Eq => y :: l'
      | Gt => y :: insert_unique x l'
      end
  end.

(** [np.unique] of a list of [str]: the values as NumPy keeps them, sorted,
    each once. *)
Definition unique (l : list string) : list string :=
  fold_right insert_unique [] (map rstrip_nul l).

End PyLib.

(** The loop of [clean_unregistered] over the run identifiers. *)
Fixpoint clean_unregistered_runs (e : env) (delete_live : bool) (_clean_from : string)
  (run_ids : list string) : M unit :=
  match run_ids with
  | [] => ret tt
  | run_id :: run_ids' =>
      run_number <- of_option (PyLib.int_of_str run_id)
                      (ValueError ("invalid literal for int() with base 10: '" ++ run_id ++ "'")) ;;
      remove_if_unregistered e run_number delete_live _clean_from ;;
      clean_unregistered_runs e delete_live _clean_from run_ids'
  end.

(** [clean_unregistered(delete_live, _clean_from)]. *)
Definition clean_unregistered (e : env) (delete_live : bool) (_clean_from : string) : M unit :=
  set_state "clean_unregistered" ;;
  let folder_to_check := if negb delete_live then _clean_from else ceph_folder e in
  all_data <- listdir folder_to_check ;;
  let run_ids := PyLib.unique (map (fun f => hd "" (PyLib.split "-" f)) all_data) in
  log_info ("clean_unregistered::	found " ++ PyStr.of_nat (length run_ids) ++
            " runs stored on" ++ folder_to_check ++
            ". Checking that each is in the runs-database") ;;
  clean_unregistered_runs e delete_live _clean_from run_ids.

(** [clean_production_folder()]; the warning and the progress bar go to the
    terminal only. *)
Definition clean_production_folder (e : env) : M unit :=
  clean_unregistered e false (output_folder e).

(** What [clean_old_hash] asks of the straxen context [st]. *)
Record context : Type := mkContext {
  _plugin_class_registry : list string;       (* the keys of st._plugin_class_registry *)
  key_for_lineage_hash : string -> string -> string
                                              (* st.key_for(run_id, data_type).lineage_hash *)
}.

(** The loop of [clean_old_hash] over the files. *)
Fixpoint clean_old_hash_files (st : context) (e : env) (files : list string) : M unit :=
  match files with
  | [] => ret tt
  | f :: files' =>
      match PyLib.split "-" f with
      | [run_id; data_type; lineage_hash] =>
          (if is_low_level data_type || PyStr.contains "_temp" lineage_hash then ret tt
           else if negb (in_strings data_type (_plugin_class_registry st)) then
             log_warn (data_type ++ " is not registered!")
           else
             let current_st_hash := key_for_lineage_hash st run_id data_type in
             if negb (current_st_hash =? lineage_hash) then
               let loc := PyStr.path_join (output_folder e) f in
               log_info ("clean_old_hash::	Lineage for run " ++ run_id ++ ", " ++ data_type ++
                         " is " ++ current_st_hash ++ ". Removing old hash: " ++
                         lineage_hash ++ " from " ++ loc ++ ".") ;;
               processed_before <- now (- wait_after_processing) ;;
               n <- of_option (PyLib.int_of_str run_id)
                      (ValueError ("invalid literal for int() with base 10: '" ++
                                   run_id ++ "'")) ;;
               rd <- find_one (fun rd =>
                       (bootstrax_state rd =? "done") && (status rd =? "transferred")
                       && (bootstrax_time rd <? processed_before)%Z
                       && data_has "type" data_type rd
                       && data_has "host" (hostname e) rd
                       && Z.eqb (number rd) n) ;;
               if PyStr.contains "raw_records" data_type then
                 raise (ValueError ("You did some sloppy regex on the data-type, almost deleted "
                                    ++ data_type ++ "!"))
               else
                 match rd with
                 | Some rd =>
                     with_rd rd (delete_data e loc data_type (negb (args_production e)) false
                                             "old lineage hash")
                 | None =>
                     log_info (data_type ++ " at " ++ loc ++ " not registered as done for " ++
                               run_id ++ ". Perhaps the data still processing the run?")
                 end
             else ret tt) ;;
          clean_old_hash_files st e files'
      | parts =>
          raise (ValueError
                   (if (length parts <? 3)%nat
                    then "not enough values to unpack (expected 3, got " ++
                         PyStr.of_nat (length parts) ++ ")"
                    else "too many values to unpack (expected 3)"))
      end
  end.

(** [clean_old_hash()]. *)
Definition clean_old_hash (st : context) (e : env) : M unit :=
  set_state "clean_old_hash" ;;
  files <- listdir (output_folder e) ;;
  clean_old_hash_files st e files.

(** The loop of [clean_database] over [rd["data"]]. *)
Fixpoint clean_database_ddocs (e : env) (delete_live : bool) (rounds i : nat) : RD unit :=
  match rounds with
  | O => ret tt
  | S rounds' =>
      rd <- get_rd ;;
      (match nth_error (data rd) i with
       | None => ret tt
       | Some ddoc =>
           if host_is (hostname e) ddoc || (host_is "daq" ddoc && delete_live) then
             loc <- getitem_str "location" ddoc ;;
             ex <- lift (path_exists loc) ;;
             if negb ex then
               lift (log_info ("clean_database::	delete entry of data from " ++
                               PyStr.of_Z (number rd) ++ " at " ++ loc ++
                               " as it does not exist")) ;;
               ty <- getitem_str "type" ddoc ;;
               delete_data e loc ty (negb (args_production e)) false
                           "reason already removed from eb?!"
             else ret tt
           else ret tt
       end) ;;
      clean_database_ddocs e delete_live rounds' (S i)
  end.

Fixpoint clean_database_runs (e : env) (delete_live : bool) (rds : list rundoc) : M unit :=
  match rds with
  | [] => ret tt
  | rd :: rds' =>
      with_rd rd (clean_database_ddocs e delete_live (length (data rd)) 0) ;;
      clean_database_runs e delete_live rds'
  end.

(** [clean_database(delete_live)]. *)
Definition clean_database (e : env) (delete_live : bool) : M unit :=
  set_state "clean_database" ;;
  processed_before <- now (- wait_after_processing) ;;
  rds <- find_all (fun rd =>
           (bootstrax_state rd =? "done")
           && (bootstrax_time rd <? processed_before)%Z
           && data_has "host" (if negb delete_live then hostname e else "daq") rd) ;;
  clean_database_runs e delete_live rds.

(** The command line beyond [env]: [--number], [--clean], [--delete_live]. *)
Record cli : Type := mkCli {
  args_number : option Z;
  args_clean : option string;
  args_delete_live : bool
}.

(** The keys of [_modes]. *)
Definition _modes : list string :=
  ["ceph"; "high_level_data"; "non_latest"; "unregistered"; "production"; "abandoned";
   "old_hash"; "database"].

(** [_modes[mode]()] and [_modes[mode](delete_live=True)]: a function that
    has no such parameter raises TypeError when it is given. *)
Definition run_mode (st : context) (depth : nat) (e : env) (mode : string)
  (delete_live : option bool) : M unit :=
  let plain (m : M unit) : M unit :=
    match delete_live with
    | None => m
    | Some _ => raise (TypeError "got an unexpected keyword argument 'delete_live'")
    end in
  let flag := match delete_live with Some b => b | None => false end in
  if mode =? "ceph" then plain (clean_ceph depth e)
  else if mode =? "high_level_data" then plain (clean_high_level_data e)
  else if mode =? "non_latest" then plain (clean_non_latest e)
  else if mode =? "unregistered" then clean_unregistered e flag (pre_folder e)
  else if mode =? "production" then plain (clean_production_folder e)
  else if mode =? "abandoned" then clean_abandoned depth e flag
  else if mode =? "old_hash" then plain (clean_old_hash st e)
  else if mode =? "database" then clean_database e flag
  else raise (KeyError mode).

(** The truth value of [args.number] and of [args.clean]. *)
Definition given_number (a : cli) : option Z :=
  match args_number a with
  | Some n => if Z.eqb n 0 then None else Some n
  | None => None
  end.

Definition given_clean (a : cli) : option string :=
  match args_clean a with
  | Some mode => if mode =? "" then None else Some mode
  | None => None
  end.

(** [main_ajax()]. *)
Definition main_ajax (st : context) (depth rounds : nat) (e : env) (a : cli) : M loop_end :=
  match given_number a with
  | Some n => main_ajax_number e n (args_delete_live a) ;; ret Returned
  | None =>
      match given_clean a with
      | None => raise (ValueError "either --number or --clean should be specified")
      | Some mode =>
          if negb (in_strings mode _modes) && negb (mode =? "all") then
            raise (ValueError ("Unknown cleaning mode " ++ mode))
          else if negb (mode =? "all") then
            run_mode st depth e mode None ;;
            (if (hostname e =? eb_can_clean_ceph) && in_strings mode ["abandoned"; "database"]
             then run_mode st depth e mode (Some true) else ret tt) ;;
            log_info ("Done with " ++ mode) ;;
            ret Returned
          else main_ajax_all depth e rounds
      end
  end.
(** ** Specification vocabulary *)

(** The entries of a run whose type is [t]. *)
Definition type_is (t : string) (d : ddoc) : bool :=
  match Dict.get "type" d with
  | Some v => value_eqb v (VStr t)
  | None => false
  end.

Definition copies (t : string) (rd : rundoc) : nat :=
  length (filter (type_is t) (data rd)).

Definition liveCopies : rundoc -> nat := copies "live".
Definition durableCopies : rundoc -> nat := copies "raw_records".

(** Every location entry of the run carries a type. *)
Definition typed (rd : rundoc) : Prop :=
  Forall (fun d => Dict.get "type" d <> None) (data rd).

(** The world after [log_warning]. *)
Definition reported (message priority : string) (run_id : option string) (w : world) : world :=
  mkWorld (fs w) (run_coll w) (clock w) (stdin w)
          (EvReport priority run_id message :: EvLog (PyStr.lower priority) message :: trace w).

(** The spec's condition: one copy, and one more when a durable type goes. *)
Definition may_delete (rd : rundoc) (data_type : string) (override : bool) : bool :=
  override
  || (1 <=? liveCopies rd)%nat
  || (1 + (if PyStr.contains "raw_records" data_type then 1 else 0) <=? durableCopies rd)%nat.

(** ** The scenarios of the specification, in the code's vocabulary *)

Definition eb1 : env :=
  mkEnv "eb1" true false false "/live_data/xenonnt" "/data/xenonnt_processed"
        "/data/pre_processed" "/data/xenonnt_unregistered".

Definition eb1_dry : env :=
  mkEnv "eb1" false false false "/live_data/xenonnt" "/data/xenonnt_processed"
        "/data/pre_processed" "/data/xenonnt_unregistered".

Definition raw_on_eb1 : ddoc :=
  [("type", VStr "raw_records"); ("host", VStr "eb1");
   ("location", VStr "/data/eb1/24399-raw")].

Definition live_on_daq : ddoc :=
  [("type", VStr "live"); ("host", VStr "daq");
   ("location", VStr "/live_data/xenonnt")].

(** Scenario A: run 24399, done and transferred, one raw copy on eb1. *)
Definition scenario_A : rundoc :=
  mkRundoc 1 24399 "done" 1000 "eb1" "transferred" 0 [raw_on_eb1] [].

(** Scenario B: the same run with the shared-tier copy still registered. *)
Definition scenario_B : rundoc :=
  mkRundoc 1 24399 "done" 1000 "eb1" "transferred" 0 [raw_on_eb1; live_on_daq] [].

Definition world_of (paths : list string) (runs : list rundoc) : world :=
  mkWorld paths runs 1000000 [] [].

(** ** Mutations *)

(** The events that change the file system or the runs collection. *)
Definition is_mutation (ev : event) : bool :=
  match ev with
  | EvRmtree _ | EvMove _ _ | EvUpdateOne _ _ _ => true
  | _ => false
  end.

(** What a dry run must leave as it is: the paths, the runs collection, and
    the list of mutations done so far. *)
Definition footprint (w : world) : list string * list rundoc * list event :=
  (fs w, run_coll w, filter is_mutation (trace w)).

(** A computation that mutates nothing, whatever its result. *)
Definition quiet_on {S A : Type} (proj : S -> world) (m : ST S A) : Prop :=
  forall s, footprint (proj (snd (m s))) = footprint (proj s).

Abbreviation quiet m := (quiet_on (fun w : world => w) m).
Abbreviation quiet_rd m := (quiet_on (@snd rundoc world) m).

(** Scenario B on disk: the raw copy on eb1 and the live data of the run. *)
Definition world_B : world :=
  world_of ["/data/eb1/24399-raw"; "/live_data/xenonnt"; "/live_data/xenonnt/024399"]
           [scenario_B].

(** ** What a deletion leaves behind *)

Definition set_stdin (w : world) (l : list string) : world :=
  mkWorld (fs w) (run_coll w) (clock w) l (trace w).

Definition add_events (w : world) (evs : list event) : world :=
  mkWorld (fs w) (run_coll w) (clock w) (stdin w) (evs ++ trace w)%list.

(** The answer [confirm] gets from the lines [l], and the lines left. *)
Definition confirmed (e : env) (l : list string) : result bool :=
  if args_ask_confirm e then fst (read_answer l) else Ok true.

Definition after_confirm (e : env) (l : list string) : list string :=
  if args_ask_confirm e then snd (read_answer l) else l.

(** Some entry of the run has the type, on ["daq"] or on this host. *)
Definition has_match (e : env) (data_type : string) (rd : rundoc) : bool :=
  existsb (pull_matches (hostname e) data_type) (data rd).

(** Every entry of the run carries a type and a host. *)
Definition located (rd : rundoc) : Prop :=
  Forall (fun d => Dict.get "type" d <> None /\ Dict.get "host" d <> None) (data rd).

(** The first entry [delete_data] selects. *)
Definition first_match (e : env) (data_type : string) (rd : rundoc) : option ddoc :=
  List.find (pull_matches (hostname e) data_type) (data rd).

(** The document of the collection an [update_one] on [id] works on. *)
Definition stored (id : nat) (w : world) : option rundoc :=
  List.find (fun rd => Nat.eqb (rd_id rd) id) (run_coll w).

(** Every confirmation [delete_data] asks for on [path] is granted: none is
    asked without [--ask_confirm]; with it the operator answers [y], to
    the update and, when [path] exists, to the removal before it. *)
Definition granted (e : env) (path : string) (w : world) : Prop :=
  confirmed e (stdin w) = Ok true
  /\ (in_strings path (fs w) = true ->
      confirmed e (after_confirm e (stdin w)) = Ok true).

Definition is_update (ev : event) : bool :=
  match ev with
  | EvUpdateOne _ _ _ => true
  | _ => false
  end.

(** How many [update_one] the trace holds. *)
Definition updates_done (w : world) : nat := length (filter is_update (trace w)).

(** The shared-tier copy as the specification's scenario B writes it: the
    same data type as the copy on the host. *)
Definition raw_on_daq : ddoc :=
  [("type", VStr "raw_records"); ("host", VStr "daq");
   ("location", VStr "/live_data/xenonnt")].

Definition scenario_B_same_type : rundoc :=
  mkRundoc 1 24399 "done" 1000 "eb1" "transferred" 0 [raw_on_eb1; raw_on_daq] [].

(** Two entries with the same type and the same host. *)
Definition same_place (d d' : ddoc) : Prop :=
  Dict.get "type" d = Dict.get "type" d' /\ Dict.get "host" d = Dict.get "host" d'.

(** ** The drive of [clean_ceph] *)

(** The part of the query of [clean_ceph] that time does not change. *)
Definition ceph_static (rd : rundoc) : bool :=
  (bootstrax_state rd =? "done") && (status rd =? "transferred")
  && data_has "type" "live" rd.

(** The query of [clean_ceph] as it reads when the clock is that of [w]. *)
Definition ceph_matches (w : world) : query :=
  ceph_query (clock w + - remove_live_after) (clock w + - wait_after_processing).

Definition is_str (o : option value) : Prop := exists s, o = Some (VStr s).

(** An entry as the drive needs it: typed and hosted; on "daq", with a type
    and a location that are strings; and live data only on "daq". *)
Definition ceph_entry_ok (d : ddoc) : Prop :=
  Dict.get "type" d <> None /\ Dict.get "host" d <> None
  /\ (host_is "daq" d = true -> is_str (Dict.get "type" d) /\ is_str (Dict.get "location" d))
  /\ (type_is "live" d = true -> host_is "daq" d = true).

(** A run the drive can delete: its entries are in order, raw_records are
    registered unless the deletion is forced, and one entry is on "daq", so
    that one delete thread is started for the run. *)
Definition ceph_run_ok (e : env) (rd : rundoc) : Prop :=
  Forall ceph_entry_ok (data rd)
  /\ (args_force e = true \/ durableCopies rd >= 1)
  /\ length (filter (host_is "daq") (data rd)) = 1.

(** The collection as the drive needs it: identifiers and run numbers are
    unique, and every run that is done, transferred and has live data is old
    enough and can be deleted. *)
Definition ceph_ready (e : env) (w : world) : Prop :=
  NoDup (map rd_id (run_coll w))
  /\ NoDup (map number (run_coll w))
  /\ forall rd, In rd (run_coll w) -> ceph_static rd = true ->
       ceph_run_ok e rd
       /\ (start rd < clock w + - remove_live_after)%Z
       /\ (bootstrax_time rd < clock w + - wait_after_processing)%Z.

(** The log line of [clean_ceph] before each single-run deletion. *)
Definition is_ceph_removal (ev : event) : bool :=
  match ev with
  | EvLog level msg =>
      (level =? "info") && String.prefix "remove data associated to run " msg
  | _ => false
  end.

(** How many single-run deletions [clean_ceph] started. *)
Definition ceph_removals (w : world) : nat := length (filter is_ceph_removal (trace w)).

(** The types of the entries on "daq", in order. *)
Definition daq_types (l : list ddoc) : list string :=
  flat_map (fun d => if host_is "daq" d
                     then match Dict.get "type" d with
                          | Some (VStr t) => [t]
                          | _ => []
                          end
                     else []) l.

(** An entry that a [$pull] for one of the types removes. *)
Definition pulled_by (host : string) (types : list string) (d : ddoc) : bool :=
  existsb (fun t => pull_matches host t d) types.

(** A change of a run document that only removes from [data] what the
    [$pull]s for [types] remove, and may add to [deleted_data]. *)
Definition pulls (host : string) (types : list string) (g : rundoc -> rundoc) : Prop :=
  forall rd,
    rd_id (g rd) = rd_id rd /\ number (g rd) = number rd
    /\ bootstrax_state (g rd) = bootstrax_state rd /\ status (g rd) = status rd
    /\ data (g rd) = filter (fun d => negb (pulled_by host types d)) (data rd).

(** One pass of [clean_ceph] over the first match, without the call to
    itself. *)
Definition clean_ceph_first_match (e : env) : M unit :=
  set_state "clean_ceph" ;;
  if negb (hostname e =? eb_can_clean_ceph) then
    log_info ("for cleaning ceph, go to " ++ eb_can_clean_ceph)
  else
    started_before <- now (- remove_live_after) ;;
    processed_before <- now (- wait_after_processing) ;;
    rd <- find_one (ceph_query started_before processed_before) ;;
    match rd with
    | None => ret tt
    | Some rd =>
        log_info ("remove data associated to run " ++ PyStr.of_Z (number rd)) ;;
        remove_run_from_host e (number rd) true (args_force e) "clean ceph" ;;
        log_info ("finished for " ++ PyStr.of_Z (number rd) ++ ", take a " ++
                  PyStr.of_Z short_nap ++ " s nap") ;;
        sleep short_nap
    end.

(** The host that may clean the shared tier, in real execution. *)
Definition eb0 : env :=
  mkEnv "eb0.xenon.local" true false false "/live_data/xenonnt" "/data/xenonnt_processed"
        "/data/pre_processed" "/data/xenonnt_unregistered".

Definition raw_on_eb0 (location : string) : ddoc :=
  [("type", VStr "raw_records"); ("host", VStr "eb0.xenon.local");
   ("location", VStr location)].

(** Two old runs with live data and raw_records, and a run still pending. *)
Definition ceph_world : world :=
  world_of ["/live_data/xenonnt"; "/live_data/xenonnt/000007"; "/live_data/xenonnt/000008";
            "/data/xenonnt_processed/000007-raw_records-abc"]
           [mkRundoc 1 7 "done" 1000 "eb0.xenon.local" "transferred" 0
                     [live_on_daq; raw_on_eb0 "/data/xenonnt_processed/000007-raw_records-abc"] [];
            mkRundoc 2 8 "done" 2000 "eb1" "transferred" 500
                     [raw_on_eb1; live_on_daq] [];
            mkRundoc 3 9 "pending" 3000 "eb1" "transferred" 900 [live_on_daq] []].

(** An old run whose live data is the only copy: no raw_records. *)
Definition ceph_world_unsafe : world :=
  world_of ["/live_data/xenonnt"; "/live_data/xenonnt/000007"]
           [mkRundoc 1 7 "done" 1000 "eb0.xenon.local" "transferred" 0 [live_on_daq] []].

(** ** High-level cleanup *)

Definition peaks_on_eb1 : ddoc :=
  [("type", VStr "peaks"); ("host", VStr "eb1");
   ("location", VStr "/data/xenonnt_processed/024399-peaks-abc")].

(** A run that is done, transferred and more than a year old, with raw_records
    and a high-level data type on eb1, both on disk. *)
Definition old_run : rundoc :=
  mkRundoc 1 24399 "done" 1000 "eb1" "transferred" 0 [raw_on_eb1; peaks_on_eb1] [].

Definition old_world : world :=
  mkWorld ["/data/eb1/24399-raw"; "/data/xenonnt_processed/024399-peaks-abc"]
          [old_run] 40000000 [] [].

(** The query of [clean_high_level_data] when the clock is that of [w]. *)
Definition high_level_query (e : env) (w : world) : query :=
  fun rd =>
    (bootstrax_state rd =? "done") && (status rd =? "transferred")
    && (start rd <? clock w + - remove_high_level_data)%Z
    && data_has "host" (hostname e) rd.

(** ** Abandoned runs *)

(** The same command line with [--force] given or not. *)
Definition with_force (force : bool) (e : env) : env :=
  mkEnv (hostname e) (args_production e) (args_ask_confirm e) force
        (ceph_folder e) (output_folder e) (pre_folder e) (non_registered_folder e).

(** Scenario A for a run that was abandoned. *)
Definition abandoned_A : rundoc :=
  mkRundoc 1 24399 "abandoned" 1000 "eb1" "transferred" 0 [raw_on_eb1] [].

Definition abandoned_world : world := world_of ["/data/eb1/24399-raw"] [abandoned_A].

(** ** The main loop *)

(** The world after the second [except] clause: logged, reported, the
    60 seconds slept, and the restart announced. *)
Definition after_backoff (x : exn) (w : world) : world :=
  mkWorld (fs w) (run_coll w) (clock w + 60)%Z (stdin w)
          (EvLog "warning" "Restarting main loop"
           :: EvSleep 60
           :: EvReport "error" None ("Fatal warning:	ran into " ++ exn_message x)
           :: EvLog "error" ("Fatal warning:	ran into " ++ exn_message x)
           :: EvLog "error" ("Fatal warning:	ran into " ++ exn_message x ++
                             ". Try logging error and restart ajax")
           :: trace w).

(** The world after the first [except] clause, before the exception is
    raised again. *)
Definition after_drain (w : world) : world :=
  add_events w
    [EvLog "info" ("wait_on_delete_thread::	Checked that all " ++ thread_prefix ++
                   "* finished");
     EvJoinThreads;
     EvLog "info" "Stopping, wait a second for the delete threads"].

(** A run processed by eb2 whose entry on eb1 has lost its location. *)
Definition broken_world : world :=
  world_of []
    [mkRundoc 1 24399 "done" 1000 "eb2" "transferred" 0
              [[("type", VStr "raw_records"); ("host", VStr "eb2");
                ("location", VStr "/data/eb2/24399-raw")];
               [("type", VStr "peaks"); ("host", VStr "eb1")]] []].

(** ** The deep check of unregistered data *)

(** A folder of run 123 in the pre-processing folder of eb1. *)
Definition unregistered_fs : list string :=
  ["/data/pre_processed"; "/data/pre_processed/000123-peaks-abc";
   "/data/xenonnt_unregistered"].

(** Run 123 is in no document of the collection. *)
Definition nowhere_world : world := world_of unregistered_fs [].

(** ** Delete threads *)

(** A thread being started, or the wait on the threads. *)
Definition is_thread_event (ev : event) : bool :=
  match ev with
  | EvThreadStart _ | EvJoinThreads => true
  | _ => false
  end.

(** The delete threads started since the last wait on them, in a trace that
    has its newest event first: the threads that the code has started and
    not yet waited for. *)
Fixpoint in_flight (tr : list event) : nat :=
  match tr with
  | [] => 0
  | EvJoinThreads :: _ => 0
  | EvThreadStart _ :: tr' => S (in_flight tr')
  | _ :: tr' => in_flight tr'
  end.

(** The most there were in flight at one moment of the trace. *)
Fixpoint peak_in_flight (tr : list event) : nat :=
  match tr with
  | [] => 0
  | ev :: tr' => Nat.max (in_flight (ev :: tr')) (peak_in_flight tr')
  end.

(** [i_max] of [clean_abandoned]. *)
Definition capacity (e : env) : nat := if args_ask_confirm e then 1 else 5.

(** eb0 in real execution with [--ask_confirm]. *)
Definition eb0_ask : env :=
  mkEnv "eb0.xenon.local" true true false "/live_data/xenonnt" "/data/xenonnt_processed"
        "/data/pre_processed" "/data/xenonnt_unregistered".

(** An abandoned run with live data and raw_records on the shared tier, and
    an operator who answers [y]. *)
Definition abandoned_two : rundoc :=
  mkRundoc 1 24399 "abandoned" 1000 "eb1" "transferred" 0 [live_on_daq; raw_on_daq] [].

Definition abandoned_two_world : world :=
  mkWorld ["/live_data/xenonnt"; "/live_data/xenonnt/024399"] [abandoned_two]
          1000000 ["y"; "y"; "y"] [].

(** A run whose second entry on the shared tier has no location. *)
Definition unlocated_on_daq : ddoc := [("type", VStr "raw_records"); ("host", VStr "daq")].

Definition unlocated_world : world :=
  world_of ["/live_data/xenonnt"; "/live_data/xenonnt/024399"]
           [mkRundoc 1 24399 "done" 1000 "eb1" "transferred" 0
                     [live_on_daq; unlocated_on_daq] []].

(** ** Exceptions of the cleaning sequence *)

(** A computation whose exceptions are all in [ok]. *)
Definition raises_only {S A : Type} (ok : exn -> Prop) (m : ST S A) : Prop :=
  forall s x s', m s = (Raise x, s') -> ok x.

(** An exception that the second [except] clause of the loop catches: any
    but those of the first clause. *)
Definition caught (x : exn) : Prop := stops_the_loop x = false.

(** ** The copy-count check and abandoned runs *)

(** An event that is no refusal of the copy-count check: [delete_data]
    logs and reports a deletion that its check refuses at priority fatal,
    in a dry run as in real execution. *)
Definition no_refusal (ev : event) : Prop :=
  match ev with
  | EvReport priority _ _ => priority <> "fatal"
  | EvLog level _ => level <> "fatal"
  | _ => True
  end.

(** Scenario A for an abandoned run: the check of [delete_data] refuses the
    raw_records, the only copy, when it is not overridden. *)
Definition refused_A (w : world) : world :=
  reported (essential_copy_message "raw_records" 0 1) "fatal" (Some "024399") w.

(** ** What a piece of code does to the world *)

(** The events that are more than a line of log: a path removed or moved, a
    document updated, a thread started or waited for. *)
Definition is_act (ev : event) : bool := is_mutation ev || is_thread_event ev.

Definition passive (ev : event) : Prop := is_act ev = false.

(** From [w] to [w'] the trace grew by events that all satisfy [P]; the file
    system is the same when [keep_fs] is set, and the runs collection when
    [keep_coll] is. *)
Definition within (keep_fs keep_coll : bool) (P : event -> Prop) (w w' : world) : Prop :=
  (keep_fs = true -> fs w' = fs w)
  /\ (keep_coll = true -> run_coll w' = run_coll w)
  /\ exists new, trace w' = (new ++ trace w)%list /\ Forall P new.

(** Nothing but logging, reporting, sleeping and reading answers. *)
Definition idle : world -> world -> Prop := within true true passive.

(** A condition on events that lets every passive event through. *)
Class Lenient (P : event -> Prop) : Prop :=
  lenient : forall ev, is_act ev = false -> P ev.

(** A computation that stays in a relation between the worlds before and
    after it, whatever its result. *)
Definition keeps {S A : Type} (proj : S -> world) (R : world -> world -> Prop)
  (m : ST S A) : Prop :=
  forall s, R (proj s) (proj (snd (m s))).

Definition world_of_world (w : world) : world := w.
Definition world_of_rd (s : rundoc * world) : world := snd s.

(** Removals only of the paths [rm], updates only of the documents and
    types [up], no move and no thread started. *)
Definition allowed (rm : string -> Prop) (up : nat -> string -> Prop) (ev : event) : Prop :=
  match ev with
  | EvRmtree p => rm p
  | EvUpdateOne id _ t => up id t
  | EvMove _ _ => False
  | EvThreadStart _ => False
  | _ => True
  end.

(** No thread started. *)
Definition no_thread (ev : event) : Prop :=
  match ev with
  | EvThreadStart _ => False
  | _ => True
  end.

(** An entry of the in-memory run document after [delete_data] worked on the
    document: on the same host with the same type, its location the same or
    popped. *)
Definition faded (d d' : ddoc) : Prop :=
  same_place d d'
  /\ (Dict.get "location" d' = Dict.get "location" d \/ Dict.get "location" d' = None).

Definition fades (rd rd' : rundoc) : Prop :=
  rd_id rd' = rd_id rd /\ number rd' = number rd /\ Forall2 faded (data rd) (data rd').

(** A relation between states that goes along a run. *)
Class Stepwise {S : Type} (R : S -> S -> Prop) : Prop := {
  stepwise_refl : forall s, R s s;
  stepwise_trans : forall a b c, R a b -> R b c -> R a c
}.

(** A computation whose end state is in the relation with its start state,
    whatever its result. *)
Definition follows {S A : Type} (R : S -> S -> Prop) (m : ST S A) : Prop :=
  forall s, R s (snd (m s)).

(** Code that holds the run document [id0]: what it does to the world is
    within [P], and its document only fades. *)
Definition acts_on (kf : bool) (P : event -> Prop) (id0 : nat)
  (s s' : rundoc * world) : Prop :=
  rd_id (fst s) = id0 ->
  within kf false P (snd s) (snd s') /\ fades (fst s) (fst s').

(** A command line for the modes: [--clean all]. *)
Definition clean_all : cli := mkCli None (Some "all") false.

(** A context with no plugin registered. *)
Definition no_plugins : context := mkContext [] (fun _ _ => "").

(** An entry of the run on this host, at [loc] with type [t], that
    [remove_run_from_host] does not protect: the deletion is forced, or the
    run has live data registered, or the type is no raw_records type. *)
Definition host_entry (e : env) (force : bool) (rd : rundoc) (loc t : string) : Prop :=
  exists d,
    In d (data rd) /\ host_is (hostname e) d = true
    /\ Dict.get "location" d = Some (VStr loc) /\ Dict.get "type" d = Some (VStr t)
    /\ (force = true \/ liveCopies rd <> 0 \/ PyStr.contains "raw_records" t = false).

(** What [remove_run_from_host] may do for the run [rd] without
    [--delete_live]: remove the location of such an entry, or that location
    with "_temp" added, and update the document of the run, pulling the type
    of such an entry. *)
Definition host_removal (e : env) (force : bool) (rd : rundoc) : event -> Prop :=
  allowed (fun p => exists loc t, host_entry e force rd loc t /\ (p = loc \/ p = loc ++ "_temp"))
          (fun id t => id = rd_id rd /\ exists loc, host_entry e force rd loc t).

(** Code that holds a document that faded from [rd0], and acts within [P]. *)
Definition from_run (P : event -> Prop) (rd0 : rundoc) (s s' : rundoc * world) : Prop :=
  fades rd0 (fst s) ->
  within false false P (snd s) (snd s') /\ fades rd0 (fst s').

(** Scenario B on eb1 without its live data: raw_records and peaks on eb1. *)
Definition host_only_run : rundoc :=
  mkRundoc 1 24399 "done" 1000 "eb1" "transferred" 0 [raw_on_eb1; peaks_on_eb1] [].

Definition host_only_world : world :=
  world_of ["/data/eb1/24399-raw"; "/data/xenonnt_processed/024399-peaks-abc"]
           [host_only_run].

(** A file of the output folder that [clean_old_hash] takes for stale: its
    name has three parts, the data type [t] is not low level and is
    registered in the context, the hash is not one of a temporary folder and
    is not the hash the context gives now. *)
Definition stale_file (st : context) (f t : string) : Prop :=
  exists run_id lineage_hash,
    PyLib.split "-" f = [run_id; t; lineage_hash]
    /\ is_low_level t = false
    /\ PyStr.contains "_temp" lineage_hash = false
    /\ in_strings t (_plugin_class_registry st) = true
    /\ key_for_lineage_hash st run_id t <> lineage_hash.

(** What [clean_old_hash] may do among [files]: remove a stale file, and
    pull the type of one from a run document. *)
Definition old_hash_removal (st : context) (e : env) (files : list string) : event -> Prop :=
  allowed (fun p => exists f t, In f files /\ stale_file st f t
                                /\ p = PyStr.path_join (output_folder e) f)
          (fun _ t => exists f, In f files /\ stale_file st f t).

(** A context in which peaks has the hash "new". *)
Definition peaks_context : context := mkContext ["peaks"] (fun _ _ => "new").

(** The run of Scenario B with peaks that were made with the hash "abc". *)
Definition old_hash_world : world :=
  world_of ["/data/xenonnt_processed"; "/data/xenonnt_processed/024399-peaks-abc";
            "/data/xenonnt_processed/024399-raw_records-abc"]
           [mkRundoc 1 24399 "done" 1000 "eb1" "transferred" 0
                     [raw_on_eb1; live_on_daq; peaks_on_eb1] []].

(** The query of [clean_non_latest] when the clock is that of [w]. *)
Definition non_latest_query (e : env) (w : world) : query :=
  fun rd =>
    (bootstrax_state rd =? "done") && (status rd =? "transferred")
    && (bootstrax_time rd <? clock w + - wait_after_processing)%Z
    && negb (bootstrax_host rd =? hostname e)
    && data_has "host" (hostname e) rd.

Definition raw_on_eb2 : ddoc :=
  [("type", VStr "raw_records"); ("host", VStr "eb2");
   ("location", VStr "/data/eb2/024400-raw")].

Definition peaks_24400_on_eb1 : ddoc :=
  [("type", VStr "peaks"); ("host", VStr "eb1");
   ("location", VStr "/data/xenonnt_processed/024400-peaks-abc")].

(** Two runs that eb2 processed last, with peaks left on eb1: run 24399 has
    no raw_records on another host, run 24400 has them on eb2. *)
Definition unsafe_first : rundoc :=
  mkRundoc 1 24399 "done" 1000 "eb2" "transferred" 0 [peaks_on_eb1] [].

Definition safe_second : rundoc :=
  mkRundoc 2 24400 "done" 1000 "eb2" "transferred" 0 [raw_on_eb2; peaks_24400_on_eb1] [].

Definition non_latest_world : world :=
  world_of ["/data/xenonnt_processed/024399-peaks-abc";
            "/data/xenonnt_processed/024400-peaks-abc"]
           [unsafe_first; safe_second].

(** The run identifier that [clean_unregistered] reads from the name of a
    folder: what comes before the first dash, as [np.unique] hands it
    back. *)
Definition run_id_of (f : string) : string :=
  PyLib.rstrip_nul (hd "" (PyLib.split "-" f)).

(** The run of the folder [f] is registered for [clean_unregistered]: its
    identifier is a number, and the document found for that number (with
    data on this host, or on "daq" with [delete_live]) has a location under
    [clean_from]. *)
Definition registered (e : env) (delete_live : bool) (clean_from : string) (w : world)
  (f : string) : Prop :=
  exists n rd,
    PyLib.int_of_str (run_id_of f) = Some n
    /\ List.find (number_on_host n (if negb delete_live then hostname e else "daq"))
                 (run_coll w) = Some rd
    /\ any_location_under clean_from (data rd) = Ok true.

(** Scenario B with a folder of the run in the output folder of eb1. *)
Definition registered_world : world :=
  world_of ["/data/eb1"; "/data/eb1/24399-raw"] [scenario_B].

(** eb1 in real execution with [--ask_confirm]. *)
Definition eb1_ask : env :=
  mkEnv "eb1" true true false "/live_data/xenonnt" "/data/xenonnt_processed"
        "/data/pre_processed" "/data/xenonnt_unregistered".

(** Scenario B on disk with the operator's answers. *)
Definition world_B_answers (answers : list string) : world :=
  set_stdin world_B answers.

(** The run [n] is not registered for [clean_unregistered] in [runs]: no
    document has the number with data on the host asked for, or the first
    one has no location under [clean_from]. *)
Definition unregistered (e : env) (delete_live : bool) (clean_from : string)
  (runs : list rundoc) (n : Z) : Prop :=
  match List.find (number_on_host n (if negb delete_live then hostname e else "daq")) runs with
  | None => True
  | Some rd => any_location_under clean_from (data rd) = Ok false
  end.

(** What [clean_unregistered] may do, given the runs collection [runs]: move
    a folder whose name contains the identifier of a run that is not
    registered, from the folder it checks to the folder for unregistered
    data, under the same name. *)
Definition setting_aside (e : env) (delete_live : bool) (clean_from : string)
  (runs : list rundoc) (ev : event) : Prop :=
  match ev with
  | EvMove src dst =>
      exists folder n,
        src = PyStr.path_join (if negb delete_live then clean_from else ceph_folder e) folder
        /\ dst = PyStr.path_join (non_registered_folder e) folder
        /\ PyStr.contains (PyStr.format06 n) folder = true
        /\ unregistered e delete_live clean_from runs n
  | EvRmtree _ | EvUpdateOne _ _ _ | EvThreadStart _ => False
  | _ => True
  end.

(** Code that sets aside as [clean_unregistered] may, as long as the runs
    collection is [runs]. *)
Definition sets_aside (e : env) (delete_live : bool) (clean_from : string)
  (runs : list rundoc) (w w' : world) : Prop :=
  run_coll w = runs ->
  within false true (setting_aside e delete_live clean_from runs) w w'.

(** The query of [clean_database] when the clock is that of [w]. *)
Definition database_query (e : env) (delete_live : bool) (w : world) : query :=
  fun rd =>
    (bootstrax_state rd =? "done")
    && (bootstrax_time rd <? clock w + - wait_after_processing)%Z
    && data_has "host" (if negb delete_live then hostname e else "daq") rd.

(** The run [rd] has an entry of type [t], on this host or (with
    [delete_live]) on "daq", whose location is not among the paths [paths]. *)
Definition missing_entry (e : env) (delete_live : bool) (paths : list string)
  (rd : rundoc) (t : string) : Prop :=
  exists d loc,
    In d (data rd)
    /\ host_is (hostname e) d || (host_is "daq" d && delete_live) = true
    /\ Dict.get "location" d = Some (VStr loc)
    /\ in_strings loc paths = false
    /\ Dict.get "type" d = Some (VStr t).

(** What [clean_database] may do for the run [rd]: update its document,
    pulling the type of a missing entry. *)
Definition unregistering_run (e : env) (delete_live : bool) (paths : list string)
  (rd : rundoc) : event -> Prop :=
  allowed (fun _ => False) (fun id t => id = rd_id rd /\ missing_entry e delete_live paths rd t).

(** What [clean_database] may do, started in [w]: the same for a run that
    its query selects. *)
Definition unregistering (e : env) (delete_live : bool) (w : world) : event -> Prop :=
  allowed (fun _ => False)
          (fun id t => exists rd,
             In rd (filter (database_query e delete_live w) (run_coll w))
             /\ rd_id rd = id /\ missing_entry e delete_live (fs w) rd t).

(** Code that holds a document that faded from [rd0], on the disk [paths],
    which it keeps, and acts within [P]. *)
Definition from_db (P : event -> Prop) (paths : list string) (rd0 : rundoc)
  (s s' : rundoc * world) : Prop :=
  fades rd0 (fst s) -> fs (snd s) = paths ->
  within true false P (snd s) (snd s') /\ fades rd0 (fst s').

(** The run [rd] has an entry on this host at [loc] with type [t]. *)
Definition entry_on_host (e : env) (rd : rundoc) (loc t : string) : Prop :=
  exists d,
    In d (data rd) /\ host_is (hostname e) d = true
    /\ Dict.get "location" d = Some (VStr loc) /\ Dict.get "type" d = Some (VStr t).

(** What [clean_non_latest] may do for the run [rd]: remove the location of
    an entry on this host, or that location with "_temp" added, and update
    the document of the run, pulling the type of such an entry. *)
Definition non_latest_removal_run (e : env) (rd : rundoc) : event -> Prop :=
  allowed (fun p => exists loc t, entry_on_host e rd loc t /\ (p = loc \/ p = loc ++ "_temp"))
          (fun id t => id = rd_id rd /\ exists loc, entry_on_host e rd loc t).

(** A run that [clean_non_latest], started in [w], may clean: its query
    selects the run, and the run has raw_records registered on another
    host. *)
Definition non_latest_run (e : env) (w : world) (rd : rundoc) : Prop :=
  In rd (filter (non_latest_query e w) (run_coll w))
  /\ raw_records_elsewhere (hostname e) (data rd) = Ok true.

(** What [clean_non_latest] may do, started in [w]. *)
Definition non_latest_removal (e : env) (w : world) : event -> Prop :=
  allowed (fun p => exists rd loc t,
             non_latest_run e w rd /\ entry_on_host e rd loc t
             /\ (p = loc \/ p = loc ++ "_temp"))
          (fun id t => exists rd loc,
             non_latest_run e w rd /\ rd_id rd = id /\ entry_on_host e rd loc t).
(** * Properties *)

(** ** The copy-count check *)

Lemma count_live_and_raw_counts (l : list ddoc) :
  Forall (fun d => Dict.get "type" d <> None) l ->
  forall a b,
    count_live_and_raw l a b =
    Ok (a + length (filter (type_is "live") l),
        b + length (filter (type_is "raw_records") l)).
Proof.
  induction 1 as [|d l Hd _ IH]; intros a b; simpl.
  - now rewrite !Nat.add_0_r.
  - destruct (Dict.get "type" d) as [t|] eqn:Et; [clear Hd|congruence].
    assert (El : type_is "live" d = value_eqb t (VStr "live"))
      by (unfold type_is; now rewrite Et).
    assert (Er : type_is "raw_records" d = value_eqb t (VStr "raw_records"))
      by (unfold type_is; now rewrite Et).
    rewrite IH, El, Er.
    destruct (value_eqb t (VStr "live")), (value_eqb t (VStr "raw_records"));
      simpl length; f_equal; f_equal; lia.
Qed.

Lemma check_rundoc_counts (rd : rundoc) :
  typed rd ->
  check_rundoc_for_live_and_raw (Some rd) = Ok (liveCopies rd, durableCopies rd).
Proof.
  intros H. simpl. now rewrite (count_live_and_raw_counts _ H).
Qed.

Lemma log_warning_run message priority run_id w :
  log_warning message priority run_id w = (Ok tt, reported message priority run_id w).
Proof. reflexivity. Qed.

Lemma enough_copies_may_delete rd data_type :
  enough_copies data_type (liveCopies rd) (durableCopies rd) = may_delete rd data_type false.
Proof.
  unfold enough_copies, may_delete. simpl.
  now destruct (liveCopies rd).
Qed.

Lemma low_data_check_run e rd data_type test override w :
  typed rd ->
  low_data_check e data_type test override (rd, w) =
  if may_delete rd data_type override then (Ok tt, (rd, w))
  else
    let message := essential_copy_message data_type (liveCopies rd) (durableCopies rd) in
    (if test then Ok tt else Raise (ValueError message),
     (rd, reported message "fatal" (Some (PyStr.format06 (number rd))) w)).
Proof.
  intros Hty. unfold low_data_check.
  destruct override; [reflexivity|].
  unfold bind, get_rd, of_result.
  cbn -[check_rundoc_for_live_and_raw enough_copies essential_copy_message may_delete
        PyStr.format06 log_warning].
  rewrite (check_rundoc_counts rd Hty), enough_copies_may_delete.
  destruct (may_delete rd data_type false); [reflexivity|].
  cbn -[essential_copy_message PyStr.format06 log_warning].
  unfold lift. rewrite log_warning_run.
  destruct test; reflexivity.
Qed.

Lemma trace_grows (ev1 ev2 : event) (l : list event) : ev1 :: ev2 :: l <> l.
Proof.
  intros H. apply (f_equal (@length event)) in H. simpl in H. lia.
Qed.

Lemma may_delete_iff rd data_type override :
  may_delete rd data_type override = true <->
  (override = true
   \/ liveCopies rd >= 1
   \/ durableCopies rd >= 1 + (if PyStr.contains "raw_records" data_type then 1 else 0)).
Proof.
  unfold may_delete.
  rewrite !orb_true_iff, !Nat.leb_le. tauto.
Qed.

(** C1. For every run record whose entries carry a type, every data type and
    every override flag, the copy-count check of [delete_data] lets the
    deletion through (returns with nothing reported) if and only if the
    override is set, or there is a live copy, or the raw_records copies number
    at least 1, plus 1 when the data type is a raw_records type; the two
    counts are those of the "live" and "raw_records" entries of the run. When
    the check rejects, it reports with priority fatal, and then raises
    [ValueError] when [test] is false (real execution), so [delete_data]
    stops there, but only returns when [test] is true (dry run), where
    [delete_data] goes on as it does under the override. *)
Theorem delete_data_copy_count_guard
  (e : env) (rd : rundoc) (path data_type reason : string) (override : bool) (w : world)
  (Hty : typed rd) :
  let required := 1 + (if PyStr.contains "raw_records" data_type then 1 else 0) in
  let message := essential_copy_message data_type (liveCopies rd) (durableCopies rd) in
  let w' := reported message "fatal" (Some (PyStr.format06 (number rd))) w in
  check_rundoc_for_live_and_raw (Some rd) = Ok (liveCopies rd, durableCopies rd)
  /\ (forall test,
        low_data_check e data_type test override (rd, w) = (Ok tt, (rd, w))
        <-> (override = true \/ liveCopies rd >= 1 \/ durableCopies rd >= required))
  /\ (~ (override = true \/ liveCopies rd >= 1 \/ durableCopies rd >= required) ->
        low_data_check e data_type false override (rd, w)
          = (Raise (ValueError message), (rd, w'))
        /\ delete_data e path data_type false override reason (rd, w)
          = (Raise (ValueError message), (rd, w'))
        /\ low_data_check e data_type true override (rd, w) = (Ok tt, (rd, w'))
        /\ delete_data e path data_type true override reason (rd, w)
          = delete_data e path data_type true true reason (rd, w')).
Proof.
  intros required message w'. subst required.
  split; [now apply check_rundoc_counts|]. split.
  - intros test. rewrite <- may_delete_iff, (low_data_check_run _ _ _ _ _ _ Hty).
    destruct (may_delete rd data_type override); split; intros H;
      try reflexivity; try discriminate.
    exfalso. inversion H as [[Hr Hw]].
    apply (f_equal trace) in Hw. simpl in Hw. now apply trace_grows in Hw.
  - intros Hno. rewrite <- may_delete_iff in Hno.
    apply not_true_is_false in Hno.
    assert (Hf : low_data_check e data_type false override (rd, w)
                 = (Raise (ValueError message), (rd, w')))
      by (rewrite (low_data_check_run _ _ _ _ _ _ Hty), Hno; reflexivity).
    assert (Ht : low_data_check e data_type true override (rd, w) = (Ok tt, (rd, w')))
      by (rewrite (low_data_check_run _ _ _ _ _ _ Hty), Hno; reflexivity).
    repeat split; trivial.
    + unfold delete_data. unfold bind at 1. now rewrite Hf.
    + unfold delete_data. unfold bind at 1. rewrite Ht.
      unfold bind at 5. reflexivity.
Qed.

(** Scenario A: the only raw copy, no live copy, no override. *)
Lemma delete_data_copy_count_guard_scenario_A :
  typed scenario_A
  /\ delete_data eb1 "/data/eb1/24399-raw" "raw_records" false false "manual"
       (scenario_A, world_of ["/data/eb1/24399-raw"] [scenario_A])
     = (Raise (ValueError (essential_copy_message "raw_records" 0 1)),
        (scenario_A,
         reported (essential_copy_message "raw_records" 0 1) "fatal" (Some "024399")
                  (world_of ["/data/eb1/24399-raw"] [scenario_A]))).
Proof.
  assert (Hty : typed scenario_A) by (repeat constructor; discriminate).
  split; [exact Hty|].
  refine (proj1 (proj2 (proj2 (proj2 (delete_data_copy_count_guard
            eb1 scenario_A "/data/eb1/24399-raw" "raw_records" "manual" false
            (world_of ["/data/eb1/24399-raw"] [scenario_A]) Hty)) _))).
  vm_compute. intros [H|[H|H]]; [discriminate| |]; lia.
Defined.

(** ** Dry runs mutate nothing *)

Section Quiet.

Context {S : Type} (proj : S -> world).

Lemma quiet_ret {A} (a : A) : quiet_on proj (ret a).
Proof. intros s. reflexivity. Qed.

Lemma quiet_raise {A} (x : exn) : quiet_on proj (@raise S A x).
Proof. intros s. reflexivity. Qed.

Lemma quiet_of_result {A} (r : result A) : quiet_on proj (of_result r).
Proof. intros s. reflexivity. Qed.

Lemma quiet_of_option {A} (o : option A) (x : exn) : quiet_on proj (of_option o x).
Proof. destruct o; intros s; reflexivity. Qed.

Lemma quiet_bind {A B} (m : ST S A) (k : A -> ST S B) :
  quiet_on proj m -> (forall a, quiet_on proj (k a)) -> quiet_on proj (bind m k).
Proof.
  intros Hm Hk s. unfold bind. specialize (Hm s).
  destruct (m s) as [[a|x] s']; simpl in *.
  - now rewrite (Hk a s').
  - exact Hm.
Qed.

Lemma quiet_getitem_str k d : quiet_on proj (getitem_str k d).
Proof.
  unfold getitem_str. destruct (Dict.get k d) as [[]|]; intros ?; reflexivity.
Qed.

End Quiet.

Lemma quiet_lift {A} (m : M A) : quiet m -> quiet_rd (lift m).
Proof.
  intros H [rd w]. unfold lift. simpl. specialize (H w).
  now destruct (m w).
Qed.

Lemma quiet_get_rd : quiet_rd get_rd.
Proof. intros s. reflexivity. Qed.

Lemma quiet_put_rd rd : quiet_rd (put_rd rd).
Proof. intros s. reflexivity. Qed.

Lemma quiet_with_rd {A} rd (m : RD A) : quiet_rd m -> quiet (with_rd rd m).
Proof.
  intros H w. unfold with_rd. specialize (H (rd, w)).
  now destruct (m (rd, w)).
Qed.

Lemma quiet_emit ev : is_mutation ev = false -> quiet (emit ev).
Proof.
  intros H w. unfold footprint. simpl. now rewrite H.
Qed.

Lemma quiet_log_info msg : quiet (log_info msg).
Proof. now apply quiet_emit. Qed.

Lemma quiet_log_warn msg : quiet (log_warn msg).
Proof. now apply quiet_emit. Qed.

Lemma quiet_log_error msg : quiet (log_error msg).
Proof. now apply quiet_emit. Qed.

Lemma quiet_set_state st : quiet (set_state st).
Proof. now apply quiet_emit. Qed.

Lemma quiet_log_warning message priority run_id : quiet (log_warning message priority run_id).
Proof. intros w. reflexivity. Qed.

Lemma quiet_now plus : quiet (now plus).
Proof. intros w. reflexivity. Qed.

Lemma quiet_sleep n : quiet (sleep n).
Proof. intros w. reflexivity. Qed.

Lemma quiet_path_exists p : quiet (path_exists p).
Proof. intros w. reflexivity. Qed.

Lemma quiet_listdir base : quiet (listdir base).
Proof. intros w. unfold listdir. now destruct (in_strings base (fs w)). Qed.

Lemma quiet_confirm e question : quiet (confirm e question).
Proof.
  intros w. unfold confirm. destruct (args_ask_confirm e); simpl; [|reflexivity].
  now destruct (read_answer (stdin w)).
Qed.

Lemma quiet_find_one q : quiet (find_one q).
Proof. intros w. reflexivity. Qed.

Lemma quiet_find_all q : quiet (find_all q).
Proof. intros w. reflexivity. Qed.

Lemma quiet_wait_on_delete_thread : quiet wait_on_delete_thread.
Proof. intros w. reflexivity. Qed.

Create HintDb quiet.
#[local] Hint Resolve quiet_ret quiet_raise quiet_of_result quiet_of_option
  quiet_getitem_str quiet_lift quiet_get_rd quiet_put_rd quiet_with_rd
  quiet_log_info quiet_log_warn quiet_log_error quiet_set_state quiet_log_warning
  quiet_now quiet_sleep quiet_path_exists quiet_listdir quiet_confirm
  quiet_find_one quiet_find_all quiet_wait_on_delete_thread : quiet.

(** One step of a proof that a program is quiet: follow its shape. *)
Ltac quiet_step :=
  match goal with
  | |- quiet_on _ (bind _ _) => apply quiet_bind; [|intros]
  | |- quiet (bind _ _) => apply quiet_bind; [|intros]
  | |- quiet_rd (bind _ _) => apply quiet_bind; [|intros]
  | |- context [let '(_, _) := ?p in _] => destruct p
  | |- context [if ?b then _ else _] => destruct b eqn:?
  | |- context [match ?x with Some _ => _ | None => _ end] => destruct x eqn:?
  | |- _ => solve [eauto with quiet]
  end.

Ltac quiet_auto := repeat quiet_step.

Lemma quiet__rmtree e path : args_production e = false -> quiet (_rmtree e path).
Proof.
  intros H. unfold _rmtree. rewrite H. quiet_auto.
Qed.

Lemma quiet_low_data_check e data_type test ignore :
  quiet_rd (low_data_check e data_type test ignore).
Proof.
  unfold low_data_check. quiet_auto.
Qed.

Lemma quiet_delete_data e path data_type test ignore reason :
  args_production e = false \/ test = true ->
  quiet_rd (delete_data e path data_type test ignore reason).
Proof.
  intros H. unfold delete_data.
  assert (Hu : args_production e && negb test = false)
    by (destruct H as [-> | ->]; [reflexivity|apply andb_false_r]).
  rewrite Hu.
  apply quiet_bind; [apply quiet_low_data_check|intros _].
  apply quiet_bind; [quiet_auto|intros ex].
  apply quiet_bind.
  - destruct ex; [|quiet_auto].
    apply quiet_bind; [quiet_auto|intros _].
    apply quiet_bind; [|quiet_auto].
    destruct H as [H | ->]; simpl; [|quiet_auto].
    destruct (negb test); [|quiet_auto].
    apply quiet_lift. now apply quiet__rmtree.
  - intros _. quiet_auto.
Qed.

Lemma quiet_threaded_delete_data e path data_type test ignore reason :
  args_production e = false \/ test = true ->
  quiet_rd (threaded_delete_data e path data_type test ignore reason).
Proof.
  intros H. unfold threaded_delete_data.
  apply quiet_bind; [quiet_auto|intros _].
  apply quiet_bind; [apply quiet_lift; now apply quiet_emit|intros _].
  apply quiet_bind; [|quiet_auto].
  intros s. simpl. apply (quiet_delete_data e path data_type test ignore reason H).
Qed.

Section DryRun.

Variable e : env.
Hypothesis Hdry : args_production e = false.

Let dry_delete path data_type ignore reason :
  quiet_rd (delete_data e path data_type (negb (args_production e)) ignore reason).
Proof. apply quiet_delete_data. now left. Qed.

Let dry_thread path data_type ignore reason :
  quiet_rd (threaded_delete_data e path data_type (negb (args_production e)) ignore reason).
Proof. apply quiet_threaded_delete_data. now left. Qed.

Lemma quiet_remove_run_from_host_step number delete_live force reason n_live n_rr i :
  quiet_rd (remove_run_from_host_step e number delete_live force reason n_live n_rr i).
Proof.
  unfold remove_run_from_host_step.
  repeat first [apply dry_delete | apply dry_thread | quiet_step].
Qed.

Lemma quiet_remove_run_from_host_loop number delete_live force reason n_live n_rr rounds :
  forall i,
    quiet_rd (remove_run_from_host_loop e number delete_live force reason n_live n_rr rounds i).
Proof.
  induction rounds as [|rounds IH]; intros i; simpl; [quiet_auto|].
  apply quiet_bind; [apply quiet_remove_run_from_host_step|intros _; apply IH].
Qed.

Lemma quiet_remove_run_from_host number delete_live force reason :
  quiet (remove_run_from_host e number delete_live force reason).
Proof.
  unfold remove_run_from_host.
  apply quiet_bind; [quiet_auto|intros [rd|]]; [|quiet_auto].
  apply quiet_bind; [quiet_auto|intros [n_live n_rr]].
  apply quiet_with_rd, quiet_remove_run_from_host_loop.
Qed.

Lemma quiet_clean_ceph depth : quiet (clean_ceph depth e).
Proof.
  destruct depth as [|depth]; simpl; [quiet_auto|].
  rewrite Hdry.
  repeat first [apply quiet_remove_run_from_host | quiet_step].
Qed.

Lemma quiet_clean_abandoned_runs delete_live i_max rds :
  forall i, quiet (clean_abandoned_runs e delete_live i_max rds i).
Proof.
  induction rds as [|rd rds IH]; intros i; simpl; [quiet_auto|].
  repeat first [apply quiet_remove_run_from_host | apply IH | quiet_step].
Qed.

Lemma quiet_clean_abandoned depth delete_live : quiet (clean_abandoned depth e delete_live).
Proof.
  destruct depth as [|depth]; simpl; [quiet_auto|].
  rewrite Hdry.
  repeat first [apply quiet_clean_abandoned_runs | quiet_step].
Qed.

Lemma quiet_clean_non_latest_ddocs rounds :
  forall i, quiet_rd (clean_non_latest_ddocs e rounds i).
Proof.
  induction rounds as [|rounds IH]; intros i; simpl; [quiet_auto|].
  repeat first [apply dry_delete | apply IH | quiet_step].
Qed.

Lemma quiet_clean_non_latest_runs rds : quiet (clean_non_latest_runs e rds).
Proof.
  induction rds as [|rd rds IH]; simpl; [quiet_auto|].
  repeat first [apply quiet_with_rd, quiet_clean_non_latest_ddocs | apply IH | quiet_step].
Qed.

Lemma quiet_clean_non_latest : quiet (clean_non_latest e).
Proof.
  unfold clean_non_latest.
  repeat first [apply quiet_clean_non_latest_runs | quiet_step].
Qed.

Lemma quiet_remove_unregistered_folders base_folder run_id folders :
  forall deleted_data,
    quiet (remove_unregistered_folders e base_folder run_id folders deleted_data).
Proof.
  induction folders as [|folder folders IH]; intros deleted_data; simpl; [quiet_auto|].
  rewrite Hdry.
  repeat first [apply IH | quiet_step].
Qed.

Lemma quiet__remove_unregistered_run base_folder run_id checked_db :
  quiet (_remove_unregistered_run e base_folder run_id checked_db).
Proof.
  unfold _remove_unregistered_run.
  repeat first [apply quiet_remove_unregistered_folders | quiet_step].
Qed.

Lemma quiet_remove_if_unregistered number delete_live clean_from :
  quiet (remove_if_unregistered e number delete_live clean_from).
Proof.
  unfold remove_if_unregistered.
  repeat first [apply quiet__remove_unregistered_run | quiet_step].
Qed.

Lemma quiet_cleaning_sequence depth : quiet (cleaning_sequence depth e).
Proof.
  unfold cleaning_sequence.
  repeat first [apply quiet_clean_ceph | apply quiet_clean_abandoned
               | apply quiet_clean_non_latest | quiet_step].
Qed.

Lemma quiet_main_loop sequence rounds :
  quiet sequence -> quiet (main_loop sequence e rounds).
Proof.
  intros Hs. induction rounds as [|rounds IH]; simpl; [quiet_auto|].
  intros w. specialize (Hs w). rewrite Hdry. simpl.
  destruct (sequence w) as [[[]|x] w1]; simpl in *; [exact Hs|].
  rewrite <- Hs.
  destruct (stops_the_loop x).
  - assert (Hq : quiet (log_info "Stopping, wait a second for the delete threads" ;;
                        wait_on_delete_thread ;; @raise world loop_end x))
      by quiet_auto.
    apply Hq.
  - assert (Hq : quiet
        (log_error ("Fatal warning:	ran into " ++ exn_message x ++
                    ". Try logging error and restart ajax") ;;
         log_warning ("Fatal warning:	ran into " ++ exn_message x) "error" None ;;
         sleep 60 ;;
         log_warn "Restarting main loop" ;;
         main_loop sequence e rounds))
      by (repeat first [apply IH | quiet_step]).
    apply Hq.
Qed.

End DryRun.

Lemma quiet_clean_high_level_data e : quiet (clean_high_level_data e).
Proof.
  intros w. reflexivity.
Qed.

(** C2. Under a dry run nothing is mutated: whatever the run document, the
    world and the result (a return or an exception), [delete_data] and the
    thread that runs it leave the paths that exist and the runs collection as
    they were and add no [rmtree], [move] or [update_one] to the trace, as
    soon as [--production] is off or [test] is true; and with [--production]
    off the same holds of [_rmtree], of [remove_run_from_host], of the two
    functions for unregistered data, and of the modes built on them, however
    many runs they select. *)
Theorem dry_run_mutates_nothing (e : env) :
  (forall path data_type test ignore reason,
      args_production e = false \/ test = true ->
      quiet_rd (delete_data e path data_type test ignore reason)
      /\ quiet_rd (threaded_delete_data e path data_type test ignore reason))
  /\ (args_production e = false ->
      (forall path, quiet (_rmtree e path))
      /\ (forall number delete_live force reason,
             quiet (remove_run_from_host e number delete_live force reason))
      /\ (forall base_folder run_id checked_db,
             quiet (_remove_unregistered_run e base_folder run_id checked_db))
      /\ (forall number delete_live clean_from,
             quiet (remove_if_unregistered e number delete_live clean_from))
      /\ (forall depth, quiet (clean_ceph depth e))
      /\ (forall depth delete_live, quiet (clean_abandoned depth e delete_live))
      /\ quiet (clean_non_latest e)
      /\ quiet (clean_high_level_data e)
      /\ (forall depth rounds, quiet (main_ajax_all depth e rounds))).
Proof.
  split.
  - intros path data_type test ignore reason H. split.
    + now apply quiet_delete_data.
    + now apply quiet_threaded_delete_data.
  - intros Hdry.
    split; [intros; now apply quiet__rmtree|].
    split; [intros; now apply quiet_remove_run_from_host|].
    split; [intros; now apply quiet__remove_unregistered_run|].
    split; [intros; now apply quiet_remove_if_unregistered|].
    split; [intros; now apply quiet_clean_ceph|].
    split; [intros; now apply quiet_clean_abandoned|].
    split; [now apply quiet_clean_non_latest|].
    split; [apply quiet_clean_high_level_data|].
    intros depth rounds.
    apply quiet_main_loop; [assumption|]. now apply quiet_cleaning_sequence.
Qed.

(** Scenario B without [--production]: the run matches, nothing changes. *)
Lemma dry_run_mutates_nothing_scenario_B :
  args_production eb1_dry = false
  /\ footprint (snd (remove_run_from_host eb1_dry 24399 false false "manual" world_B))
     = footprint world_B
  /\ footprint (snd (snd (delete_data eb1 "/data/eb1/24399-raw" "raw_records" true false
                                      "manual" (scenario_B, world_B))))
     = footprint world_B.
Proof.
  split; [reflexivity|]. split.
  - exact (proj1 (proj2 (proj2 (dry_run_mutates_nothing eb1_dry) eq_refl))
             24399%Z false false "manual" world_B).
  - exact (proj1 (proj1 (dry_run_mutates_nothing eb1) "/data/eb1/24399-raw" "raw_records"
                        true false "manual" (or_intror eq_refl))
             (scenario_B, world_B)).
Defined.

(** ** Running [delete_data] *)

Lemma bind_ok {S A B} (m : ST S A) (k : A -> ST S B) s a s' :
  m s = (Ok a, s') -> bind m k s = k a s'.
Proof. intros H. unfold bind. now rewrite H. Qed.

Lemma confirm_run e question w :
  confirm e question w = (confirmed e (stdin w), set_stdin w (after_confirm e (stdin w))).
Proof.
  unfold confirm, confirmed, after_confirm.
  destruct (args_ask_confirm e); simpl.
  - now destruct (read_answer (stdin w)).
  - now destruct w.
Qed.

Lemma in_strings_In s l : in_strings s l = true <-> In s l.
Proof.
  unfold in_strings. rewrite existsb_exists. split.
  - intros [x [Hx He]]. apply String.eqb_eq in He. now subst.
  - intros H. exists s. split; [assumption|apply String.eqb_refl].
Qed.

Lemma rmtree_removes path l :
  in_strings path (filter (fun q => negb (under path q)) l) = false.
Proof.
  apply not_true_is_false. rewrite in_strings_In, filter_In.
  intros [_ H]. unfold under in H. now rewrite String.eqb_refl in H.
Qed.

(** With all entries typed and hosted, the loop of [delete_data] stops on
    the first entry that the [$pull] would remove. *)
Lemma select_ddoc_first host data_type l :
  Forall (fun d => Dict.get "type" d <> None /\ Dict.get "host" d <> None) l ->
  forall i,
    match List.find (pull_matches host data_type) l with
    | Some d =>
        exists j, select_ddoc host data_type l i = Ok (i + j)
                  /\ nth_error l j = Some d
                  /\ pull_matches host data_type d = true
    | None =>
        select_ddoc host data_type l i
        = match (i + length l)%nat with
          | O => Raise (UnboundLocalError "ddoc")
          | S j => Ok j
          end
    end.
Proof.
  induction 1 as [|d l [Ht Hh] _ IH]; intros i; simpl.
  - now rewrite Nat.add_0_r.
  - unfold pull_matches at 1.
    destruct (Dict.get "type" d) as [t|] eqn:Et; [|congruence].
    destruct (Dict.get "host" d) as [h|] eqn:Eh; [|congruence].
    destruct (value_eqb t (VStr data_type)) eqn:Ety; simpl.
    + destruct (value_eqb h (VStr "daq") || value_eqb h (VStr host)) eqn:Eho.
      * exists 0. rewrite Nat.add_0_r. repeat split.
        unfold pull_matches. now rewrite Et, Eh, Ety, Eho.
      * specialize (IH (Datatypes.S i)).
        destruct (find (pull_matches host data_type) l).
        -- destruct IH as [j [Hs [Hn Hp]]]. exists (Datatypes.S j).
           rewrite Hs. repeat split; trivial. f_equal. lia.
        -- rewrite IH. now rewrite Nat.add_succ_r.
    + specialize (IH (Datatypes.S i)).
      destruct (find (pull_matches host data_type) l).
      * destruct IH as [j [Hs [Hn Hp]]]. exists (Datatypes.S j).
        rewrite Hs. repeat split; trivial. f_equal. lia.
      * rewrite IH. now rewrite Nat.add_succ_r.
Qed.

(** Evaluation that keeps the primitives folded. *)
Ltac run_cbn :=
  cbn -[in_strings deletion_record select_ddoc confirm update_one String.append under
        check_rundoc_for_live_and_raw enough_copies essential_copy_message
        PyStr.format06 PyStr.path_join PyStr.contains PyStr.last_segment
        log_warning apply_update update_first Z.add Z.opp Z.ltb].

Lemma delete_data_absent e rd path data_type ignore reason w i old :
  args_production e = true ->
  low_data_check e data_type false ignore (rd, w) = (Ok tt, (rd, w)) ->
  in_strings path (fs w) = false ->
  select_ddoc (hostname e) data_type (data rd) 0 = Ok i ->
  nth_error (data rd) i = Some old ->
  confirmed e (stdin w) = Ok true ->
  let record := deletion_record (hostname e) reason (clock w) old in
  delete_data e path data_type false ignore reason (rd, w)
  = (Ok tt,
     (set_data rd (replace_nth i record (data rd)),
      mkWorld (fs w)
              (update_first (rd_id rd) (apply_update (hostname e) record data_type)
                            (run_coll w))
              (clock w) (after_confirm e (stdin w))
              (EvUpdateOne (rd_id rd) record data_type
               :: EvLog "info" "update with {ddoc}"
               :: EvLog "info" "changing data field in rundoc"
               :: EvLog "info" ("There is no data on " ++ path ++ "! Just doing the rundoc.")
               :: trace w))).
Proof.
  intros Hprod Hguard Habs Hsel Hnth Hyes record.
  unfold delete_data. rewrite (bind_ok _ _ _ _ _ Hguard).
  unfold bind, lift, path_exists, log_info, emit, get_rd, of_result, of_option, put_rd, now.
  run_cbn.
  rewrite Habs.
  run_cbn.
  rewrite Habs.
  run_cbn.
  rewrite Hsel.
  run_cbn.
  rewrite Hnth, Hprod.
  run_cbn.
  rewrite confirm_run.
  run_cbn.
  rewrite Hyes. rewrite Z.add_0_r. reflexivity.
Qed.

Lemma delete_data_present e rd path data_type ignore reason w i old :
  args_production e = true ->
  low_data_check e data_type false ignore (rd, w) = (Ok tt, (rd, w)) ->
  in_strings path (fs w) = true ->
  select_ddoc (hostname e) data_type (data rd) 0 = Ok i ->
  nth_error (data rd) i = Some old ->
  confirmed e (stdin w) = Ok true ->
  confirmed e (after_confirm e (stdin w)) = Ok true ->
  let record := deletion_record (hostname e) reason (clock w) old in
  delete_data e path data_type false ignore reason (rd, w)
  = (Ok tt,
     (set_data rd (replace_nth i record (data rd)),
      mkWorld (filter (fun q => negb (under path q)) (fs w))
              (update_first (rd_id rd) (apply_update (hostname e) record data_type)
                            (run_coll w))
              (clock w) (after_confirm e (after_confirm e (stdin w)))
              (EvUpdateOne (rd_id rd) record data_type
               :: EvLog "info" "update with {ddoc}"
               :: EvLog "info" "changing data field in rundoc"
               :: EvLog "info" ("deleting " ++ path ++ " finished")
               :: EvRmtree path
               :: EvLog "info" ("Deleting data at " ++ path)
               :: trace w))).
Proof.
  intros Hprod Hguard Hpres Hsel Hnth Hyes1 Hyes2 record.
  unfold delete_data. rewrite (bind_ok _ _ _ _ _ Hguard).
  unfold _rmtree, rmtree.
  unfold bind, lift, path_exists, log_info, emit, get_rd, of_result, of_option, put_rd, now.
  repeat (run_cbn;
          progress (try rewrite Hpres; try rewrite Hprod; try rewrite rmtree_removes;
                    try rewrite Hsel; try rewrite Hnth;
                    try (rewrite confirm_run; run_cbn;
                         first [rewrite Hyes1 | rewrite Hyes2]))).
  rewrite Z.add_0_r. reflexivity.
Qed.

(** ** Dictionaries *)

Lemma value_eqb_eq a b : value_eqb a b = true <-> a = b.
Proof.
  destruct a, b; simpl; split; intros H; try discriminate; try congruence.
  - apply String.eqb_eq in H. now subst.
  - inversion H. apply String.eqb_refl.
  - apply Z.eqb_eq in H. now subst.
  - inversion H. apply Z.eqb_refl.
  - apply Nat.eqb_eq in H. now subst.
  - inversion H. apply Nat.eqb_refl.
Qed.

Lemma dict_eqb_eq a : forall b, Dict.eqb a b = true <-> a = b.
Proof.
  induction a as [|[k v] a IH]; intros [|[k' v'] b]; simpl; split; intros H;
    try discriminate; try reflexivity.
  - unfold Dict.entry_eqb in H. simpl in H.
    apply andb_true_iff in H. destruct H as [H1 H2].
    apply andb_true_iff in H1. destruct H1 as [Hk Hv].
    apply String.eqb_eq in Hk. apply value_eqb_eq in Hv. apply IH in H2.
    now subst.
  - inversion H; subst. unfold Dict.entry_eqb. simpl.
    rewrite String.eqb_refl. simpl.
    rewrite (proj2 (value_eqb_eq v' v') eq_refl). simpl. now apply IH.
Qed.

Lemma get_set_same k v d : Dict.get k (Dict.set k v d) = Some v.
Proof.
  induction d as [|[k' v'] d IH]; simpl.
  - now rewrite String.eqb_refl.
  - destruct (k' =? k) eqn:E; simpl; now rewrite E.
Qed.

Lemma get_set_other k k' v d : k <> k' -> Dict.get k' (Dict.set k v d) = Dict.get k' d.
Proof.
  intros Hne. induction d as [|[k0 v0] d IH]; simpl.
  - destruct (k =? k') eqn:E; [apply String.eqb_eq in E; contradiction|reflexivity].
  - destruct (k0 =? k) eqn:E; simpl.
    + apply String.eqb_eq in E. subst k0.
      destruct (k =? k') eqn:E'; [apply String.eqb_eq in E'; contradiction|reflexivity].
    + now rewrite IH.
Qed.

Lemma get_pop_all_other k ks d :
  existsb (String.eqb k) ks = false -> Dict.get k (Dict.pop_all ks d) = Dict.get k d.
Proof.
  intros Hk. induction d as [|[k0 v0] d IH]; simpl; [reflexivity|].
  destruct (k0 =? k) eqn:E.
  - apply String.eqb_eq in E. subst k0. rewrite Hk. simpl.
    now rewrite String.eqb_refl.
  - destruct (negb (existsb (String.eqb k0) ks)); simpl; [rewrite E|]; exact IH.
Qed.

(** The record of a deletion keeps every field of the entry but
    [location], [meta] and [protocol], and sets [at], [by] and [reason]. *)
Lemma deletion_record_keeps host reason t d k :
  existsb (String.eqb k) ["location"; "meta"; "protocol"; "at"; "by"; "reason"] = false ->
  Dict.get k (deletion_record host reason t d) = Dict.get k d.
Proof.
  intros Hk. unfold deletion_record, Dict.update. simpl in *.
  apply orb_false_iff in Hk. destruct Hk as [H1 Hk].
  apply orb_false_iff in Hk. destruct Hk as [H2 Hk].
  apply orb_false_iff in Hk. destruct Hk as [H3 Hk].
  apply orb_false_iff in Hk. destruct Hk as [H4 Hk].
  apply orb_false_iff in Hk. destruct Hk as [H5 Hk].
  apply orb_false_iff in Hk. destruct Hk as [H6 _].
  rewrite !get_set_other.
  - apply get_pop_all_other. simpl. now rewrite H1, H2, H3.
  - intros E. subst k. now rewrite String.eqb_refl in H4.
  - intros E. subst k. now rewrite String.eqb_refl in H5.
  - intros E. subst k. now rewrite String.eqb_refl in H6.
Qed.

Lemma deletion_record_reason host reason t d :
  Dict.get "reason" (deletion_record host reason t d) = Some (VStr reason).
Proof. unfold deletion_record, Dict.update. simpl. apply get_set_same. Qed.

Lemma deletion_record_by host reason t d :
  Dict.get "by" (deletion_record host reason t d) = Some (VStr ("ajax." ++ host)).
Proof.
  unfold deletion_record, Dict.update. simpl.
  rewrite get_set_other by discriminate. apply get_set_same.
Qed.

Lemma deletion_record_at host reason t d :
  Dict.get "at" (deletion_record host reason t d) = Some (VTime t).
Proof.
  unfold deletion_record, Dict.update. simpl.
  rewrite !get_set_other by discriminate. apply get_set_same.
Qed.

(** ** The update of the run document *)

Lemma find_update_first id f l :
  (forall rd, rd_id (f rd) = rd_id rd) ->
  List.find (fun rd => Nat.eqb (rd_id rd) id) (update_first id f l)
  = option_map f (List.find (fun rd => Nat.eqb (rd_id rd) id) l).
Proof.
  intros Hf. induction l as [|rd l IH]; simpl; [reflexivity|].
  destruct (Nat.eqb (rd_id rd) id) eqn:E; simpl.
  - now rewrite Hf, E.
  - now rewrite E.
Qed.

Lemma find_update_first_other id id' f l :
  (forall rd, rd_id (f rd) = rd_id rd) -> id' <> id ->
  List.find (fun rd => Nat.eqb (rd_id rd) id') (update_first id f l)
  = List.find (fun rd => Nat.eqb (rd_id rd) id') l.
Proof.
  intros Hf Hne. induction l as [|rd l IH]; simpl; [reflexivity|].
  destruct (Nat.eqb (rd_id rd) id) eqn:E; simpl.
  - rewrite Hf. apply Nat.eqb_eq in E. rewrite E.
    destruct (Nat.eqb id id') eqn:E'; [apply Nat.eqb_eq in E'; congruence|reflexivity].
  - destruct (Nat.eqb (rd_id rd) id'); [reflexivity|exact IH].
Qed.

Lemma add_to_set_In x l : In x (add_to_set x l).
Proof.
  unfold add_to_set. destruct (existsb (Dict.eqb x) l) eqn:E.
  - apply existsb_exists in E. destruct E as [y [Hy He]].
    apply dict_eqb_eq in He. now subst.
  - apply in_or_app. right. now left.
Qed.

Lemma filter_unique_match {A} (p : A -> bool) l1 d l2 :
  p d = true -> forallb (fun x => negb (p x)) (l1 ++ l2) = true ->
  filter (fun x => negb (p x)) (l1 ++ d :: l2) = (l1 ++ l2)%list.
Proof.
  intros Hd Hall. rewrite forallb_app in Hall.
  apply andb_true_iff in Hall. destruct Hall as [H1 H2].
  rewrite filter_app. simpl. rewrite Hd. simpl.
  rewrite forallb_forall in H1, H2.
  f_equal; apply forallb_filter_id; now apply forallb_forall.
Qed.

Lemma located_typed rd : located rd -> typed rd.
Proof.
  unfold located, typed. intros H. eapply Forall_impl; [|exact H].
  now intros d [Ht _].
Qed.

Lemma has_match_first e data_type rd :
  has_match e data_type rd = true ->
  exists old, first_match e data_type rd = Some old.
Proof.
  unfold has_match, first_match. intros H.
  destruct (find (pull_matches (hostname e) data_type) (data rd)) as [old|] eqn:E.
  - now exists old.
  - apply existsb_exists in H. destruct H as [d [Hin Hd]].
    now rewrite (find_none _ _ E d Hin) in Hd.
Qed.

(** A real deletion that the check lets through, with every confirmation
    granted and an entry to select. *)
Lemma delete_data_real e rd path data_type ignore reason w :
  args_production e = true ->
  located rd ->
  may_delete rd data_type ignore = true ->
  has_match e data_type rd = true ->
  granted e path w ->
  exists i old w',
    first_match e data_type rd = Some old
    /\ nth_error (data rd) i = Some old
    /\ select_ddoc (hostname e) data_type (data rd) 0 = Ok i
    /\ pull_matches (hostname e) data_type old = true
    /\ delete_data e path data_type false ignore reason (rd, w)
       = (Ok tt,
          (set_data rd (replace_nth i (deletion_record (hostname e) reason (clock w) old)
                                    (data rd)), w'))
    /\ fs w' = (if in_strings path (fs w)
                then filter (fun q => negb (under path q)) (fs w) else fs w)
    /\ run_coll w'
       = update_first (rd_id rd)
           (apply_update (hostname e) (deletion_record (hostname e) reason (clock w) old)
                         data_type)
           (run_coll w)
    /\ clock w' = clock w
    /\ updates_done w' = Datatypes.S (updates_done w)
    /\ ceph_removals w' = ceph_removals w.
Proof.
  intros Hprod Hloc Hmay Hmatch [Hyes1 Hyes2].
  destruct (has_match_first _ _ _ Hmatch) as [old Hfirst].
  pose proof (select_ddoc_first (hostname e) data_type (data rd) Hloc 0) as Hsel.
  unfold first_match in Hfirst. rewrite Hfirst in Hsel.
  destruct Hsel as [i [Hsel [Hnth Hpull]]]. simpl in Hsel.
  assert (Hguard : low_data_check e data_type false ignore (rd, w) = (Ok tt, (rd, w)))
    by (rewrite (low_data_check_run _ _ _ _ _ _ (located_typed _ Hloc)); now rewrite Hmay).
  exists i, old.
  destruct (in_strings path (fs w)) eqn:Hp.
  - pose proof (delete_data_present _ _ _ _ _ reason _ _ _ Hprod Hguard Hp Hsel Hnth Hyes1
                  (Hyes2 eq_refl)) as Hrun.
    cbv zeta in Hrun. eexists.
    split; [exact Hfirst|]. split; [exact Hnth|]. split; [exact Hsel|].
    split; [exact Hpull|]. split; [exact Hrun|].
    repeat split.
  - pose proof (delete_data_absent _ _ _ _ _ reason _ _ _ Hprod Hguard Hp Hsel Hnth Hyes1)
      as Hrun.
    cbv zeta in Hrun. eexists.
    split; [exact Hfirst|]. split; [exact Hnth|]. split; [exact Hsel|].
    split; [exact Hpull|]. split; [exact Hrun|].
    repeat split.
Qed.

(** C3, amended. In real execution, when the copy-count check lets the
    deletion through, every confirmation is granted and some entry of the run
    has the data type on "daq" or on this host, [delete_data] returns after
    exactly one [update_one] on the run's document. That one update removes
    from [data] every entry with that type whose host is "daq" or this host
    (exactly the one entry when only one is so), keeps every other entry, in
    order, and puts into [deleted_data] the record of the first such entry:
    its fields but [location], [meta] and [protocol], with the time, the
    actor and the caller's reason as given. No other document changes. *)
Theorem delete_data_rundoc_update
  (e : env) (rd doc : rundoc) (path data_type reason : string) (ignore : bool) (w : world)
  (Hprod : args_production e = true)
  (Hloc : located rd)
  (Hmay : may_delete rd data_type ignore = true)
  (Hmatch : has_match e data_type rd = true)
  (Hyes : granted e path w)
  (Hdoc : stored (rd_id rd) w = Some doc) :
  exists old rd' w' doc',
    let record := deletion_record (hostname e) reason (clock w) old in
    let removed := pull_matches (hostname e) data_type in
    first_match e data_type rd = Some old
    /\ removed old = true
    /\ delete_data e path data_type false ignore reason (rd, w) = (Ok tt, (rd', w'))
    /\ updates_done w' = Datatypes.S (updates_done w)
    /\ run_coll w'
       = update_first (rd_id rd) (apply_update (hostname e) record data_type) (run_coll w)
    /\ stored (rd_id rd) w' = Some doc'
    /\ (forall id, id <> rd_id rd -> stored id w' = stored id w)
    /\ data doc' = filter (fun d => negb (removed d)) (data doc)
    /\ (forall l1 d l2,
           data doc = (l1 ++ d :: l2)%list -> removed d = true ->
           forallb (fun x => negb (removed x)) (l1 ++ l2) = true ->
           data doc' = (l1 ++ l2)%list)
    /\ deleted_data doc' = add_to_set record (deleted_data doc)
    /\ In record (deleted_data doc')
    /\ (existsb (Dict.eqb record) (deleted_data doc) = false ->
        deleted_data doc' = (deleted_data doc ++ [record])%list)
    /\ Dict.get "reason" record = Some (VStr reason)
    /\ Dict.get "at" record = Some (VTime (clock w))
    /\ Dict.get "by" record = Some (VStr ("ajax." ++ hostname e))
    /\ Dict.get "type" record = Dict.get "type" old
    /\ Dict.get "host" record = Dict.get "host" old.
Proof.
  destruct (delete_data_real e rd path data_type ignore reason w Hprod Hloc Hmay Hmatch Hyes)
    as [i [old [w' [Hfirst [Hnth [Hsel [Hpull [Hrun [Hfs [Hcoll [Hclock [Hupd _]]]]]]]]]]]].
  set (record := deletion_record (hostname e) reason (clock w) old) in *.
  exists old, (set_data rd (replace_nth i record (data rd))), w',
    (apply_update (hostname e) record data_type doc).
  cbv zeta. fold record.
  assert (Hid : forall r, rd_id (apply_update (hostname e) record data_type r) = rd_id r)
    by reflexivity.
  repeat split; trivial.
  - unfold stored. rewrite Hcoll, (find_update_first _ _ _ Hid).
    unfold stored in Hdoc. now rewrite Hdoc.
  - intros id Hne. unfold stored. rewrite Hcoll.
    now apply find_update_first_other.
  - intros l1 d l2 Hsplit Hd Hrest. simpl. rewrite Hsplit.
    now apply filter_unique_match.
  - simpl. apply add_to_set_In.
  - intros Hnew. simpl. unfold add_to_set. now rewrite Hnew.
  - apply deletion_record_reason.
  - apply deletion_record_at.
  - apply deletion_record_by.
  - now apply deletion_record_keeps.
  - now apply deletion_record_keeps.
Qed.

(** Scenario B: with the live copy registered, the raw copy on eb1 goes;
    the live entry stays and the record keeps the reason. *)
Lemma delete_data_rundoc_update_scenario_B :
  exists rd' w',
    delete_data eb1 "/data/eb1/24399-raw" "raw_records" false false "manual"
                (scenario_B, world_B) = (Ok tt, (rd', w'))
    /\ updates_done w' = 1
    /\ option_map data (stored 1 w') = Some [live_on_daq]
    /\ option_map deleted_data (stored 1 w')
       = Some [[("type", VStr "raw_records"); ("host", VStr "eb1");
                ("at", VTime 1000000); ("by", VStr "ajax.eb1");
                ("reason", VStr "manual")]].
Proof.
  assert (Hloc : located scenario_B) by (repeat constructor; discriminate).
  assert (Hyes : granted eb1 "/data/eb1/24399-raw" world_B)
    by (split; [reflexivity|intros _; reflexivity]).
  destruct (delete_data_rundoc_update eb1 scenario_B scenario_B "/data/eb1/24399-raw"
              "raw_records" "manual" false world_B eq_refl Hloc eq_refl eq_refl Hyes eq_refl)
    as [old [rd' [w' [doc' H]]]].
  cbv zeta in H.
  destruct H as [Hfirst [_ [Hrun [Hupd [_ [Hst [_ [Hdata [_ [Hdel _]]]]]]]]]].
  exists rd', w'. split; [exact Hrun|]. split; [exact Hupd|].
  change (stored 1 w' = Some doc') in Hst.
  rewrite Hst. simpl. rewrite Hdata, Hdel.
  inversion Hfirst; subst old. split; reflexivity.
Defined.

(** The specification's scenario B with both copies of one data type: the
    update removes the shared-tier entry together with the entry of the host,
    for one record in [deleted_data]. *)
Lemma delete_data_removes_the_daq_entry_too :
  delete_data eb1 "/data/eb1/24399-raw" "raw_records" false false "manual"
    (scenario_B_same_type, world_of ["/data/eb1/24399-raw"] [scenario_B_same_type])
  = (Ok tt,
     (set_data scenario_B_same_type
               [deletion_record "eb1" "manual" 1000000 raw_on_eb1; raw_on_daq],
      mkWorld [] 
              [mkRundoc 1 24399 "done" 1000 "eb1" "transferred" 0 []
                        [deletion_record "eb1" "manual" 1000000 raw_on_eb1]]
              1000000 []
              [EvUpdateOne 1 (deletion_record "eb1" "manual" 1000000 raw_on_eb1) "raw_records";
               EvLog "info" "update with {ddoc}";
               EvLog "info" "changing data field in rundoc";
               EvLog "info" "deleting /data/eb1/24399-raw finished";
               EvRmtree "/data/eb1/24399-raw";
               EvLog "info" "Deleting data at /data/eb1/24399-raw"])).
Proof. vm_compute. reflexivity. Qed.

(** ** A run document after [delete_data] mutated one entry *)

Lemma same_place_refl d : same_place d d.
Proof. now split. Qed.

Lemma same_place_deletion_record host reason t d :
  same_place d (deletion_record host reason t d).
Proof. split; symmetry; now apply deletion_record_keeps. Qed.

Lemma replace_nth_same_place i x old l :
  nth_error l i = Some old -> same_place old x ->
  Forall2 same_place l (replace_nth i x l).
Proof.
  revert i. induction l as [|y l IH]; intros [|i] Hnth Hx; simpl in *; try discriminate.
  - inversion Hnth; subst. constructor; [assumption|].
    clear. induction l; constructor; [apply same_place_refl|assumption].
  - constructor; [apply same_place_refl|]. now apply IH.
Qed.

Lemma replace_nth_nth i x old l :
  nth_error l i = Some old -> nth_error (replace_nth i x l) i = Some x.
Proof.
  revert i. induction l as [|y l IH]; intros [|i] Hnth; simpl in *; try discriminate.
  - reflexivity.
  - now apply IH.
Qed.

Lemma same_place_pull host data_type d d' :
  same_place d d' -> pull_matches host data_type d = pull_matches host data_type d'.
Proof. intros [Ht Hh]. unfold pull_matches. now rewrite Ht, Hh. Qed.

Lemma same_place_type_is t d d' : same_place d d' -> type_is t d = type_is t d'.
Proof. intros [Ht _]. unfold type_is. now rewrite Ht. Qed.

Lemma same_place_select host data_type l l' :
  Forall2 same_place l l' ->
  forall i, select_ddoc host data_type l i = select_ddoc host data_type l' i.
Proof.
  induction 1 as [|d d' l l' [Ht Hh] _ IH]; intros i; simpl; [reflexivity|].
  rewrite <- Ht, <- Hh.
  destruct (Dict.get "type" d) as [t|]; [|reflexivity].
  destruct (value_eqb t (VStr data_type)); [|apply IH].
  destruct (Dict.get "host" d) as [h|]; [|reflexivity].
  destruct (value_eqb h (VStr "daq") || value_eqb h (VStr host)); [reflexivity|apply IH].
Qed.

Lemma same_place_copies t l l' :
  Forall2 same_place l l' ->
  length (filter (type_is t) l) = length (filter (type_is t) l').
Proof.
  induction 1 as [|d d' l l' Hd _ IH]; simpl; [reflexivity|].
  rewrite <- (same_place_type_is t d d' Hd).
  destruct (type_is t d); simpl; now rewrite IH.
Qed.

Lemma same_place_located l l' :
  Forall2 same_place l l' ->
  Forall (fun d => Dict.get "type" d <> None /\ Dict.get "host" d <> None) l ->
  Forall (fun d => Dict.get "type" d <> None /\ Dict.get "host" d <> None) l'.
Proof.
  induction 1 as [|d d' l l' [Ht Hh] _ IH]; intros Hl; [constructor|].
  inversion Hl; subst. constructor; [now rewrite <- Ht, <- Hh|now apply IH].
Qed.

Lemma same_place_existsb host data_type l l' :
  Forall2 same_place l l' ->
  existsb (pull_matches host data_type) l = existsb (pull_matches host data_type) l'.
Proof.
  induction 1 as [|d d' l l' Hd _ IH]; simpl; [reflexivity|].
  now rewrite (same_place_pull host data_type d d' Hd), IH.
Qed.

(** The mutated document passes the check, and selects, as the original. *)
Lemma mutated_rundoc e rd i old x data_type ignore :
  nth_error (data rd) i = Some old -> same_place old x ->
  let rd' := set_data rd (replace_nth i x (data rd)) in
  (located rd -> located rd')
  /\ may_delete rd' data_type ignore = may_delete rd data_type ignore
  /\ has_match e data_type rd' = has_match e data_type rd
  /\ select_ddoc (hostname e) data_type (data rd') 0
     = select_ddoc (hostname e) data_type (data rd) 0
  /\ nth_error (data rd') i = Some x
  /\ rd_id rd' = rd_id rd.
Proof.
  intros Hnth Hx rd'.
  pose proof (replace_nth_same_place i x old (data rd) Hnth Hx) as HF.
  repeat split.
  - intros Hloc. unfold located, rd'. simpl. now apply (same_place_located _ _ HF).
  - unfold may_delete, liveCopies, durableCopies, copies, rd'. simpl.
    now rewrite <- !(same_place_copies _ _ _ HF).
  - unfold has_match, rd'. simpl. symmetry. now apply same_place_existsb.
  - unfold rd'. simpl. symmetry. now apply same_place_select.
  - unfold rd'. simpl. now apply (replace_nth_nth i x old).
Qed.

Lemma filter_filter_id {A} (p : A -> bool) l : filter p (filter p l) = filter p l.
Proof.
  induction l as [|x l IH]; simpl; [reflexivity|].
  destruct (p x) eqn:E; simpl; [rewrite E; now f_equal|exact IH].
Qed.

(** ** A path that is already gone *)

Lemma granted_absent e path w :
  in_strings path (fs w) = false -> confirmed e (stdin w) = Ok true -> granted e path w.
Proof.
  intros Habs Hyes. split; [exact Hyes|]. intros H. congruence.
Qed.

(** C4, amended. In real execution, for every run document and data type
    for which the copy-count check passes (or is overridden) and some entry
    has the type on "daq" or on this host, calling [delete_data] on a path
    that is absent, with the update confirmed, raises nothing, leaves the
    file system as it is, and does exactly one [update_one]: the entries it
    matches leave [data] and the record enters [deleted_data]. Called again
    on the same run document with the path still absent, it again raises
    nothing and does exactly one [update_one], which removes nothing more
    from [data] and adds the record, stamped anew, to [deleted_data]. *)
Theorem delete_data_path_absent
  (e : env) (rd doc : rundoc) (path data_type reason : string) (ignore : bool) (w : world)
  (Hprod : args_production e = true)
  (Hloc : located rd)
  (Hmay : may_delete rd data_type ignore = true)
  (Hmatch : has_match e data_type rd = true)
  (Habs : in_strings path (fs w) = false)
  (Hyes : confirmed e (stdin w) = Ok true)
  (Hdoc : stored (rd_id rd) w = Some doc) :
  exists old rd' w' doc',
    let record := deletion_record (hostname e) reason (clock w) old in
    let removed := pull_matches (hostname e) data_type in
    first_match e data_type rd = Some old
    /\ delete_data e path data_type false ignore reason (rd, w) = (Ok tt, (rd', w'))
    /\ fs w' = fs w
    /\ updates_done w' = Datatypes.S (updates_done w)
    /\ stored (rd_id rd) w' = Some doc'
    /\ data doc' = filter (fun d => negb (removed d)) (data doc)
    /\ deleted_data doc' = add_to_set record (deleted_data doc)
    /\ forall w2,
         in_strings path (fs w2) = false ->
         confirmed e (stdin w2) = Ok true ->
         exists rd'' w3,
           let record2 := deletion_record (hostname e) reason (clock w2) record in
           delete_data e path data_type false ignore reason (rd', w2) = (Ok tt, (rd'', w3))
           /\ fs w3 = fs w2
           /\ updates_done w3 = Datatypes.S (updates_done w2)
           /\ run_coll w3
              = update_first (rd_id rd) (apply_update (hostname e) record2 data_type)
                             (run_coll w2)
           /\ (run_coll w2 = run_coll w' ->
               exists doc'',
                 stored (rd_id rd) w3 = Some doc''
                 /\ data doc'' = data doc'
                 /\ deleted_data doc'' = add_to_set record2 (deleted_data doc')).
Proof.
  destruct (delete_data_real e rd path data_type ignore reason w Hprod Hloc Hmay Hmatch
              (granted_absent _ _ _ Habs Hyes))
    as [i [old [w' [Hfirst [Hnth [Hsel [Hpull [Hrun [Hfs [Hcoll [Hclock [Hupd _]]]]]]]]]]]].
  rewrite Habs in Hfs.
  set (record := deletion_record (hostname e) reason (clock w) old) in *.
  set (rd' := set_data rd (replace_nth i record (data rd))) in *.
  assert (Hid : forall x r, rd_id (apply_update (hostname e) x data_type r) = rd_id r)
    by reflexivity.
  assert (Hst : stored (rd_id rd) w' = Some (apply_update (hostname e) record data_type doc)).
  { unfold stored. rewrite Hcoll, (find_update_first _ _ _ (Hid record)).
    unfold stored in Hdoc. now rewrite Hdoc. }
  exists old, rd', w', (apply_update (hostname e) record data_type doc).
  cbv zeta. fold record.
  repeat split; trivial.
  intros w2 Habs2 Hyes2.
  destruct (mutated_rundoc e rd i old record data_type ignore Hnth
              (same_place_deletion_record _ _ _ _))
    as [Hloc' [Hmay' [Hmatch' [Hsel' [Hnth' Hid']]]]].
  fold rd' in Hloc', Hmay', Hmatch', Hsel', Hnth', Hid'.
  rewrite <- Hmay' in Hmay. rewrite <- Hmatch' in Hmatch.
  destruct (delete_data_real e rd' path data_type ignore reason w2 Hprod (Hloc' Hloc)
              Hmay Hmatch (granted_absent _ _ _ Habs2 Hyes2))
    as [i2 [old2 [w3 [_ [Hnth2 [Hsel2 [_ [Hrun2 [Hfs2 [Hcoll2 [_ [Hupd2 _]]]]]]]]]]]].
  rewrite Hsel', Hsel in Hsel2. inversion Hsel2; subst i2.
  rewrite Hnth' in Hnth2. inversion Hnth2; subst old2.
  rewrite Habs2 in Hfs2. rewrite Hid' in Hcoll2.
  eexists. exists w3. repeat split; try eassumption.
  intros Hsame.
  exists (apply_update (hostname e) (deletion_record (hostname e) reason (clock w2) record)
                       data_type (apply_update (hostname e) record data_type doc)).
  repeat split.
  - unfold stored. rewrite Hcoll2, Hsame, (find_update_first _ _ _ (Hid _)).
    unfold stored in Hst. now rewrite Hst.
  - simpl. apply filter_filter_id.
Qed.

(** Scenario B with the raw copy already gone from the disk, twice. *)
Lemma delete_data_path_absent_scenario_B :
  exists rd' w',
    delete_data eb1 "/data/eb1/24399-raw" "raw_records" false false "manual"
                (scenario_B, world_of ["/live_data/xenonnt"] [scenario_B])
    = (Ok tt, (rd', w'))
    /\ fs w' = ["/live_data/xenonnt"]
    /\ updates_done w' = 1
    /\ option_map data (stored 1 w') = Some [live_on_daq]
    /\ exists rd'' w'',
         delete_data eb1 "/data/eb1/24399-raw" "raw_records" false false "manual" (rd', w')
         = (Ok tt, (rd'', w''))
         /\ updates_done w'' = 2
         /\ option_map data (stored 1 w'') = Some [live_on_daq].
Proof.
  assert (Hloc : located scenario_B) by (repeat constructor; discriminate).
  destruct (delete_data_path_absent eb1 scenario_B scenario_B "/data/eb1/24399-raw"
              "raw_records" "manual" false (world_of ["/live_data/xenonnt"] [scenario_B])
              eq_refl Hloc eq_refl eq_refl eq_refl eq_refl eq_refl)
    as [old [rd' [w' [doc' H]]]].
  cbv zeta in H.
  destruct H as [Hfirst [Hrun [Hfs [Hupd [Hst [Hdata [Hdel Hagain]]]]]]].
  exists rd', w'. split; [exact Hrun|]. split; [exact Hfs|]. split; [exact Hupd|].
  change (stored 1 w' = Some doc') in Hst.
  split; [rewrite Hst; simpl; now rewrite Hdata|].
  assert (Hyes : confirmed eb1 (stdin w') = Ok true) by reflexivity.
  assert (Habs : in_strings "/data/eb1/24399-raw" (fs w') = false) by now rewrite Hfs.
  destruct (Hagain w' Habs Hyes) as [rd'' [w'' [Hrun2 [_ [Hupd2 [_ Hsame]]]]]].
  exists rd'', w''. split; [exact Hrun2|]. split; [now rewrite Hupd2, Hupd|].
  destruct (Hsame eq_refl) as [doc'' [Hst2 [Hdata2 _]]].
  change (stored 1 w'' = Some doc'') in Hst2.
  rewrite Hst2. simpl. now rewrite Hdata2, Hdata.
Defined.

(** Scenario A in real execution, the path already absent: the copy-count
    check raises, and the runs collection is as before. *)
Lemma delete_data_absent_path_still_checked :
  delete_data eb1 "/data/eb1/24399-raw" "raw_records" false false "manual"
    (scenario_A, world_of [] [scenario_A])
  = (Raise (ValueError (essential_copy_message "raw_records" 0 1)),
     (scenario_A,
      mkWorld [] [scenario_A] 1000000 []
              [EvReport "fatal" (Some "024399") (essential_copy_message "raw_records" 0 1);
               EvLog "fatal" (essential_copy_message "raw_records" 0 1)])).
Proof. vm_compute. reflexivity. Qed.

(** ** The drive of [clean_ceph] *)

Lemma granted_no_ask e path w : args_ask_confirm e = false -> granted e path w.
Proof.
  intros H. unfold granted, confirmed. now rewrite H.
Qed.

(** The loop of [delete_data] never selects an entry after one that matches. *)
Lemma select_ddoc_le host data_type l :
  Forall (fun d => Dict.get "type" d <> None /\ Dict.get "host" d <> None) l ->
  forall k d i,
    nth_error l k = Some d -> pull_matches host data_type d = true ->
    exists j, select_ddoc host data_type l i = Ok (i + j) /\ j <= k.
Proof.
  induction 1 as [|d0 l [Ht Hh] _ IH]; intros k d i Hnth Hd.
  - destruct k; discriminate.
  - simpl.
    destruct (Dict.get "type" d0) as [t|] eqn:Et; [|congruence].
    destruct (Dict.get "host" d0) as [h|] eqn:Eh; [|congruence].
    destruct k as [|k]; simpl in Hnth.
    + inversion Hnth; subst d0. unfold pull_matches in Hd. rewrite Et, Eh in Hd.
      apply andb_true_iff in Hd. destruct Hd as [Hty Hho]. rewrite Hty, Hho.
      exists 0. split; [now rewrite Nat.add_0_r|lia].
    + destruct (value_eqb t (VStr data_type)).
      * destruct (value_eqb h (VStr "daq") || value_eqb h (VStr host)).
        -- exists 0. split; [now rewrite Nat.add_0_r|lia].
        -- destruct (IH k d (Datatypes.S i) Hnth Hd) as [j [Hs Hj]].
           exists (Datatypes.S j). split; [rewrite Hs; f_equal; lia|lia].
      * destruct (IH k d (Datatypes.S i) Hnth Hd) as [j [Hs Hj]].
        exists (Datatypes.S j). split; [rewrite Hs; f_equal; lia|lia].
Qed.

Lemma skipn_replace_nth j x l : forall i,
  j < i -> skipn i (replace_nth j x l) = skipn i l.
Proof.
  revert j. induction l as [|y l IH]; intros j i Hlt.
  - now destruct j.
  - destruct i as [|i]; [lia|]. destruct j as [|j]; simpl; [reflexivity|].
    apply IH. lia.
Qed.

Lemma same_place_trans l1 l2 l3 :
  Forall2 same_place l1 l2 -> Forall2 same_place l2 l3 -> Forall2 same_place l1 l3.
Proof.
  intros H. revert l3. induction H as [|a b l1 l2 [Ht Hh] _ IH]; intros l3 H3.
  - inversion H3. constructor.
  - inversion H3 as [|b' c l2' l3' [Ht' Hh'] Hrest]; subst. constructor.
    + split; congruence.
    + now apply IH.
Qed.

Lemma same_place_refl_list l : Forall2 same_place l l.
Proof. induction l; constructor; [apply same_place_refl|assumption]. Qed.

Lemma update_first_same id l : update_first id (fun rd => rd) l = l.
Proof.
  induction l as [|rd l IH]; simpl; [reflexivity|].
  destruct (Nat.eqb (rd_id rd) id); [reflexivity|now rewrite IH].
Qed.

Lemma update_first_twice id f g l :
  (forall rd, rd_id (g rd) = rd_id rd) ->
  update_first id f (update_first id g l) = update_first id (fun rd => f (g rd)) l.
Proof.
  intros Hg. induction l as [|rd l IH]; simpl; [reflexivity|].
  destruct (Nat.eqb (rd_id rd) id) eqn:E; simpl.
  - now rewrite Hg, E.
  - now rewrite E, IH.
Qed.

Lemma filter_twice {A} (p q : A -> bool) l :
  filter p (filter q l) = filter (fun x => q x && p x) l.
Proof.
  induction l as [|x l IH]; simpl; [reflexivity|].
  destruct (q x); simpl; [destruct (p x); now rewrite IH|exact IH].
Qed.

Lemma filter_all {A} (l : list A) : filter (fun _ => true) l = l.
Proof. induction l as [|x l IH]; simpl; now rewrite ?IH. Qed.

Lemma pulls_nothing host : pulls host [] (fun rd => rd).
Proof.
  intros rd. repeat split. simpl. symmetry. apply filter_all.
Qed.

Lemma pulls_after_update host record t types g :
  pulls host types g ->
  pulls host (t :: types) (fun rd => g (apply_update host record t rd)).
Proof.
  intros Hg rd. destruct (Hg (apply_update host record t rd)) as [H1 [H2 [H3 [H4 H5]]]].
  repeat split; trivial.
  rewrite H5. simpl. rewrite filter_twice. apply filter_ext.
  intros d. now rewrite negb_orb.
Qed.

Lemma skipn_cons_nth {A} (l : list A) i d :
  nth_error l i = Some d -> skipn i l = d :: skipn (Datatypes.S i) l.
Proof.
  revert i. induction l as [|x l IH]; intros [|i] H; simpl in *; try discriminate.
  - now inversion H.
  - now apply IH.
Qed.

Lemma skipn_nth_error {A} (l l' : list A) i :
  skipn i l = skipn i l' -> nth_error l i = nth_error l' i.
Proof.
  intros H. rewrite <- (Nat.add_0_r i).
  rewrite <- !nth_error_skipn. now rewrite H.
Qed.

Lemma threaded_delete_data_real e rd path data_type ignore reason w :
  args_production e = true ->
  args_ask_confirm e = false ->
  located rd ->
  may_delete rd data_type ignore = true ->
  has_match e data_type rd = true ->
  exists i old w',
    select_ddoc (hostname e) data_type (data rd) 0 = Ok i
    /\ nth_error (data rd) i = Some old
    /\ threaded_delete_data e path data_type false ignore reason (rd, w)
       = (Ok tt,
          (set_data rd (replace_nth i (deletion_record (hostname e) reason (clock w) old)
                                    (data rd)), w'))
    /\ run_coll w'
       = update_first (rd_id rd)
           (apply_update (hostname e) (deletion_record (hostname e) reason (clock w) old)
                         data_type)
           (run_coll w)
    /\ clock w' = clock w
    /\ ceph_removals w' = ceph_removals w.
Proof.
  intros Hprod Hask Hloc Hmay Hmatch.
  destruct (delete_data_real e rd path data_type ignore reason
              (mkWorld (fs w) (run_coll w) (clock w) (stdin w)
                       (EvThreadStart (thread_prefix ++ PyStr.last_segment path)
                        :: EvLog "info" ("Starting thread to delete " ++ path)
                        :: trace w))
              Hprod Hloc Hmay Hmatch (granted_no_ask _ _ _ Hask))
    as [i [old [w' [_ [Hnth [Hsel [_ [Hrun [_ [Hcoll [Hclock [_ Hrem]]]]]]]]]]]].
  cbn [clock run_coll] in Hrun, Hcoll, Hclock.
  exists i, old. eexists. split; [exact Hsel|]. split; [exact Hnth|].
  split; [|split; [|split]].
  - unfold threaded_delete_data.
    unfold bind, lift, log_info, emit. run_cbn.
    rewrite Hrun. run_cbn. reflexivity.
  - exact Hcoll.
  - exact Hclock.
  - unfold ceph_removals in *. cbn [trace] in *. simpl filter in *. exact Hrem.
Qed.

Lemma host_is_other h1 h2 d : host_is h1 d = true -> h1 <> h2 -> host_is h2 d = false.
Proof.
  unfold host_is. destruct (Dict.get "host" d) as [v|]; [|discriminate].
  intros H1 Hne. apply value_eqb_eq in H1. subst v. simpl.
  destruct (h1 =? h2) eqn:E; [apply String.eqb_eq in E; contradiction|reflexivity].
Qed.

Lemma daq_entry_matches host t d :
  Dict.get "type" d = Some (VStr t) -> host_is "daq" d = true ->
  pull_matches host t d = true.
Proof.
  unfold host_is, pull_matches. intros ->.
  destruct (Dict.get "host" d) as [v|]; [|discriminate].
  intros ->. simpl. now rewrite String.eqb_refl.
Qed.

Section CephDrive.

Variable e : env.
Hypothesis Hprod : args_production e = true.
Hypothesis Hask : args_ask_confirm e = false.
Hypothesis Hnotdaq : hostname e <> "daq".

Variables (run_number : Z) (reason : string) (have_live_data have_raw_records : nat).
Hypothesis Hsafe : args_force e = true \/ have_raw_records <> 0.

Let step := remove_run_from_host_step e run_number true (args_force e) reason
                                      have_live_data have_raw_records.

(** An entry that is not on "daq" is passed over. *)
Lemma live_step_skip rd w i d :
  nth_error (data rd) i = Some d -> host_is "daq" d = false ->
  step i (rd, w) = (Ok tt, (rd, w)).
Proof.
  intros Hnth Hdaq. unfold step, remove_run_from_host_step.
  unfold bind, get_rd. cbn [fst snd]. rewrite Hnth.
  destruct (host_is (hostname e) d); [reflexivity|].
  now rewrite Hdaq.
Qed.

(** An entry on "daq" is deleted in a thread. *)
Lemma live_step_daq rd w i d loc t :
  nth_error (data rd) i = Some d ->
  host_is "daq" d = true ->
  Dict.get "location" d = Some (VStr loc) ->
  Dict.get "type" d = Some (VStr t) ->
  located rd ->
  may_delete rd t (args_force e) = true ->
  exists j old w',
    j <= i
    /\ nth_error (data rd) j = Some old
    /\ step i (rd, w)
       = (Ok tt,
          (set_data rd (replace_nth j (deletion_record (hostname e) reason (clock w) old)
                                    (data rd)), w'))
    /\ run_coll w'
       = update_first (rd_id rd)
           (apply_update (hostname e) (deletion_record (hostname e) reason (clock w) old) t)
           (run_coll w)
    /\ clock w' = clock w
    /\ ceph_removals w' = ceph_removals w.
Proof.
  intros Hnth Hdaq Hlocation Htype Hloc Hmay.
  assert (Hhost : host_is (hostname e) d = false).
  { apply (host_is_other "daq"); [assumption|]. intros E. now apply Hnotdaq. }
  pose proof (daq_entry_matches (hostname e) t d Htype Hdaq) as Hpull.
  assert (Hmatch : has_match e t rd = true).
  { unfold has_match. apply existsb_exists. exists d. split; [|assumption].
    eapply nth_error_In; eassumption. }
  destruct (select_ddoc_le (hostname e) t (data rd) Hloc i d 0 Hnth Hpull) as [j [Hj Hle]].
  simpl in Hj.
  set (path := PyStr.path_join loc (PyStr.format06 run_number)).
  assert (Hthread : forall msg,
    exists old w',
      nth_error (data rd) j = Some old
      /\ threaded_delete_data e path t false (args_force e) reason
           (rd, mkWorld (fs w) (run_coll w) (clock w) (stdin w) (EvLog "info" msg :: trace w))
         = (Ok tt,
            (set_data rd (replace_nth j (deletion_record (hostname e) reason (clock w) old)
                                      (data rd)), w'))
      /\ run_coll w'
         = update_first (rd_id rd)
             (apply_update (hostname e) (deletion_record (hostname e) reason (clock w) old) t)
             (run_coll w)
      /\ clock w' = clock w
      /\ ceph_removals w'
         = ceph_removals (mkWorld (fs w) (run_coll w) (clock w) (stdin w)
                                  (EvLog "info" msg :: trace w))).
  { intros msg.
    destruct (threaded_delete_data_real e rd path t (args_force e) reason
                (mkWorld (fs w) (run_coll w) (clock w) (stdin w) (EvLog "info" msg :: trace w))
                Hprod Hask Hloc Hmay Hmatch)
      as [j' [old [w' [Hsel [Hnth' [Hrun [Hcoll [Hclock Hrem]]]]]]]].
    rewrite Hj in Hsel. inversion Hsel; subst j'.
    exists old, w'. cbn [clock run_coll] in *.
    repeat split; trivial. }
  unfold step, remove_run_from_host_step.
  unfold bind at 1. unfold get_rd. cbn [fst snd]. rewrite Hnth, Hhost, Hdaq.
  cbn [negb]. cbv iota.
  unfold bind at 1. unfold getitem_str at 1. rewrite Hlocation. unfold ret at 1.
  fold path.
  destruct (args_force e) eqn:Hforce.
  - cbn [negb andb]. cbv iota.
    unfold bind at 1. unfold lift at 1, log_info, emit. cbn [fst snd].
    unfold bind at 1. unfold getitem_str at 1. rewrite Htype. unfold ret at 1.
    destruct (Hthread ("Forcefully delete " ++ path ++ ", but no raw_records registered!"))
      as [old [w' [Hnth' [Hrun [Hcoll [Hclock Hrem]]]]]].
    exists j, old, w'.
    split; [exact Hle|]. split; [exact Hnth'|]. split; [rewrite Hprod; exact Hrun|].
    split; [exact Hcoll|]. split; [exact Hclock|]. rewrite Hrem. reflexivity.
  - destruct Hsafe as [Hf|Hraw]; [discriminate|].
    apply Nat.eqb_neq in Hraw. rewrite Hraw.
    cbn [negb andb]. cbv iota.
    unfold bind at 1. unfold lift at 1, log_info, emit. cbn [fst snd].
    unfold bind at 1. unfold getitem_str at 1. rewrite Htype. unfold ret at 1.
    destruct (Hthread ("Deleting " ++ path ++ " since we have raw_records registered."))
      as [old [w' [Hnth' [Hrun [Hcoll [Hclock Hrem]]]]]].
    exists j, old, w'.
    split; [exact Hle|]. split; [exact Hnth'|]. split; [rewrite Hprod; exact Hrun|].
    split; [exact Hcoll|]. split; [exact Hclock|]. rewrite Hrem. reflexivity.
Qed.

Lemma ceph_entries_located l :
  Forall ceph_entry_ok l ->
  Forall (fun d => Dict.get "type" d <> None /\ Dict.get "host" d <> None) l.
Proof.
  intros H. eapply Forall_impl; [|exact H]. intros d [Ht [Hh _]]. now split.
Qed.

(** The loop of [remove_run_from_host] for the live data of one run: every
    entry on "daq" is deleted, in order, and the run document loses what
    the updates pull. *)
Lemma live_loop rd0 :
  Forall ceph_entry_ok (data rd0) ->
  args_force e = true \/ liveCopies rd0 >= 1 ->
  forall rounds i rd w,
    length (data rd0) = i + rounds ->
    Forall2 same_place (data rd0) (data rd) ->
    skipn i (data rd) = skipn i (data rd0) ->
    rd_id rd = rd_id rd0 ->
    exists rd' w' g,
      remove_run_from_host_loop e run_number true (args_force e) reason
        have_live_data have_raw_records rounds i (rd, w) = (Ok tt, (rd', w'))
      /\ pulls (hostname e) (daq_types (skipn i (data rd0))) g
      /\ run_coll w' = update_first (rd_id rd0) g (run_coll w)
      /\ clock w' = clock w
      /\ ceph_removals w' = ceph_removals w.
Proof.
  intros Hok Hlive. induction rounds as [|rounds IH]; intros i rd w Hlen Hsame Hskip Hid.
  - exists rd, w, (fun r => r). simpl.
    rewrite skipn_all2 by lia. simpl.
    repeat split; try apply pulls_nothing.
    now rewrite update_first_same.
  - destruct (nth_error (data rd0) i) as [d|] eqn:Hnth0;
      [|apply nth_error_None in Hnth0; lia].
    assert (Hnth : nth_error (data rd) i = Some d)
      by (rewrite (skipn_nth_error _ _ _ Hskip); exact Hnth0).
    assert (Hd : ceph_entry_ok d)
      by (rewrite Forall_forall in Hok; apply Hok; eapply nth_error_In; eassumption).
    assert (Hskip' : skipn (Datatypes.S i) (data rd) = skipn (Datatypes.S i) (data rd0)).
    { rewrite (skipn_cons_nth _ _ _ Hnth), (skipn_cons_nth _ _ _ Hnth0) in Hskip.
      now inversion Hskip. }
    rewrite (skipn_cons_nth _ _ _ Hnth0).
    simpl remove_run_from_host_loop. fold step.
    destruct (host_is "daq" d) eqn:Hdaq.
    + destruct Hd as [_ [_ [Hstr _]]]. destruct (Hstr Hdaq) as [[t Ht] [loc Hl]].
      assert (Hloc : located rd)
        by (apply (same_place_located _ _ Hsame), ceph_entries_located, Hok).
      assert (Hmay : may_delete rd t (args_force e) = true).
      { unfold may_delete. destruct Hlive as [-> | Hl1]; [reflexivity|].
        apply orb_true_iff. left. apply orb_true_iff. right.
        apply Nat.leb_le. unfold liveCopies, copies in *.
        now rewrite <- (same_place_copies _ _ _ Hsame). }
      destruct (live_step_daq rd w i d loc t Hnth Hdaq Hl Ht Hloc Hmay)
        as [j [old [w1 [Hle [Hnthj [Hstep [Hcoll [Hclock Hrem]]]]]]]].
      set (record := deletion_record (hostname e) reason (clock w) old) in *.
      set (rd1 := set_data rd (replace_nth j record (data rd))) in *.
      assert (Hsame1 : Forall2 same_place (data rd0) (data rd1)).
      { apply (same_place_trans _ _ _ Hsame). unfold rd1. simpl.
        apply (replace_nth_same_place j record old); [assumption|].
        apply same_place_deletion_record. }
      assert (Hskip1 : skipn (Datatypes.S i) (data rd1) = skipn (Datatypes.S i) (data rd0)).
      { unfold rd1, set_data. cbn [data]. rewrite skipn_replace_nth by lia. exact Hskip'. }
      destruct (IH (Datatypes.S i) rd1 w1 ltac:(lia) Hsame1 Hskip1 Hid)
        as [rd' [w' [g [Hloop [Hg [Hcoll' [Hclock' Hrem']]]]]]].
      exists rd', w', (fun r => g (apply_update (hostname e) record t r)).
      split; [rewrite (bind_ok _ _ _ _ _ Hstep); exact Hloop|].
      split.
      { simpl. rewrite Hdaq, Ht. simpl. now apply pulls_after_update. }
      split.
      { rewrite Hcoll', Hcoll, Hid. apply update_first_twice. reflexivity. }
      split; [congruence|congruence].
    + pose proof (live_step_skip rd w i d Hnth Hdaq) as Hstep.
      destruct (IH (Datatypes.S i) rd w ltac:(lia) Hsame Hskip' Hid)
        as [rd' [w' [g [Hloop [Hg [Hcoll' [Hclock' Hrem']]]]]]].
      exists rd', w', g.
      split; [rewrite (bind_ok _ _ _ _ _ Hstep); exact Hloop|].
      split; [simpl; now rewrite Hdaq|].
      repeat split; assumption.
Qed.

End CephDrive.

Lemma data_has_type t rd : data_has "type" t rd = existsb (type_is t) (data rd).
Proof. reflexivity. Qed.

Lemma data_has_host h rd : data_has "host" h rd = existsb (host_is h) (data rd).
Proof. reflexivity. Qed.

Lemma existsb_filter_length {A} (p : A -> bool) l :
  existsb p l = true -> length (filter p l) >= 1.
Proof.
  induction l as [|x l IH]; simpl; [discriminate|].
  destruct (p x); simpl; [lia|exact IH].
Qed.

Lemma find_by_number (q : rundoc -> bool) l rd0 :
  NoDup (map number l) -> In rd0 l -> q rd0 = true ->
  List.find (fun rd => Z.eqb (number rd) (number rd0) && q rd) l = Some rd0.
Proof.
  induction l as [|rd l IH]; intros Hnd Hin Hq; [contradiction|].
  simpl in *. inversion Hnd as [|n ns Hnotin Hnd']; subst.
  destruct Hin as [-> | Hin].
  - now rewrite Z.eqb_refl, Hq.
  - destruct (Z.eqb (number rd) (number rd0)) eqn:E.
    + apply Z.eqb_eq in E. exfalso. apply Hnotin. rewrite E. now apply in_map.
    + simpl. now apply IH.
Qed.

Lemma type_is_live_daq_types l d :
  Forall ceph_entry_ok l -> In d l -> type_is "live" d = true ->
  In "live" (daq_types l) /\ Dict.get "type" d = Some (VStr "live")
  /\ host_is "daq" d = true.
Proof.
  intros Hok Hin Hlive.
  rewrite Forall_forall in Hok. destruct (Hok d Hin) as [_ [_ [_ Hdaq]]].
  specialize (Hdaq Hlive).
  assert (Ht : Dict.get "type" d = Some (VStr "live")).
  { unfold type_is in Hlive. destruct (Dict.get "type" d) as [v|]; [|discriminate].
    apply value_eqb_eq in Hlive. now subst. }
  repeat split; trivial.
  unfold daq_types. apply in_flat_map. exists d. split; [assumption|].
  rewrite Hdaq, Ht. now left.
Qed.

(** Once the entries on "daq" are pulled, the run has no live data left. *)
Lemma pulls_no_live host g rd0 :
  Forall ceph_entry_ok (data rd0) ->
  pulls host (daq_types (data rd0)) g ->
  ceph_static (g rd0) = false.
Proof.
  intros Hok Hg. destruct (Hg rd0) as [_ [_ [_ [_ Hdata]]]].
  unfold ceph_static. rewrite data_has_type, Hdata.
  apply andb_false_iff. right.
  apply not_true_is_false. intros H.
  apply existsb_exists in H. destruct H as [d [Hin Hlive]].
  apply filter_In in Hin. destruct Hin as [Hin Hkept].
  destruct (type_is_live_daq_types _ d Hok Hin Hlive) as [Hty [Ht Hdaq]].
  apply negb_true_iff in Hkept.
  assert (Hp : pulled_by host (daq_types (data rd0)) d = true).
  { unfold pulled_by. apply existsb_exists. exists "live". split; [assumption|].
    now apply daq_entry_matches. }
  congruence.
Qed.

(** The live data of a run of the collection is deleted in full. *)
Lemma remove_run_from_host_live e w rd0 reason :
  args_production e = true ->
  args_ask_confirm e = false ->
  hostname e <> "daq" ->
  NoDup (map number (run_coll w)) ->
  In rd0 (run_coll w) ->
  ceph_run_ok e rd0 ->
  data_has "type" "live" rd0 = true ->
  exists w' g,
    remove_run_from_host e (number rd0) true (args_force e) reason w = (Ok tt, w')
    /\ pulls (hostname e) (daq_types (data rd0)) g
    /\ run_coll w' = update_first (rd_id rd0) g (run_coll w)
    /\ clock w' = clock w
    /\ ceph_removals w' = ceph_removals w.
Proof.
  intros Hprod Hask Hnotdaq Hnd Hin [Hok [Hsafe _]] Hlive.
  assert (Hlive1 : liveCopies rd0 >= 1)
    by (rewrite data_has_type in Hlive; now apply existsb_filter_length).
  assert (Hdaq : data_has "host" "daq" rd0 = true).
  { rewrite data_has_type in Hlive. apply existsb_exists in Hlive.
    destruct Hlive as [d [Hd Hl]].
    rewrite data_has_host. apply existsb_exists. exists d. split; [assumption|].
    now destruct (type_is_live_daq_types _ d Hok Hd Hl) as [_ [_ H]]. }
  assert (Hty : typed rd0)
    by (eapply Forall_impl; [|exact Hok]; now intros d [Ht _]).
  assert (Hsafe' : args_force e = true \/ durableCopies rd0 <> 0)
    by (destruct Hsafe; [now left|right; lia]).
  destruct (live_loop e Hprod Hask Hnotdaq (number rd0) reason
              (liveCopies rd0) (durableCopies rd0) Hsafe' rd0 Hok
              (or_intror Hlive1) (length (data rd0)) 0 rd0 w eq_refl
              (same_place_refl_list _) eq_refl eq_refl)
    as [rd' [w' [g [Hloop [Hg [Hcoll [Hclock Hrem]]]]]]].
  exists w', g.
  split; [|split; [exact Hg|split; [exact Hcoll|split; [exact Hclock|exact Hrem]]]].
  unfold remove_run_from_host.
  assert (Hfind : find_one (number_on_host (number rd0) "daq") w = (Ok (Some rd0), w)).
  { unfold find_one, number_on_host. now rewrite (find_by_number _ _ _ Hnd Hin Hdaq). }
  cbn [negb]. rewrite (bind_ok _ _ _ _ _ Hfind).
  unfold bind at 1. unfold of_result. rewrite (check_rundoc_counts _ Hty).
  unfold with_rd. now rewrite Hloop.
Qed.

(** *** The collection after one run is done *)

Lemma map_update_first {B} (f : rundoc -> B) id g l :
  (forall rd, f (g rd) = f rd) -> map f (update_first id g l) = map f l.
Proof.
  intros Hf. induction l as [|rd l IH]; simpl; [reflexivity|].
  destruct (Nat.eqb (rd_id rd) id); simpl; [now rewrite Hf|now rewrite IH].
Qed.

Lemma NoDup_rd_id_eq l x y :
  NoDup (map rd_id l) -> In x l -> In y l -> rd_id x = rd_id y -> x = y.
Proof.
  induction l as [|rd l IH]; intros Hnd Hx Hy Hid; [contradiction|].
  simpl in Hnd. inversion Hnd as [|n ns Hnotin Hnd']; subst.
  destruct Hx as [-> | Hx], Hy as [-> | Hy]; trivial.
  - exfalso. apply Hnotin. rewrite Hid. now apply in_map.
  - exfalso. apply Hnotin. rewrite <- Hid. now apply in_map.
  - now apply IH.
Qed.

Lemma In_update_first id g l x :
  In x (update_first id g l) ->
  In x l \/ exists y, In y l /\ rd_id y = id /\ x = g y.
Proof.
  induction l as [|rd l IH]; simpl; [contradiction|].
  destruct (Nat.eqb (rd_id rd) id) eqn:E; simpl.
  - intros [<- | H]; [|now left; right].
    right. exists rd. apply Nat.eqb_eq in E. repeat split; trivial. now left.
  - intros [<- | H]; [now left; left|].
    destruct (IH H) as [H' | [y [Hy [Hid Hx]]]]; [now left; right|].
    right. exists y. repeat split; trivial. now right.
Qed.

Lemma filter_update_first (p : rundoc -> bool) g l rd0 :
  NoDup (map rd_id l) -> In rd0 l -> p rd0 = true -> p (g rd0) = false ->
  Datatypes.S (length (filter p (update_first (rd_id rd0) g l))) = length (filter p l).
Proof.
  induction l as [|rd l IH]; intros Hnd Hin Hp Hg; [contradiction|].
  simpl. destruct (Nat.eqb (rd_id rd) (rd_id rd0)) eqn:E.
  - apply Nat.eqb_eq in E.
    assert (rd = rd0) by (apply (NoDup_rd_id_eq (rd :: l)); simpl; auto).
    subst rd. simpl. now rewrite Hg, Hp.
  - destruct Hin as [-> | Hin]; [now rewrite Nat.eqb_refl in E|].
    simpl in Hnd. inversion Hnd; subst.
    simpl. destruct (p rd); simpl; [f_equal|]; now apply IH.
Qed.

Lemma filter_head_find {A} (p : A -> bool) l x r :
  filter p l = x :: r -> List.find p l = Some x /\ In x l /\ p x = true.
Proof.
  induction l as [|y l IH]; simpl; [discriminate|].
  destruct (p y) eqn:E.
  - intros H. inversion H; subst. repeat split; auto.
  - intros H. destruct (IH H) as [Hf [Hin Hp]]. repeat split; auto.
Qed.

Lemma find_ext_in {A} (p q : A -> bool) l :
  (forall x, In x l -> p x = q x) -> List.find p l = List.find q l.
Proof.
  induction l as [|y l IH]; intros H; simpl; [reflexivity|].
  rewrite (H y) by now left.
  destruct (q y); [reflexivity|]. apply IH. intros x Hx. apply H. now right.
Qed.

Lemma ceph_query_static t1 t2 rd : ceph_query t1 t2 rd = true -> ceph_static rd = true.
Proof.
  unfold ceph_query, ceph_static. intros H.
  repeat (apply andb_true_iff in H; destruct H as [H ?]).
  now repeat (apply andb_true_iff; split).
Qed.

Lemma ceph_matches_static e w rd :
  ceph_ready e w -> In rd (run_coll w) -> ceph_matches w rd = ceph_static rd.
Proof.
  intros [_ [_ Hready]] Hin.
  destruct (ceph_static rd) eqn:Hs.
  - destruct (Hready rd Hin Hs) as [_ [Hstart Hbs]].
    unfold ceph_static in Hs.
    repeat (apply andb_true_iff in Hs; destruct Hs as [Hs ?]).
    unfold ceph_matches, ceph_query.
    apply Z.ltb_lt in Hstart, Hbs.
    repeat (apply andb_true_iff; split); assumption.
  - apply not_true_is_false. intros H. apply ceph_query_static in H. congruence.
Qed.

(** *** One round of [clean_ceph] *)

Lemma clean_ceph_S depth e :
  clean_ceph (Datatypes.S depth) e
  = (set_state "clean_ceph" ;;
     if negb (hostname e =? eb_can_clean_ceph) then
       log_info ("for cleaning ceph, go to " ++ eb_can_clean_ceph)
     else
       started_before <- now (- remove_live_after) ;;
       processed_before <- now (- wait_after_processing) ;;
       rd <- find_one (ceph_query started_before processed_before) ;;
       match rd with
       | None => ret tt
       | Some rd =>
           let run_number := number rd in
           log_info ("remove data associated to run " ++ PyStr.of_Z run_number) ;;
           remove_run_from_host e run_number true (args_force e) "clean ceph" ;;
           log_info ("finished for " ++ PyStr.of_Z run_number ++ ", take a " ++
                     PyStr.of_Z short_nap ++ " s nap") ;;
           sleep short_nap ;;
           if args_production e then
             wait_on_delete_thread ;;
             clean_ceph depth e
           else ret tt
       end).
Proof. reflexivity. Qed.

Lemma clean_ceph_none e w depth :
  hostname e = eb_can_clean_ceph ->
  List.find (ceph_matches w) (run_coll w) = None ->
  clean_ceph (Datatypes.S depth) e w = (Ok tt, add_events w [EvSetState "clean_ceph"]).
Proof.
  intros Hhost Hfind. rewrite clean_ceph_S.
  rewrite Hhost, String.eqb_refl. cbn [negb].
  unfold bind, set_state, emit, now, find_one. cbn [fst snd fs run_coll clock stdin trace].
  unfold ceph_matches in Hfind. now rewrite Hfind.
Qed.

Lemma clean_ceph_some e w depth rd :
  hostname e = eb_can_clean_ceph ->
  args_production e = true ->
  List.find (ceph_matches w) (run_coll w) = Some rd ->
  clean_ceph (Datatypes.S depth) e w
  = match remove_run_from_host e (number rd) true (args_force e) "clean ceph"
            (add_events w [EvLog "info" ("remove data associated to run " ++
                                         PyStr.of_Z (number rd));
                           EvSetState "clean_ceph"]) with
    | (Ok _, w2) =>
        clean_ceph depth e
          (mkWorld (fs w2) (run_coll w2) (clock w2 + short_nap)%Z (stdin w2)
             (EvLog "info" ("wait_on_delete_thread::	Checked that all " ++
                            thread_prefix ++ "* finished")
              :: EvJoinThreads
              :: EvSleep short_nap
              :: EvLog "info" ("finished for " ++ PyStr.of_Z (number rd) ++ ", take a " ++
                               PyStr.of_Z short_nap ++ " s nap")
              :: trace w2))
    | (Raise x, w2) => (Raise x, w2)
    end.
Proof.
  intros Hhost Hprod Hfind. rewrite clean_ceph_S.
  unfold bind at 1. unfold set_state, emit.
  rewrite Hhost, String.eqb_refl. cbn [negb].
  unfold bind at 1. unfold now at 1.
  unfold bind at 1. unfold now at 1.
  unfold bind at 1. unfold find_one at 1. cbn [run_coll clock].
  unfold ceph_matches in Hfind. rewrite Hfind.
  unfold bind at 1. unfold log_info at 1, emit. cbn [fs run_coll clock stdin trace].
  unfold bind at 1. unfold add_events. cbn [app].
  destruct (remove_run_from_host e (number rd) true (args_force e) "clean ceph" _)
    as [[[]|x] w2]; [|reflexivity].
  rewrite Hprod.
  unfold bind, log_info, emit, sleep, wait_on_delete_thread.
  cbn [fs run_coll clock stdin trace]. reflexivity.
Qed.

Lemma removal_log s :
  is_ceph_removal (EvLog "info" ("remove data associated to run " ++ s)) = true.
Proof. simpl. now destruct s. Qed.

Lemma ceph_ready_after e w w' g rd0 types :
  ceph_ready e w -> In rd0 (run_coll w) ->
  pulls (hostname e) types g -> ceph_static (g rd0) = false ->
  run_coll w' = update_first (rd_id rd0) g (run_coll w) ->
  (clock w <= clock w')%Z ->
  ceph_ready e w'.
Proof.
  intros [Hids [Hnums Hruns]] Hin Hg Hdone Hcoll Hclock.
  unfold ceph_ready. rewrite Hcoll.
  rewrite (map_update_first rd_id) by (intros rd; apply (Hg rd)).
  rewrite (map_update_first number) by (intros rd; apply (Hg rd)).
  split; [assumption|]. split; [assumption|].
  intros rd Hrd Hstatic.
  apply In_update_first in Hrd. destruct Hrd as [Hrd | [y [Hy [Hid Hrd]]]].
  - destruct (Hruns rd Hrd Hstatic) as [Hok [Hs Hb]].
    split; [assumption|]. split; lia.
  - assert (y = rd0) by (apply (NoDup_rd_id_eq (run_coll w)); assumption).
    subst y rd. congruence.
Qed.

(** The drive: one round for each run that is selected, then a last round
    that finds none. *)
Lemma clean_ceph_drive e :
  hostname e = eb_can_clean_ceph ->
  args_production e = true ->
  args_ask_confirm e = false ->
  forall n w,
    ceph_ready e w ->
    length (filter ceph_static (run_coll w)) = n ->
    forall depth, n < depth ->
      exists w',
        clean_ceph depth e w = (Ok tt, w')
        /\ ceph_removals w' = ceph_removals w + n
        /\ filter ceph_static (run_coll w') = []
        /\ ceph_ready e w'
        /\ clock w' = (clock w + short_nap * Z.of_nat n)%Z.
Proof.
  intros Hhost Hprod Hask.
  assert (Hnotdaq : hostname e <> "daq") by (rewrite Hhost; discriminate).
  induction n as [|n IH]; intros w Hready Hlen depth Hdepth;
    (destruct depth as [|depth]; [lia|]).
  - apply length_zero_iff_nil in Hlen.
    assert (Hfind : List.find (ceph_matches w) (run_coll w) = None).
    { rewrite (find_ext_in _ ceph_static)
        by (intros x Hx; now apply (ceph_matches_static e)).
      destruct (find ceph_static (run_coll w)) as [x|] eqn:E; [|reflexivity].
      apply find_some in E. destruct E as [Hx Hs].
      assert (Hin : In x (filter ceph_static (run_coll w))) by now apply filter_In.
      rewrite Hlen in Hin. contradiction. }
    exists (add_events w [EvSetState "clean_ceph"]).
    split; [now apply clean_ceph_none|].
    split; [unfold ceph_removals; simpl; lia|].
    split; [exact Hlen|]. split; [exact Hready|].
    simpl. lia.
  - destruct (filter ceph_static (run_coll w)) as [|rd0 rest] eqn:Hfilter;
      [discriminate|].
    destruct (filter_head_find _ _ _ _ Hfilter) as [Hfind0 [Hin Hstatic]].
    assert (Hfind : List.find (ceph_matches w) (run_coll w) = Some rd0).
    { rewrite (find_ext_in _ ceph_static)
        by (intros x Hx; now apply (ceph_matches_static e)).
      exact Hfind0. }
    destruct Hready as [Hids [Hnums Hruns]].
    destruct (Hruns rd0 Hin Hstatic) as [Hok _].
    assert (Hlive : data_has "type" "live" rd0 = true).
    { unfold ceph_static in Hstatic. now apply andb_true_iff in Hstatic. }
    set (w1 := add_events w [EvLog "info" ("remove data associated to run " ++
                                           PyStr.of_Z (number rd0));
                             EvSetState "clean_ceph"]).
    destruct (remove_run_from_host_live e w1 rd0 "clean ceph" Hprod Hask Hnotdaq
                Hnums Hin Hok Hlive)
      as [w2 [g [Hrun [Hg [Hcoll [Hclock Hrem]]]]]].
    rewrite (clean_ceph_some e w depth rd0 Hhost Hprod Hfind). fold w1. rewrite Hrun.
    pose proof (pulls_no_live _ _ _ (proj1 Hok) Hg) as Hdone.
    match goal with |- context [clean_ceph depth e ?x] => set (w3 := x) end.
    assert (Hready3 : ceph_ready e w3).
    { apply (ceph_ready_after e w w3 g rd0 (daq_types (data rd0))
               (conj Hids (conj Hnums Hruns)) Hin Hg Hdone).
      - exact Hcoll.
      - unfold w3, short_nap. cbn [clock]. rewrite Hclock. unfold w1. simpl. lia. }
    assert (Hlen3 : length (filter ceph_static (run_coll w3)) = n).
    { unfold w3. cbn [run_coll]. rewrite Hcoll.
      pose proof (filter_update_first ceph_static g (run_coll w) rd0 Hids Hin Hstatic Hdone)
        as H.
      change (run_coll w1) with (run_coll w).
      rewrite Hfilter in H. simpl in H, Hlen. lia. }
    destruct (IH w3 Hready3 Hlen3 depth ltac:(lia))
      as [w' [Hrec [Hrem' [Hnone [Hready' Hclock']]]]].
    exists w'. split; [exact Hrec|].
    split; [|split; [exact Hnone|split; [exact Hready'|]]].
    + rewrite Hrem'. unfold w3, ceph_removals. cbn [trace]. simpl filter.
      unfold ceph_removals in Hrem. rewrite Hrem. unfold w1, add_events.
      cbn [trace app filter]. rewrite removal_log.
      change (is_ceph_removal (EvSetState "clean_ceph")) with false.
      cbn [length]. lia.
    + rewrite Hclock'. unfold w3. cbn [clock]. rewrite Hclock. unfold w1, add_events.
      cbn [clock]. unfold short_nap. lia.
Qed.

Lemma bind_ext {S A B} (m : ST S A) (k1 k2 : A -> ST S B) s :
  (forall a s', k1 a s' = k2 a s') -> bind m k1 s = bind m k2 s.
Proof. intros H. unfold bind. destruct (m s) as [[a|x] s']; [apply H|reflexivity]. Qed.

Lemma bind_ret_tt (m : M unit) w : bind m (fun _ => ret tt) w = m w.
Proof. unfold bind, ret. now destruct (m w) as [[[]|x] w']. Qed.


Lemma live_on_daq_ok : ceph_entry_ok live_on_daq.
Proof.
  split; [discriminate|]. split; [discriminate|]. split.
  - intros _. split; eexists; reflexivity.
  - reflexivity.
Qed.

Lemma processed_entry_ok host location :
  host <> "daq" ->
  ceph_entry_ok [("type", VStr "raw_records"); ("host", VStr host);
                 ("location", VStr location)].
Proof.
  intros Hne. split; [discriminate|]. split; [discriminate|]. split.
  - unfold host_is. simpl. intros H. apply String.eqb_eq in H. contradiction.
  - intros H. discriminate H.
Qed.

Lemma ceph_world_ready : ceph_ready eb0 ceph_world.
Proof.
  split; [|split].
  - repeat constructor; simpl; intuition discriminate.
  - repeat constructor; simpl; intuition discriminate.
  - intros rd [<- | [<- | [<- | []]]] Hstatic; try discriminate Hstatic.
    + split; [split; [|split]|split; reflexivity].
      * constructor; [apply live_on_daq_ok|].
        constructor; [apply processed_entry_ok; discriminate|constructor].
      * right. vm_compute. lia.
      * reflexivity.
    + split; [split; [|split]|split; reflexivity].
      * constructor; [apply processed_entry_ok; discriminate|].
        constructor; [apply live_on_daq_ok|constructor].
      * right. vm_compute. lia.
      * reflexivity.
Qed.



(** ** High-level cleanup *)

(** C9, amended. When the high-level cleanup is invoked it records its state
    and raises [NotImplementedError]: it selects no run and deletes nothing,
    whatever the collection holds. *)
Theorem clean_high_level_data_not_implemented (e : env) (w : world) :
  clean_high_level_data e w
  = (Raise (NotImplementedError
              "This is a drastic measure that we do not intend using at the time of writing"),
     add_events w [EvSetState "clean_high_level_data"])
  /\ footprint (snd (clean_high_level_data e w)) = footprint w.
Proof. split; reflexivity. Qed.

(** In real execution on eb1, a run that is done, transferred and very old,
    with a high-level entry on this host that is on disk: the mode raises,
    and the entry and its folder are still there. *)
Lemma clean_high_level_data_deletes_nothing :
  args_production eb1 = true
  /\ filter (high_level_query eb1 old_world) (run_coll old_world) = [old_run]
  /\ is_low_level "peaks" = false
  /\ in_strings "/data/xenonnt_processed/024399-peaks-abc" (fs old_world) = true
  /\ fst (clean_high_level_data eb1 old_world)
     = Raise (NotImplementedError
                "This is a drastic measure that we do not intend using at the time of writing")
  /\ fs (snd (clean_high_level_data eb1 old_world)) = fs old_world
  /\ run_coll (snd (clean_high_level_data eb1 old_world)) = [old_run].
Proof. vm_compute. repeat split. Qed.

(** ** Abandoned runs *)

(** Nothing below [clean_abandoned] reads [--force]. *)
Ltac drop_force := cbn [with_force hostname args_production args_ask_confirm
                        ceph_folder output_folder pre_folder non_registered_folder].

Lemma low_data_check_with_force b e : low_data_check (with_force b e) = low_data_check e.
Proof. reflexivity. Qed.

Lemma delete_data_with_force b e : delete_data (with_force b e) = delete_data e.
Proof.
  unfold delete_data. rewrite low_data_check_with_force. drop_force. reflexivity.
Qed.

Lemma threaded_delete_data_with_force b e :
  threaded_delete_data (with_force b e) = threaded_delete_data e.
Proof.
  unfold threaded_delete_data. now rewrite delete_data_with_force.
Qed.

Lemma remove_run_from_host_step_with_force b e :
  remove_run_from_host_step (with_force b e) = remove_run_from_host_step e.
Proof.
  unfold remove_run_from_host_step.
  rewrite delete_data_with_force, threaded_delete_data_with_force. drop_force.
  reflexivity.
Qed.

Lemma remove_run_from_host_loop_with_force b e n delete_live force reason hl hr rounds :
  forall i s,
    remove_run_from_host_loop (with_force b e) n delete_live force reason hl hr rounds i s
    = remove_run_from_host_loop e n delete_live force reason hl hr rounds i s.
Proof.
  induction rounds as [|rounds IH]; intros i s; simpl; [reflexivity|].
  rewrite remove_run_from_host_step_with_force.
  apply bind_ext. intros _ s'. apply IH.
Qed.

Lemma remove_run_from_host_with_force b e n delete_live force reason w :
  remove_run_from_host (with_force b e) n delete_live force reason w
  = remove_run_from_host e n delete_live force reason w.
Proof.
  unfold remove_run_from_host. drop_force.
  apply bind_ext. intros [rd|] w1; [|reflexivity].
  apply bind_ext. intros [hl hr] w2.
  unfold with_rd. now rewrite remove_run_from_host_loop_with_force.
Qed.

Lemma clean_abandoned_runs_with_force b e delete_live i_max rds :
  forall i w,
    clean_abandoned_runs (with_force b e) delete_live i_max rds i w
    = clean_abandoned_runs e delete_live i_max rds i w.
Proof.
  induction rds as [|rd rds IH]; intros i w; simpl; [reflexivity|].
  destruct (i_max <=? i)%nat; [reflexivity|].
  apply bind_ext. intros _ w1.
  unfold bind. rewrite remove_run_from_host_with_force.
  destruct (remove_run_from_host e (number rd) delete_live true "run abandonned" w1)
    as [[[]|x] w2]; [apply IH|reflexivity].
Qed.

Lemma clean_abandoned_with_force b e delete_live depth :
  forall w,
    clean_abandoned depth (with_force b e) delete_live w
    = clean_abandoned depth e delete_live w.
Proof.
  induction depth as [|depth IH]; intros w; simpl; [reflexivity|].
  drop_force.
  apply bind_ext. intros _ w1.
  apply bind_ext. intros [rds|] w2; [|reflexivity].
  cbv zeta. unfold bind. rewrite clean_abandoned_runs_with_force.
  destruct (clean_abandoned_runs e delete_live (if args_ask_confirm e then 1 else 5) rds 0 w2)
    as [[i|x] w3]; [|reflexivity].
  destruct (Nat.eqb i 0); [reflexivity|].
  destruct (args_production e); [|reflexivity].
  destruct delete_live.
  - destruct (wait_on_delete_thread w3) as [[[]|x] w4]; [apply IH|reflexivity].
  - apply IH.
Qed.

Lemma forced_step_ignores_counts e n delete_live reason hl hr hl' hr' i :
  remove_run_from_host_step e n delete_live true reason hl hr i
  = remove_run_from_host_step e n delete_live true reason hl' hr' i.
Proof. reflexivity. Qed.

Lemma forced_loop_ignores_counts e n delete_live reason hl hr hl' hr' rounds :
  forall i s,
    remove_run_from_host_loop e n delete_live true reason hl hr rounds i s
    = remove_run_from_host_loop e n delete_live true reason hl' hr' rounds i s.
Proof.
  induction rounds as [|rounds IH]; intros i s; simpl; [reflexivity|].
  rewrite (forced_step_ignores_counts e n delete_live reason hl hr hl' hr' i).
  apply bind_ext. intros _ s'. apply IH.
Qed.

(** ** The main loop *)

Lemma main_loop_raise sequence e rounds w x w1 :
  sequence w = (Raise x, w1) ->
  main_loop sequence e (Datatypes.S rounds) w
  = if stops_the_loop x then (Raise x, after_drain w1)
    else main_loop sequence e rounds (after_backoff x w1).
Proof.
  intros H. simpl. rewrite H. now destruct (stops_the_loop x).
Qed.

(** ** Run identifiers *)

Lemma string_of_padded k d :
  NilEmpty.string_of_uint (Nat.iter k Decimal.D0 d)
  = PyStr.zeros k ++ NilEmpty.string_of_uint d.
Proof.
  induction k as [|k IH]; simpl; [reflexivity|]. now rewrite IH.
Qed.

Lemma padded_nonnil k d : d <> Decimal.Nil -> Nat.iter k Decimal.D0 d <> Decimal.Nil.
Proof. destruct k; simpl; [trivial|discriminate]. Qed.

Lemma of_uint_padded k d : Z.of_uint (Nat.iter k Decimal.D0 d) = Z.of_uint d.
Proof.
  induction k as [|k IH]; simpl; [reflexivity|]. exact IH.
Qed.

Lemma nilzero_string_of_uint d :
  d <> Decimal.Nil -> NilZero.string_of_uint d = NilEmpty.string_of_uint d.
Proof. destruct d; [congruence|reflexivity..]. Qed.

Lemma to_int_nonnil n :
  match Z.to_int n with
  | Decimal.Pos d | Decimal.Neg d => d <> Decimal.Nil
  end.
Proof.
  destruct n; simpl; [discriminate| |]; apply DecimalPos.Unsigned.to_uint_nonnil.
Qed.

(** [int("%06d" % n) == n]. *)
Lemma to_Z_format06 n : PyStr.to_Z (PyStr.format06 n) = Some n.
Proof.
  unfold PyStr.to_Z, PyStr.format06, PyStr.zfill.
  pose proof (to_int_nonnil n) as Hnn. pose proof (DecimalZ.of_to n) as Hn.
  destruct (Z.to_int n) as [d|d].
  - rewrite <- string_of_padded.
    set (p := Nat.iter (6 - String.length (NilEmpty.string_of_uint d)) Decimal.D0 d).
    assert (Hp : p <> Decimal.Nil) by now apply padded_nonnil.
    rewrite <- (nilzero_string_of_uint p Hp).
    change (NilZero.string_of_uint p) with (NilZero.string_of_int (Decimal.Pos p)).
    rewrite NilZero.isi by congruence.
    simpl. unfold p. rewrite of_uint_padded. now rewrite <- Hn.
  - rewrite <- string_of_padded.
    set (p := Nat.iter (5 - String.length (NilEmpty.string_of_uint d)) Decimal.D0 d).
    assert (Hp : p <> Decimal.Nil) by now apply padded_nonnil.
    rewrite <- (nilzero_string_of_uint p Hp).
    change (String "-" (NilZero.string_of_uint p))
      with (NilZero.string_of_int (Decimal.Neg p)).
    rewrite NilZero.isi by congruence.
    simpl. unfold p. rewrite of_uint_padded. now rewrite <- Hn.
Qed.

(** ** Unregistered data *)

Lemma read_answer_raises l x rest : read_answer l = (Raise x, rest) -> x = EOFError.
Proof.
  revert x rest. induction l as [|a l IH]; intros x rest H; simpl in H.
  - now inversion H.
  - match type of H with (if ?c then _ else _) = _ => destruct c end; [discriminate|].
    destruct (read_answer l) as [[b|y] r] eqn:E; [discriminate|].
    inversion H; subst. now apply (IH x rest).
Qed.

Lemma confirm_raises e q w x w' : confirm e q w = (Raise x, w') -> x = EOFError.
Proof.
  unfold confirm. destruct (args_ask_confirm e); simpl; [|discriminate].
  destruct (read_answer (stdin w)) as [r rest] eqn:E. intros H. inversion H; subst.
  now apply (read_answer_raises _ _ _ E).
Qed.

(** C8. Scenario C: a folder of run 123 and no run document with that
    number. [remove_if_unregistered] reports the run with priority error and
    goes on to the deep check; there the fresh lookup finds nothing,
    [check_rundoc_for_live_and_raw] is called on [None] and raises
    [TypeError]: the deletion is not found safe, no [FileNotFoundError] is
    raised, and the folder stays where it is. *)
Lemma remove_if_unregistered_without_any_record :
  List.find (fun rd => Z.eqb (number rd) 123) (run_coll nowhere_world) = None
  /\ remove_if_unregistered eb1 123 false "/data/pre_processed" nowhere_world
     = (Raise (TypeError "'NoneType' object is not subscriptable"),
        add_events nowhere_world
          [EvLog "info" "Cleaning /data/pre_processed000123-peaks-abc";
           EvReport "warning" (Some "000123")
                    "No data for 000123 found! Double checking /data/pre_processed!";
           EvLog "warning" "No data for 000123 found! Double checking /data/pre_processed!";
           EvReport "error" (Some "000123")
                    "remove_if_unregistered::	run 123 is NOT registered in the runDB but is stored on eb1";
           EvLog "error"
                 "remove_if_unregistered::	run 123 is NOT registered in the runDB but is stored on eb1"]).
Proof. split; vm_compute; reflexivity. Qed.

(** ** Running a program step by step *)

Lemma bind_of_result {S A B} (r : result A) (k : A -> ST S B) s :
  bind (of_result r) k s = match r with Ok a => k a s | Raise x => (Raise x, s) end.
Proof. now destruct r. Qed.

Lemma bind_of_option {S A B} (o : option A) x (k : A -> ST S B) s :
  bind (of_option o x) k s = match o with Some a => k a s | None => (Raise x, s) end.
Proof. now destruct o. Qed.

Lemma bind_raised {S A B} (m : ST S A) (k : A -> ST S B) s x s' :
  m s = (Raise x, s') -> bind m k s = (Raise x, s').
Proof. intros H. unfold bind. now rewrite H. Qed.

(** ** Delete threads *)

(** C7. One abandoned run with two entries on "daq", on the cleaning host
    in real execution with [--ask_confirm], where [i_max] is 1: the counter
    counts the run, and [remove_run_from_host] starts a thread for each of
    the two entries before [clean_abandoned] waits for the threads (the
    trace has its newest event first). *)
Lemma clean_abandoned_two_threads_for_one_run :
  args_ask_confirm eb0_ask = true
  /\ capacity eb0_ask = 1
  /\ length (run_coll abandoned_two_world) = 1
  /\ in_flight (trace abandoned_two_world) = 0
  /\ fst (clean_abandoned 3 eb0_ask true abandoned_two_world) = Ok tt
  /\ filter is_thread_event (trace (snd (clean_abandoned 3 eb0_ask true abandoned_two_world)))
     = [EvJoinThreads; EvThreadStart "ajax_delete024399"; EvThreadStart "ajax_delete024399"]
  /\ peak_in_flight (trace (snd (clean_abandoned 3 eb0_ask true abandoned_two_world))) = 2.
Proof. vm_compute. repeat split. Qed.

(** [--number] with [--delete_live] on a run whose second entry on "daq" has
    no location: the thread for the first entry is started, the KeyError
    leaves the script, and nothing waits for the thread. *)
Lemma main_number_leaves_on_key_error :
  main (main_ajax_number eb0 24399 true) unlocated_world
  = (Raise (KeyError "location"),
     snd (main (main_ajax_number eb0 24399 true) unlocated_world))
  /\ in_flight (trace (snd (main (main_ajax_number eb0 24399 true) unlocated_world))) = 1.
Proof. vm_compute. split; reflexivity. Qed.

(** ** What a piece of code does to the world *)

#[local] Instance passive_lenient : Lenient passive.
Proof. intros ev H. exact H. Qed.

#[local] Instance allowed_lenient rm up : Lenient (allowed rm up).
Proof. intros [] H; simpl in *; try exact I; discriminate H. Qed.

#[local] Instance no_thread_lenient : Lenient no_thread.
Proof. intros [] H; simpl in *; try exact I; discriminate H. Qed.

Lemma within_refl kf kc P w : within kf kc P w w.
Proof. split; [reflexivity|split; [reflexivity|]]. exists []. split; [reflexivity|constructor]. Qed.

Lemma within_trans kf kc P a b c :
  within kf kc P a b -> within kf kc P b c -> within kf kc P a c.
Proof.
  intros (F1 & C1 & n1 & T1 & P1) (F2 & C2 & n2 & T2 & P2).
  split; [intros H; rewrite (F2 H); exact (F1 H)|].
  split; [intros H; rewrite (C2 H); exact (C1 H)|].
  exists (n2 ++ n1)%list. split.
  - rewrite T2, T1. apply app_assoc.
  - apply Forall_app. now split.
Qed.

Lemma within_weaken kf kc kf' kc' (P Q : event -> Prop) w w' :
  within kf kc P w w' ->
  (kf' = true -> kf = true) -> (kc' = true -> kc = true) ->
  (forall ev, P ev -> Q ev) ->
  within kf' kc' Q w w'.
Proof.
  intros (F & C & n & T & HP) Hf Hc HPQ.
  split; [auto|split; [auto|]]. exists n. split; [exact T|].
  apply (Forall_impl Q HPQ HP).
Qed.

(** One event, which the file system and the collection do not feel. *)
Lemma within_event kf kc (P : event -> Prop) ev w w' :
  P ev -> fs w' = fs w -> run_coll w' = run_coll w -> trace w' = ev :: trace w ->
  within kf kc P w w'.
Proof.
  intros HP Hf Hc Ht. split; [auto|split; [auto|]].
  exists [ev]. split; [exact Ht|now constructor].
Qed.

Lemma within_same kf kc P w w' :
  fs w' = fs w -> run_coll w' = run_coll w -> trace w' = trace w -> within kf kc P w w'.
Proof.
  intros Hf Hc Ht. split; [auto|split; [auto|]].
  exists []. split; [exact Ht|constructor].
Qed.

Section Within.

Context (kf kc : bool) (P : event -> Prop) {HP : Lenient P}.

#[local] Abbreviation R := (within kf kc P).

Section AnyState.

Context {S : Type} (proj : S -> world).

Lemma keeps_ret {A} (a : A) : keeps proj R (ret a).
Proof. intros s. apply within_refl. Qed.

Lemma keeps_raise {A} (x : exn) : keeps proj R (@raise S A x).
Proof. intros s. apply within_refl. Qed.

Lemma keeps_of_result {A} (r : result A) : keeps proj R (of_result r).
Proof. intros s. apply within_refl. Qed.

Lemma keeps_of_option {A} (o : option A) (x : exn) : keeps proj R (of_option o x).
Proof. destruct o; intros s; apply within_refl. Qed.

Lemma keeps_getitem_str k d : keeps proj R (getitem_str k d).
Proof.
  unfold getitem_str. destruct (Dict.get k d) as [[]|]; intros ?; apply within_refl.
Qed.

Lemma keeps_bind {A B} (m : ST S A) (f : A -> ST S B) :
  keeps proj R m -> (forall a, keeps proj R (f a)) -> keeps proj R (bind m f).
Proof.
  intros Hm Hf s. unfold bind. specialize (Hm s).
  destruct (m s) as [[a|x] s']; simpl in *.
  - exact (within_trans _ _ _ _ _ _ Hm (Hf a s')).
  - exact Hm.
Qed.

End AnyState.

Lemma keeps_emit ev : P ev -> keeps world_of_world R (emit ev).
Proof. intros H w. now apply (within_event kf kc P ev). Qed.

Lemma keeps_log_info msg : keeps world_of_world R (log_info msg).
Proof. apply keeps_emit. now apply lenient. Qed.

Lemma keeps_log_warn msg : keeps world_of_world R (log_warn msg).
Proof. apply keeps_emit. now apply lenient. Qed.

Lemma keeps_log_error msg : keeps world_of_world R (log_error msg).
Proof. apply keeps_emit. now apply lenient. Qed.

Lemma keeps_set_state st : keeps world_of_world R (set_state st).
Proof. apply keeps_emit. now apply lenient. Qed.

Lemma keeps_log_warning message priority run_id :
  keeps world_of_world R (log_warning message priority run_id).
Proof.
  unfold log_warning. apply keeps_bind; [|intros ?]; apply keeps_emit; now apply lenient.
Qed.

Lemma keeps_now plus : keeps world_of_world R (now plus).
Proof. intros w. now apply within_same. Qed.

Lemma keeps_sleep n : keeps world_of_world R (sleep n).
Proof. intros w. apply (within_event kf kc P (EvSleep n)); [now apply lenient|reflexivity..]. Qed.

Lemma keeps_path_exists p : keeps world_of_world R (path_exists p).
Proof. intros w. now apply within_same. Qed.

Lemma keeps_listdir base : keeps world_of_world R (listdir base).
Proof.
  intros w. unfold listdir. destruct (in_strings base (fs w)); now apply within_same.
Qed.

Lemma keeps_find_one q : keeps world_of_world R (find_one q).
Proof. intros w. now apply within_same. Qed.

Lemma keeps_find_all q : keeps world_of_world R (find_all q).
Proof. intros w. now apply within_same. Qed.

Lemma keeps_confirm e question : keeps world_of_world R (confirm e question).
Proof.
  intros w. unfold confirm. destruct (args_ask_confirm e); simpl.
  - destruct (read_answer (stdin w)). now apply within_same.
  - now apply within_same.
Qed.

Lemma keeps_wait_on_delete_thread :
  P EvJoinThreads -> keeps world_of_world R wait_on_delete_thread.
Proof.
  intros H. unfold wait_on_delete_thread.
  apply keeps_bind; [now apply keeps_emit|intros ?; apply keeps_log_info].
Qed.

Lemma keeps_rmtree path :
  kf = false -> P (EvRmtree path) -> keeps world_of_world R (rmtree path).
Proof.
  intros Hkf H w. unfold rmtree. destruct (in_strings path (fs w)).
  - split; [rewrite Hkf; discriminate|split; [reflexivity|]].
    exists [EvRmtree path]. split; [reflexivity|now constructor].
  - apply within_refl.
Qed.

Lemma keeps_move src dst :
  kf = false -> P (EvMove src dst) -> keeps world_of_world R (move src dst).
Proof.
  intros Hkf H w. unfold move. destruct (negb (in_strings src (fs w))); [apply within_refl|].
  destruct (in_strings dst (fs w) && _); [apply within_refl|].
  split; [rewrite Hkf; discriminate|split; [reflexivity|]].
  exists [EvMove src dst]. split; [reflexivity|now constructor].
Qed.

Lemma keeps_update_one e id added data_type :
  kc = false -> P (EvUpdateOne id added data_type) ->
  keeps world_of_world R (update_one e id added data_type).
Proof.
  intros Hkc H w. split; [reflexivity|split; [rewrite Hkc; discriminate|]].
  exists [EvUpdateOne id added data_type]. split; [reflexivity|now constructor].
Qed.

Lemma keeps__rmtree e path :
  (args_production e = true -> kf = false /\ P (EvRmtree path)) ->
  keeps world_of_world R (_rmtree e path).
Proof.
  intros H. unfold _rmtree. destruct (args_production e).
  - destruct (H eq_refl) as [Hkf Hrm].
    apply keeps_bind; [apply keeps_confirm|intros [|]];
      [now apply keeps_rmtree|apply keeps_ret].
  - apply keeps_bind; [apply keeps_log_info|intros ?].
    apply keeps_bind; [apply keeps_path_exists|intros [|]];
      [apply keeps_ret|apply keeps_raise].
Qed.

Lemma keeps_lift {A} (m : M A) :
  keeps world_of_world R m -> keeps world_of_rd R (lift m).
Proof.
  intros H [rd w]. unfold lift. simpl. specialize (H w). now destruct (m w).
Qed.

Lemma keeps_get_rd : keeps world_of_rd R get_rd.
Proof. intros s. apply within_refl. Qed.

Lemma keeps_put_rd rd : keeps world_of_rd R (put_rd rd).
Proof. intros s. apply within_refl. Qed.

Lemma keeps_with_rd {A} rd (m : RD A) :
  keeps world_of_rd R m -> keeps world_of_world R (with_rd rd m).
Proof.
  intros H w. unfold with_rd. specialize (H (rd, w)).
  now destruct (m (rd, w)) as [r [rd' w']].
Qed.

Lemma keeps_low_data_check e data_type test ignore :
  keeps world_of_rd R (low_data_check e data_type test ignore).
Proof.
  unfold low_data_check. destruct (negb ignore); [|apply keeps_ret].
  apply keeps_bind; [apply keeps_get_rd|intros rd].
  apply keeps_bind; [apply keeps_of_result|intros [n_live n_rr]].
  destruct (negb (enough_copies data_type n_live n_rr)); [|apply keeps_ret].
  apply keeps_bind; [apply keeps_lift, keeps_log_warning|intros ?].
  destruct (negb test); [apply keeps_raise|apply keeps_ret].
Qed.

End Within.

Create HintDb within.
#[local] Hint Resolve keeps_ret keeps_raise keeps_of_result keeps_of_option keeps_getitem_str
  keeps_log_info keeps_log_warn keeps_log_error keeps_set_state keeps_log_warning
  keeps_now keeps_sleep keeps_path_exists keeps_listdir keeps_find_one keeps_find_all
  keeps_confirm keeps_lift keeps_get_rd keeps_put_rd keeps_with_rd keeps_low_data_check
  : within.

(** One step of a proof that a program keeps a relation: follow its shape. *)
Ltac keeps_step :=
  match goal with
  | |- keeps _ _ (bind _ _) => apply keeps_bind; [|intros]
  | |- context [let '(_, _) := ?p in _] => destruct p
  | |- context [if ?b then _ else _] => destruct b eqn:?
  | |- context [match ?x with Some _ => _ | None => _ end] => destruct x eqn:?
  | |- _ => solve [eauto with within typeclass_instances]
  end.

Ltac keeps_auto := repeat keeps_step.

(** ** Delete threads are started on the cleaning host only *)

Section NoThread.

#[local] Abbreviation quiet_threads m := (keeps world_of_world (within false false no_thread) m).
#[local] Abbreviation quiet_threads_rd m := (keeps world_of_rd (within false false no_thread) m).

Ltac acts_ok :=
  first
    [ apply keeps_rmtree; [reflexivity|exact I]
    | apply keeps_move; [reflexivity|exact I]
    | apply keeps_update_one; [reflexivity|exact I]
    | apply keeps_wait_on_delete_thread; [exact _|exact I]
    | apply keeps__rmtree; [exact _|intros _; split; [reflexivity|exact I]] ].

Ltac threads_auto := repeat first [keeps_step | apply keeps_lift; acts_ok | acts_ok].

Lemma delete_data_no_thread e path data_type test ignore reason :
  quiet_threads_rd (delete_data e path data_type test ignore reason).
Proof. unfold delete_data. threads_auto. Qed.

Variable e : env.

Lemma remove_run_from_host_step_no_thread number force reason n_live n_rr i :
  quiet_threads_rd (remove_run_from_host_step e number false force reason n_live n_rr i).
Proof.
  unfold remove_run_from_host_step. cbn [negb].
  repeat first [apply delete_data_no_thread | keeps_step].
Qed.

Lemma remove_run_from_host_loop_no_thread number force reason n_live n_rr rounds :
  forall i,
    quiet_threads_rd (remove_run_from_host_loop e number false force reason n_live n_rr rounds i).
Proof.
  induction rounds as [|rounds IH]; intros i; cbn [remove_run_from_host_loop]; [keeps_auto|].
  apply keeps_bind; [apply remove_run_from_host_step_no_thread|intros ?; apply IH].
Qed.

Lemma remove_run_from_host_no_thread number force reason :
  quiet_threads (remove_run_from_host e number false force reason).
Proof.
  unfold remove_run_from_host.
  apply keeps_bind; [keeps_auto|intros [rd|]]; [|keeps_auto].
  apply keeps_bind; [keeps_auto|intros [n_live n_rr]].
  apply keeps_with_rd, remove_run_from_host_loop_no_thread.
Qed.

Lemma clean_abandoned_runs_no_thread i_max rds :
  forall i, quiet_threads (clean_abandoned_runs e false i_max rds i).
Proof.
  induction rds as [|rd rds IH]; intros i; cbn [clean_abandoned_runs]; [keeps_auto|].
  repeat first [apply remove_run_from_host_no_thread | apply IH | keeps_step].
Qed.

Lemma clean_abandoned_no_thread depth : quiet_threads (clean_abandoned depth e false).
Proof.
  induction depth as [|depth IH]; cbn [clean_abandoned negb]; [keeps_auto|].
  repeat first [apply clean_abandoned_runs_no_thread | apply IH | keeps_step].
Qed.

Lemma clean_non_latest_ddocs_no_thread rounds :
  forall i, quiet_threads_rd (clean_non_latest_ddocs e rounds i).
Proof.
  induction rounds as [|rounds IH]; intros i; cbn [clean_non_latest_ddocs]; [keeps_auto|].
  repeat first [apply delete_data_no_thread | apply IH | keeps_step].
Qed.

Lemma clean_non_latest_runs_no_thread rds : quiet_threads (clean_non_latest_runs e rds).
Proof.
  induction rds as [|rd rds IH]; cbn [clean_non_latest_runs]; [keeps_auto|].
  repeat first [apply keeps_with_rd, clean_non_latest_ddocs_no_thread | apply IH | keeps_step].
Qed.

Lemma clean_non_latest_no_thread : quiet_threads (clean_non_latest e).
Proof.
  unfold clean_non_latest. repeat first [apply clean_non_latest_runs_no_thread | keeps_step].
Qed.

Lemma clean_high_level_data_no_thread : quiet_threads (clean_high_level_data e).
Proof. intros w. apply (within_event _ _ _ (EvSetState "clean_high_level_data")); reflexivity || exact I. Qed.

Lemma remove_unregistered_folders_no_thread base_folder run_id folders :
  forall deleted_data,
    quiet_threads (remove_unregistered_folders e base_folder run_id folders deleted_data).
Proof.
  induction folders as [|folder rest IH]; intros deleted_data;
    cbn [remove_unregistered_folders]; [keeps_auto|].
  repeat first [apply IH | keeps_step | acts_ok].
Qed.

Lemma _remove_unregistered_run_no_thread base_folder run_id checked_db :
  quiet_threads (_remove_unregistered_run e base_folder run_id checked_db).
Proof.
  unfold _remove_unregistered_run.
  repeat first [apply remove_unregistered_folders_no_thread | keeps_step].
Qed.

Lemma remove_if_unregistered_no_thread number delete_live clean_from :
  quiet_threads (remove_if_unregistered e number delete_live clean_from).
Proof.
  unfold remove_if_unregistered.
  repeat first [apply _remove_unregistered_run_no_thread | keeps_step].
Qed.

Lemma clean_unregistered_runs_no_thread delete_live clean_from run_ids :
  quiet_threads (clean_unregistered_runs e delete_live clean_from run_ids).
Proof.
  induction run_ids as [|run_id rest IH]; cbn [clean_unregistered_runs]; [keeps_auto|].
  repeat first [apply remove_if_unregistered_no_thread | apply IH | keeps_step].
Qed.

Lemma clean_unregistered_no_thread delete_live clean_from :
  quiet_threads (clean_unregistered e delete_live clean_from).
Proof.
  unfold clean_unregistered.
  repeat first [apply clean_unregistered_runs_no_thread | keeps_step].
Qed.

Lemma clean_old_hash_files_no_thread st files : quiet_threads (clean_old_hash_files st e files).
Proof.
  induction files as [|f files IH]; cbn [clean_old_hash_files]; [keeps_auto|].
  destruct (PyLib.split "-" f) as [|run_id [|data_type [|lineage_hash [|? ?]]]];
    try solve [keeps_auto].
  apply keeps_bind; [|intros ?; apply IH].
  repeat first [apply keeps_with_rd, delete_data_no_thread | keeps_step].
Qed.

Lemma clean_old_hash_no_thread st : quiet_threads (clean_old_hash st e).
Proof.
  unfold clean_old_hash. repeat first [apply clean_old_hash_files_no_thread | keeps_step].
Qed.

Lemma clean_database_ddocs_no_thread delete_live rounds :
  forall i, quiet_threads_rd (clean_database_ddocs e delete_live rounds i).
Proof.
  induction rounds as [|rounds IH]; intros i; cbn [clean_database_ddocs]; [keeps_auto|].
  repeat first [apply delete_data_no_thread | apply IH | keeps_step].
Qed.

Lemma clean_database_runs_no_thread delete_live rds :
  quiet_threads (clean_database_runs e delete_live rds).
Proof.
  induction rds as [|rd rds IH]; cbn [clean_database_runs]; [keeps_auto|].
  repeat first [apply keeps_with_rd, clean_database_ddocs_no_thread | apply IH | keeps_step].
Qed.

Lemma clean_database_no_thread delete_live : quiet_threads (clean_database e delete_live).
Proof.
  unfold clean_database. repeat first [apply clean_database_runs_no_thread | keeps_step].
Qed.

Hypothesis Hhost : hostname e <> eb_can_clean_ceph.

Lemma not_the_cleaning_host : (hostname e =? eb_can_clean_ceph) = false.
Proof. now apply String.eqb_neq. Qed.

Lemma clean_ceph_no_thread depth : quiet_threads (clean_ceph depth e).
Proof.
  destruct depth as [|depth]; [cbn [clean_ceph]; keeps_auto|].
  rewrite clean_ceph_S, not_the_cleaning_host. cbn [negb]. keeps_auto.
Qed.

Lemma cleaning_sequence_no_thread depth : quiet_threads (cleaning_sequence depth e).
Proof.
  unfold cleaning_sequence. rewrite not_the_cleaning_host.
  repeat first [apply clean_abandoned_no_thread | apply clean_non_latest_no_thread | keeps_step].
Qed.

Lemma main_loop_no_thread sequence rounds :
  quiet_threads sequence -> quiet_threads (main_loop sequence e rounds).
Proof.
  intros Hseq. induction rounds as [|rounds IH]; cbn [main_loop]; [keeps_auto|].
  intros w. specialize (Hseq w). unfold world_of_world in *.
  destruct (sequence w) as [[[]|x] w1]; cbn [snd] in Hseq.
  - destruct (negb (args_production e)); [exact Hseq|].
    apply (within_trans _ _ _ _ _ _ Hseq).
    match goal with |- within _ _ _ ?s (snd (?m ?s)) => apply ((fun H : quiet_threads m => H s)) end.
    repeat first [apply IH | keeps_step].
  - apply (within_trans _ _ _ _ _ _ Hseq).
    destruct (stops_the_loop x);
      match goal with
      | |- within _ _ _ ?s (snd (?m ?s)) => apply ((fun H : quiet_threads m => H s))
      end;
      repeat first [apply IH | keeps_step | acts_ok].
Qed.

Lemma run_mode_no_thread st depth mode :
  quiet_threads (run_mode st depth e mode None).
Proof.
  unfold run_mode. cbv zeta.
  repeat first [apply clean_ceph_no_thread | apply clean_high_level_data_no_thread
               | apply clean_non_latest_no_thread | apply clean_unregistered_no_thread
               | apply clean_abandoned_no_thread | apply clean_old_hash_no_thread
               | apply clean_database_no_thread | keeps_step].
Qed.

End NoThread.

(** ** What [delete_data] does *)

Section Follows.

Context {S : Type} (R : S -> S -> Prop) {HR : Stepwise R}.

Lemma follows_ret {A} (a : A) : follows R (ret a).
Proof. intros s. apply stepwise_refl. Qed.

Lemma follows_raise {A} (x : exn) : follows R (@raise S A x).
Proof. intros s. apply stepwise_refl. Qed.

Lemma follows_of_result {A} (r : result A) : follows R (of_result r).
Proof. intros s. apply stepwise_refl. Qed.

Lemma follows_of_option {A} (o : option A) (x : exn) : follows R (of_option o x).
Proof. destruct o; intros s; apply stepwise_refl. Qed.

Lemma follows_getitem_str k d : follows R (getitem_str k d).
Proof.
  unfold getitem_str. destruct (Dict.get k d) as [[]|]; intros ?; apply stepwise_refl.
Qed.

Lemma follows_bind {A B} (m : ST S A) (f : A -> ST S B) :
  follows R m -> (forall a, follows R (f a)) -> follows R (bind m f).
Proof.
  intros Hm Hf s. unfold bind. specialize (Hm s).
  destruct (m s) as [[a|x] s']; simpl in *.
  - exact (stepwise_trans _ _ _ Hm (Hf a s')).
  - exact Hm.
Qed.

(** The same when what comes next is only known to follow after [m]. *)
Lemma follows_bind_at {A B} (m : ST S A) (f : A -> ST S B) s :
  R s (snd (m s)) ->
  (forall a s', m s = (Ok a, s') -> R s' (snd (f a s'))) ->
  R s (snd (bind m f s)).
Proof.
  intros Hm Hf. unfold bind. destruct (m s) as [[a|x] s'] eqn:E; simpl in *.
  - exact (stepwise_trans _ _ _ Hm (Hf a s' eq_refl)).
  - exact Hm.
Qed.

End Follows.

Lemma faded_refl d : faded d d.
Proof. split; [apply same_place_refl|now left]. Qed.

Lemma faded_trans a b c : faded a b -> faded b c -> faded a c.
Proof.
  intros [[Ht1 Hh1] Hl1] [[Ht2 Hh2] Hl2]. split; [split; congruence|].
  destruct Hl2 as [Hl2|Hl2]; [|now right].
  destruct Hl1 as [Hl1|Hl1]; [left|right]; congruence.
Qed.

Lemma fades_refl rd : fades rd rd.
Proof.
  split; [reflexivity|split; [reflexivity|]].
  induction (data rd); constructor; [apply faded_refl|assumption].
Qed.

Lemma Forall2_faded_trans l1 l2 l3 :
  Forall2 faded l1 l2 -> Forall2 faded l2 l3 -> Forall2 faded l1 l3.
Proof.
  intros H. revert l3. induction H as [|a b l1 l2 Hab _ IH]; intros l3 H3.
  - inversion H3. constructor.
  - inversion H3 as [|b' c l2' l3' Hbc Hrest]; subst. constructor.
    + exact (faded_trans _ _ _ Hab Hbc).
    + now apply IH.
Qed.

Lemma fades_trans a b c : fades a b -> fades b c -> fades a c.
Proof.
  intros (I1 & N1 & D1) (I2 & N2 & D2).
  split; [congruence|split; [congruence|]].
  exact (Forall2_faded_trans _ _ _ D1 D2).
Qed.

Lemma deletion_record_no_location host reason t d :
  Dict.get "location" (deletion_record host reason t d) = None.
Proof.
  unfold deletion_record, Dict.update. simpl.
  rewrite !get_set_other by discriminate.
  induction d as [|[k v] d IH]; simpl; [reflexivity|].
  destruct (k =? "location") eqn:E; simpl.
  - exact IH.
  - destruct (negb ((k =? "meta") || ((k =? "protocol") || false))); simpl;
      [rewrite E|]; exact IH.
Qed.

Lemma faded_deletion_record host reason t d : faded d (deletion_record host reason t d).
Proof.
  split; [apply same_place_deletion_record|right; apply deletion_record_no_location].
Qed.

Lemma replace_nth_faded i x old l :
  nth_error l i = Some old -> faded old x -> Forall2 faded l (replace_nth i x l).
Proof.
  revert i. induction l as [|y l IH]; intros [|i] Hnth Hx; simpl in *; try discriminate.
  - inversion Hnth; subst. constructor; [assumption|].
    clear. induction l; constructor; [apply faded_refl|assumption].
  - constructor; [apply faded_refl|]. now apply IH.
Qed.

#[local] Instance acts_on_stepwise kf P id0 : Stepwise (acts_on kf P id0).
Proof.
  split.
  - intros s _. split; [apply within_refl|apply fades_refl].
  - intros a b c Hab Hbc Hid. destruct (Hab Hid) as [W1 F1].
    assert (Hb : rd_id (fst b) = id0) by (destruct F1 as [H _]; congruence).
    destruct (Hbc Hb) as [W2 F2].
    split; [exact (within_trans _ _ _ _ _ _ W1 W2)|exact (fades_trans _ _ _ F1 F2)].
Qed.

Lemma follows_lift kf P id0 {A} (m : M A) :
  keeps world_of_world (within kf false P) m -> follows (acts_on kf P id0) (lift m).
Proof.
  intros H [rd w] _. unfold lift. simpl. specialize (H w). unfold world_of_world in H.
  destruct (m w) as [r w']. split; [exact H|apply fades_refl].
Qed.

Lemma bind_path_exists {A} p (k : bool -> RD A) rd w :
  bind (lift (path_exists p)) k (rd, w) = k (in_strings p (fs w)) (rd, w).
Proof. reflexivity. Qed.

Lemma low_data_check_idle e data_type test ignore rd w :
  exists r w1,
    low_data_check e data_type test ignore (rd, w) = (r, (rd, w1)) /\ idle w w1.
Proof.
  unfold low_data_check. destruct (negb ignore);
    [|do 2 eexists; split; [reflexivity|apply within_refl]].
  unfold bind, get_rd, of_result, lift, raise, ret. cbn [fst snd].
  destruct (check_rundoc_for_live_and_raw (Some rd)) as [[n_live n_rr]|x];
    [|do 2 eexists; split; [reflexivity|apply within_refl]].
  destruct (negb (enough_copies data_type n_live n_rr));
    [|do 2 eexists; split; [reflexivity|apply within_refl]].
  rewrite log_warning_run.
  destruct (negb test); do 2 eexists; (split; [reflexivity|]);
    apply (keeps_log_warning true true passive _ _ _ w).
Qed.

Lemma idle_within kf kc P {HP : Lenient P} w w' : idle w w' -> within kf kc P w w'.
Proof.
  intros H. apply (within_weaken true true kf kc passive P w w' H); auto.
Qed.

(** Read a relation at one state as that of the program. *)
Ltac as_follows :=
  match goal with
  | |- ?R ?s (snd (?m ?s)) => apply ((fun H : follows R m => H s))
  end.

Section DeleteData.

Context (P : event -> Prop) {HP : Lenient P}.
Variables (e : env) (id0 : nat) (path ty : string) (test ignore : bool) (reason : string).
Hypothesis Hup : forall added, P (EvUpdateOne id0 added ty).

(** The part of [delete_data] that works on the run document. *)
Lemma delete_data_rundoc_part kf :
  follows (acts_on kf P id0)
    (lift (log_info "changing data field in rundoc") ;;
     rd <- get_rd ;;
     i <- of_result (select_ddoc (hostname e) ty (data rd) 0) ;;
     old <- of_option (nth_error (data rd) i) (UnboundLocalError "ddoc") ;;
     t <- lift (now 0) ;;
     let ddoc := deletion_record (hostname e) reason t old in
     put_rd (set_data rd (replace_nth i ddoc (data rd))) ;;
     lift (log_info "update with {ddoc}") ;;
     if args_production e && negb test then
       ok <- lift (confirm e "update rundoc?") ;;
       if ok then lift (update_one e (rd_id rd) ddoc ty) else ret tt
     else lift (log_info "Update ddoc with : {ddoc}")).
Proof.
  apply follows_bind; [exact _|apply follows_lift, keeps_log_info; exact _|intros _].
  intros [rd w].
  match goal with
  | |- acts_on _ _ _ _ (snd (bind get_rd ?k ?s)) =>
      change (bind get_rd k s) with (k rd s)
  end.
  cbv beta. rewrite bind_of_result.
  destruct (select_ddoc (hostname e) ty (data rd) 0) as [i|x];
    [|apply (stepwise_refl (R := acts_on kf P id0))].
  rewrite bind_of_option.
  destruct (nth_error (data rd) i) as [old|] eqn:Hnth;
    [|apply (stepwise_refl (R := acts_on kf P id0))].
  match goal with
  | |- acts_on _ _ _ _ (snd (bind (lift (now 0)) ?k _)) =>
      change (bind (lift (now 0)) k (rd, w)) with (k (clock w + 0)%Z (rd, w))
  end.
  cbv beta zeta.
  match goal with
  | |- acts_on _ _ _ _ (snd (bind (put_rd ?rd') ?k _)) =>
      change (bind (put_rd rd') k (rd, w)) with (k tt (rd', w));
      apply (stepwise_trans (R := acts_on kf P id0) _ (rd', w))
  end.
  - intros _. split; [apply within_refl|]. cbn [fst].
    split; [reflexivity|split; [reflexivity|]]. cbn [data set_data].
    apply (replace_nth_faded i _ old); [exact Hnth|apply faded_deletion_record].
  - destruct (Nat.eq_dec (rd_id rd) id0) as [Hrd|Hne];
      [|intros Hid; exfalso; exact (Hne Hid)].
    as_follows.
    apply follows_bind; [exact _|apply follows_lift, keeps_log_info; exact _|intros _].
    destruct (args_production e && negb test);
      [|apply follows_lift, keeps_log_info; exact _].
    apply follows_bind; [exact _|apply follows_lift, keeps_confirm; exact _|intros [|]];
      [|apply follows_ret; exact _].
    apply follows_lift, keeps_update_one; [reflexivity|]. rewrite Hrd. apply Hup.
Qed.

(** [delete_data(rd, path, ty, ...)] removes no path but [path], and that
    only when it exists; it updates no document but [rd], pulling only the
    type [ty]; it moves nothing and starts no thread; and the document it
    holds only fades. *)
Lemma delete_data_acts kf s :
  rd_id (fst s) = id0 ->
  (in_strings path (fs (snd s)) = true -> kf = false /\ P (EvRmtree path)) ->
  within kf false P (snd s) (snd (snd (delete_data e path ty test ignore reason s)))
  /\ fades (fst s) (fst (snd (delete_data e path ty test ignore reason s))).
Proof.
  destruct s as [rd w]. cbn [fst snd]. intros Hid Hrm.
  destruct (low_data_check_idle e ty test ignore rd w) as (r & w1 & Hldc & Hidle).
  unfold delete_data.
  destruct r as [[]|x];
    [rewrite (bind_ok _ _ _ _ _ Hldc)
    |rewrite (bind_raised _ _ _ _ _ Hldc); cbn [fst snd];
     split; [now apply idle_within|apply fades_refl]].
  rewrite bind_path_exists.
  assert (Hfs : fs w1 = fs w) by (now apply Hidle). rewrite Hfs.
  match goal with
  | |- within _ _ _ _ (snd (snd ?X)) /\ _ =>
      cut (acts_on kf P id0 (rd, w1) (snd X))
  end.
  { intros H. destruct (H Hid) as [W F]. split; [|exact F].
    exact (within_trans _ _ _ _ _ _ (idle_within kf false P w w1 Hidle) W). }
  destruct (in_strings path (fs w)).
  - destruct (Hrm eq_refl) as [Hkf Hrmp]. subst kf. as_follows.
    apply follows_bind; [exact _| |intros _].
    { apply follows_bind; [exact _|apply follows_lift, keeps_log_info; exact _|intros _].
      apply follows_bind; [exact _| |intros _; apply follows_lift, keeps_log_info; exact _].
      destruct (negb test); [|apply follows_ret; exact _].
      apply follows_lift, keeps__rmtree; [exact _|]. intros _. now split. }
    apply follows_bind; [exact _|apply follows_lift, keeps_path_exists|intros still].
    destruct (negb still); [apply delete_data_rundoc_part|].
    destruct (negb test && negb (args_ask_confirm e));
      [apply follows_raise|apply follows_ret]; exact _.
  - as_follows.
    apply follows_bind; [exact _|apply follows_lift, keeps_log_info; exact _|intros _].
    apply follows_bind; [exact _|apply follows_lift, keeps_path_exists|intros still].
    destruct (negb still); [apply delete_data_rundoc_part|].
    destruct (negb test && negb (args_ask_confirm e));
      [apply follows_raise|apply follows_ret]; exact _.
Qed.

End DeleteData.

Lemma bind_getitem_str {S B} k d (f : string -> ST S B) s :
  bind (getitem_str k d) f s
  = match Dict.get k d with
    | Some (VStr v) => f v s
    | Some _ => (Raise (TypeError ("field " ++ k ++ " is not a str")), s)
    | None => (Raise (KeyError k), s)
    end.
Proof. unfold getitem_str. now destruct (Dict.get k d) as [[]|]. Qed.

Lemma bind_get_rd {B} (k : rundoc -> RD B) s : bind get_rd k s = k (fst s) s.
Proof. reflexivity. Qed.

Lemma bind_lift_log_info {B} msg (k : unit -> RD B) rd w :
  bind (lift (log_info msg)) k (rd, w) = k tt (rd, snd (log_info msg w)).
Proof. reflexivity. Qed.

(** X2. Delete threads are started on the cleaning host only, or for
    [--number] with [--delete_live]: on any other host, whatever the mode
    (and for [--number] without [--delete_live]), [main_ajax] starts no
    delete thread, whatever the runs collection and the disk hold. *)
Theorem delete_threads_only_on_the_cleaning_host
  (st : context) (depth rounds : nat) (e : env) (a : cli) (w : world) :
  hostname e <> eb_can_clean_ceph ->
  given_number a = None \/ args_delete_live a = false ->
  exists new,
    trace (snd (main_ajax st depth rounds e a w)) = (new ++ trace w)%list
    /\ Forall no_thread new.
Proof.
  intros Hhost Hcli.
  assert (H : keeps world_of_world (within false false no_thread)
                    (main_ajax st depth rounds e a)).
  { unfold main_ajax. destruct (given_number a) as [n|].
    - destruct Hcli as [Hcli|Hcli]; [discriminate|]. rewrite Hcli.
      unfold main_ajax_number.
      apply keeps_bind; [|intros ?; apply keeps_ret].
      apply keeps_bind; [apply remove_run_from_host_no_thread|intros ?].
      apply keeps_wait_on_delete_thread; [exact _|exact I].
    - destruct (given_clean a) as [mode|]; [|apply keeps_raise].
      destruct (negb (in_strings mode _modes) && negb (mode =? "all"));
        [apply keeps_raise|].
      destruct (negb (mode =? "all")).
      + rewrite (not_the_cleaning_host e Hhost). cbn [andb].
        repeat first [apply run_mode_no_thread; exact Hhost | keeps_step].
      + unfold main_ajax_all.
        apply main_loop_no_thread, cleaning_sequence_no_thread. exact Hhost. }
  destruct (H w) as (_ & _ & Hnew). exact Hnew.
Qed.

(** [--clean all] on eb1, in real execution, with a run whose live data is
    old enough to go: no thread is started. *)
Lemma delete_threads_only_on_the_cleaning_host_eb1 :
  hostname eb1 <> eb_can_clean_ceph
  /\ exists new,
       trace (snd (main_ajax no_plugins 3 2 eb1 clean_all ceph_world))
       = (new ++ trace ceph_world)%list
       /\ Forall no_thread new.
Proof.
  assert (Hhost : hostname eb1 <> eb_can_clean_ceph) by discriminate.
  split; [exact Hhost|].
  exact (delete_threads_only_on_the_cleaning_host no_plugins 3 2 eb1 clean_all ceph_world
           Hhost (or_introl eq_refl)).
Defined.

(** ** What [remove_run_from_host] touches *)

Lemma bind_bind {S A B C} (m : ST S A) (f : A -> ST S B) (g : B -> ST S C) s :
  bind (bind m f) g s = bind m (fun a => bind (f a) g) s.
Proof. unfold bind. now destruct (m s) as [[a|x] s']. Qed.

Lemma bind_ret {S A B} (a : A) (f : A -> ST S B) s : bind (ret a) f s = f a s.
Proof. reflexivity. Qed.

Lemma count_live_and_raw_typed l :
  forall a b r, count_live_and_raw l a b = Ok r -> Forall (fun d => Dict.get "type" d <> None) l.
Proof.
  induction l as [|d l IH]; intros a b r H; [constructor|].
  simpl in H. destruct (Dict.get "type" d) as [t|] eqn:Et; [|discriminate].
  constructor; [congruence|exact (IH _ _ _ H)].
Qed.

Lemma check_rundoc_ok rd n_live n_rr :
  check_rundoc_for_live_and_raw (Some rd) = Ok (n_live, n_rr) ->
  n_live = liveCopies rd /\ n_rr = durableCopies rd.
Proof.
  intros H. pose proof H as Hty. apply count_live_and_raw_typed in Hty.
  rewrite (check_rundoc_counts rd Hty) in H. inversion H. now split.
Qed.

Lemma Forall2_nth_error_r {A B} (Q : A -> B -> Prop) l l' i y :
  Forall2 Q l l' -> nth_error l' i = Some y -> exists x, nth_error l i = Some x /\ Q x y.
Proof.
  intros H. revert i. induction H as [|a b l l' Hab _ IH]; intros [|i] Hn;
    simpl in *; try discriminate.
  - inversion Hn; subst. now exists a.
  - now apply IH.
Qed.

#[local] Instance from_run_stepwise P rd0 : Stepwise (from_run P rd0).
Proof.
  split.
  - intros s Hf. split; [apply within_refl|exact Hf].
  - intros a b c Hab Hbc Hf. destruct (Hab Hf) as [W1 F1]. destruct (Hbc F1) as [W2 F2].
    split; [exact (within_trans _ _ _ _ _ _ W1 W2)|exact F2].
Qed.

#[local] Instance host_removal_lenient e force rd : Lenient (host_removal e force rd).
Proof. apply allowed_lenient. Qed.

Section HostData.

Variables (e : env) (force : bool) (rd0 : rundoc) (number : Z) (reason : string) (n_rr : nat).

#[local] Abbreviation P := (host_removal e force rd0).
#[local] Abbreviation Rrun := (from_run P rd0).

(** [delete_data] for an entry that may go. *)
Lemma delete_host_entry loc t p s :
  host_entry e force rd0 loc t -> p = loc \/ p = loc ++ "_temp" ->
  Rrun s (snd (delete_data e p t (negb (args_production e)) force reason s)).
Proof.
  intros Hentry Hp Hf.
  assert (Hid : rd_id (fst s) = rd_id rd0) by (destruct Hf as [H _]; exact H).
  destruct (delete_data_acts P e (rd_id rd0) p t (negb (args_production e)) force reason
              (fun added => conj eq_refl (ex_intro _ loc Hentry)) false s Hid) as [W F].
  - intros _. split; [reflexivity|]. exists loc, t. now split.
  - split; [exact W|exact (fades_trans _ _ _ Hf F)].
Qed.

Lemma idle_from_run s w' :
  idle (snd s) w' -> Rrun s (fst s, w').
Proof.
  intros H Hf. split; [apply idle_within; [exact _|exact H]|exact Hf].
Qed.

Lemma remove_run_from_host_step_host i :
  follows Rrun
    (remove_run_from_host_step e number false force reason (liveCopies rd0) n_rr i).
Proof.
  intros [rdc w]. unfold remove_run_from_host_step. rewrite bind_get_rd. cbn [fst negb].
  destruct (nth_error (data rdc) i) as [d'|] eqn:Hn;
    [|apply (stepwise_refl (R := Rrun))].
  destruct (host_is (hostname e) d') eqn:Hh.
  2:{ destruct (host_is "daq" d'); [|apply (stepwise_refl (R := Rrun))].
      rewrite bind_of_option.
      destruct (Dict.get "location" d') as [l|]; [|apply (stepwise_refl (R := Rrun))].
      apply (idle_from_run (rdc, w)). apply (keeps_log_info true true passive _ w). }
  rewrite bind_getitem_str.
  destruct (Dict.get "location" d') as [[loc| |]|] eqn:Hl;
    try apply (stepwise_refl (R := Rrun)).
  intros Hf.
  destruct (Forall2_nth_error_r _ _ _ i d' (proj2 (proj2 Hf)) Hn) as (d & Hd & [[Ht Hho] Hlo]).
  assert (Hloc : Dict.get "location" d = Some (VStr loc))
    by (destruct Hlo as [Hlo|Hlo]; congruence).
  assert (Hentry : forall t, Dict.get "type" d' = Some (VStr t) ->
            (force = true \/ liveCopies rd0 <> 0 \/ PyStr.contains "raw_records" t = false) ->
            host_entry e force rd0 loc t).
  { intros t Hty Hun. exists d. split; [exact (nth_error_In _ _ Hd)|].
    split; [unfold host_is in *; now rewrite Hho|].
    split; [exact Hloc|]. split; [congruence|exact Hun]. }
  revert Hf.
  assert (Hgo : forall t, host_entry e force rd0 loc t -> Dict.get "type" d' = Some (VStr t) ->
            Rrun (rdc, w)
              (snd ((lift (log_info ("delete data at " ++ loc)) ;;
                     ty <- getitem_str "type" d' ;;
                     delete_data e loc ty (negb (args_production e)) force reason ;;
                     let loc := loc ++ "_temp" in
                     ex <- lift (path_exists loc) ;;
                     if ex then
                       lift (log_info ("delete data at " ++ loc)) ;;
                       rd' <- get_rd ;;
                       ddoc' <- of_option (nth_error (data rd') i) (UnboundLocalError "ddoc") ;;
                       ty' <- getitem_str "type" ddoc' ;;
                       delete_data e loc ty' (negb (args_production e)) force reason
                     else ret tt) (rdc, w)))).
  { intros t Hent Hty.
    rewrite bind_lift_log_info, bind_getitem_str, Hty.
    set (w1 := snd (log_info _ w)).
    apply (stepwise_trans (R := Rrun) _ (rdc, w1));
      [apply (idle_from_run (rdc, w)), (keeps_log_info true true passive _ w)|].
    apply follows_bind_at; [exact _|apply (delete_host_entry loc t); [exact Hent|now left]|].
    intros [] [rd1 w2] _. cbv zeta. rewrite bind_path_exists.
    destruct (in_strings (loc ++ "_temp") (fs w2)); [|apply (stepwise_refl (R := Rrun))].
    rewrite bind_lift_log_info, bind_get_rd. cbn [fst].
    set (w3 := snd (log_info _ w2)).
    apply (stepwise_trans (R := Rrun) _ (rd1, w3));
      [apply (idle_from_run (rd1, w2)), (keeps_log_info true true passive _ w2)|].
    intros Hf1.
    rewrite bind_of_option.
    destruct (nth_error (data rd1) i) as [d1|] eqn:Hn1;
      [|split; [apply within_refl|exact Hf1]].
    destruct (Forall2_nth_error_r _ _ _ i d1 (proj2 (proj2 Hf1)) Hn1)
      as (d0 & Hd0 & [[Ht0 _] _]).
    assert (d0 = d) by congruence. subst d0.
    rewrite bind_getitem_str, <- Ht0, Ht, Hty.
    apply (delete_host_entry loc t (loc ++ "_temp") (rd1, w3) Hent); [now right|exact Hf1]. }
  destruct (negb force && Nat.eqb (liveCopies rd0) 0) eqn:Hp.
  - rewrite bind_bind, bind_getitem_str.
    destruct (Dict.get "type" d') as [[t| |]|] eqn:Hty;
      try apply (stepwise_refl (R := Rrun)).
    rewrite bind_ret.
    destruct (PyStr.contains "raw_records" t) eqn:Hraw.
    + apply (idle_from_run (rdc, w)). apply (keeps_log_info true true passive _ w).
    + apply (Hgo t); [|reflexivity]. apply Hentry; [reflexivity|]. now right; right.
  - rewrite bind_ret. cbv iota.
    assert (Hun : force = true \/ liveCopies rd0 <> 0).
    { apply andb_false_iff in Hp. destruct Hp as [Hp|Hp].
      - left. now destruct force.
      - right. now apply Nat.eqb_neq. }
    destruct (Dict.get "type" d') as [[t| |]|] eqn:Hty.
    + apply (Hgo t); [|reflexivity]. apply Hentry; [reflexivity|]. tauto.
    + rewrite bind_lift_log_info, bind_getitem_str, Hty.
      apply (idle_from_run (rdc, w)). apply (keeps_log_info true true passive _ w).
    + rewrite bind_lift_log_info, bind_getitem_str, Hty.
      apply (idle_from_run (rdc, w)). apply (keeps_log_info true true passive _ w).
    + rewrite bind_lift_log_info, bind_getitem_str, Hty.
      apply (idle_from_run (rdc, w)). apply (keeps_log_info true true passive _ w).
Qed.

Lemma remove_run_from_host_loop_host rounds :
  forall i,
    follows Rrun
      (remove_run_from_host_loop e number false force reason (liveCopies rd0) n_rr rounds i).
Proof.
  induction rounds as [|rounds IH]; intros i; cbn [remove_run_from_host_loop].
  - apply follows_ret. exact _.
  - apply follows_bind; [exact _|apply remove_run_from_host_step_host|intros ?; apply IH].
Qed.

End HostData.

(** X3. Without [--delete_live], [remove_run_from_host] removes only paths
    the run has registered on this host: every path it removes is the
    location of an entry of the run on this host, or that location with
    "_temp" added, and every update is one of the document of the run,
    pulling the type of such an entry (the pull itself takes every entry of
    that type on this host or on "daq"); it moves nothing and starts no
    thread. Without [--force], when the run has no live data registered,
    the entries concerned are only those whose type does not contain
    raw_records. *)
Theorem remove_run_from_host_removes_registered_paths
  (e : env) (number : Z) (force : bool) (reason : string) (w : world) (rd : rundoc) :
  List.find (number_on_host number (hostname e)) (run_coll w) = Some rd ->
  exists new,
    trace (snd (remove_run_from_host e number false force reason w)) = (new ++ trace w)%list
    /\ Forall (host_removal e force rd) new.
Proof.
  intros Hfind.
  cut (within false false (host_removal e force rd) w
         (snd (remove_run_from_host e number false force reason w))).
  { intros (_ & _ & H). exact H. }
  unfold remove_run_from_host. cbn [negb].
  rewrite (bind_ok (find_one _) _ w (Some rd) w)
    by (unfold find_one; now rewrite Hfind).
  rewrite bind_of_result.
  destruct (check_rundoc_for_live_and_raw (Some rd)) as [[n_live n_rr]|x] eqn:Hcheck;
    [|apply within_refl].
  destruct (check_rundoc_ok rd n_live n_rr Hcheck) as [-> _].
  unfold with_rd.
  pose proof (remove_run_from_host_loop_host e force rd number reason n_rr
                (length (data rd)) 0 (rd, w) (fades_refl rd)) as [H _].
  now destruct (remove_run_from_host_loop e number false force reason (liveCopies rd) n_rr
                  (length (data rd)) 0 (rd, w)) as [r [rd' w']].
Qed.

(** Run 24399 with raw_records and peaks on eb1 and no live data, in real
    execution without [--force]: the peaks go, the raw_records stay. *)
Lemma remove_run_from_host_removes_registered_paths_eb1 :
  liveCopies host_only_run = 0
  /\ fs (snd (remove_run_from_host eb1 24399 false false "manual" host_only_world))
     = ["/data/eb1/24399-raw"]
  /\ map data (run_coll (snd (remove_run_from_host eb1 24399 false false "manual"
                                host_only_world)))
     = [[raw_on_eb1]]
  /\ exists new,
       trace (snd (remove_run_from_host eb1 24399 false false "manual" host_only_world))
       = (new ++ trace host_only_world)%list
       /\ Forall (host_removal eb1 false host_only_run) new.
Proof.
  split; [reflexivity|]. split; [vm_compute; reflexivity|]. split; [vm_compute; reflexivity|].
  exact (remove_run_from_host_removes_registered_paths eb1 24399 false "manual" host_only_world
           host_only_run eq_refl).
Defined.

(** ** Live data without raw_records *)

Lemma remove_run_from_host_step_unsafe e number reason n_live i :
  keeps world_of_rd idle (remove_run_from_host_step e number true false reason n_live 0 i).
Proof.
  unfold remove_run_from_host_step, idle. cbn [negb andb Nat.eqb]. keeps_auto.
Qed.

Lemma remove_run_from_host_loop_unsafe e number reason n_live rounds :
  forall i,
    keeps world_of_rd idle (remove_run_from_host_loop e number true false reason n_live 0 rounds i).
Proof.
  induction rounds as [|rounds IH]; intros i; cbn [remove_run_from_host_loop].
  - apply keeps_ret.
  - apply keeps_bind; [apply remove_run_from_host_step_unsafe|intros ?; apply IH].
Qed.

(** X4. Without [--force], the live data of a run that has no raw_records
    registered is never deleted, in real execution either: with
    [--delete_live], [remove_run_from_host] leaves the disk and the runs
    collection as they were and does nothing but log and report. *)
Theorem live_data_kept_without_raw_records
  (e : env) (number : Z) (reason : string) (w : world) (rd : rundoc) :
  List.find (number_on_host number "daq") (run_coll w) = Some rd ->
  durableCopies rd = 0 ->
  fs (snd (remove_run_from_host e number true false reason w)) = fs w
  /\ run_coll (snd (remove_run_from_host e number true false reason w)) = run_coll w
  /\ exists new,
       trace (snd (remove_run_from_host e number true false reason w)) = (new ++ trace w)%list
       /\ Forall passive new.
Proof.
  intros Hfind Hraw.
  cut (idle w (snd (remove_run_from_host e number true false reason w))).
  { intros (Hfs & Hcoll & H). split; [now apply Hfs|]. split; [now apply Hcoll|exact H]. }
  unfold remove_run_from_host. cbn [negb].
  rewrite (bind_ok (find_one _) _ w (Some rd) w)
    by (unfold find_one; now rewrite Hfind).
  rewrite bind_of_result.
  destruct (check_rundoc_for_live_and_raw (Some rd)) as [[n_live n_rr]|x] eqn:Hcheck;
    [|apply within_refl].
  destruct (check_rundoc_ok rd n_live n_rr Hcheck) as [_ ->]. rewrite Hraw.
  apply (keeps_with_rd true true passive rd _
           (remove_run_from_host_loop_unsafe e number reason n_live (length (data rd)) 0) w).
Qed.

(** The run of [ceph_world_unsafe], whose live data is the only copy. *)
Lemma live_data_kept_without_raw_records_run_7 :
  fs (snd (remove_run_from_host eb0 7 true false "clean ceph" ceph_world_unsafe))
  = fs ceph_world_unsafe
  /\ run_coll (snd (remove_run_from_host eb0 7 true false "clean ceph" ceph_world_unsafe))
     = run_coll ceph_world_unsafe
  /\ exists new,
       trace (snd (remove_run_from_host eb0 7 true false "clean ceph" ceph_world_unsafe))
       = (new ++ trace ceph_world_unsafe)%list
       /\ Forall passive new.
Proof.
  exact (live_data_kept_without_raw_records eb0 7 "clean ceph" ceph_world_unsafe
           (mkRundoc 1 7 "done" 1000 "eb0.xenon.local" "transferred" 0 [live_on_daq] [])
           eq_refl eq_refl).
Defined.

(** ** What [clean_database] does *)

#[local] Instance from_db_stepwise P fs0 rd0 : Stepwise (from_db P fs0 rd0).
Proof.
  split.
  - intros s Hf _. split; [apply within_refl|exact Hf].
  - intros a b c Hab Hbc Hf Hfs. destruct (Hab Hf Hfs) as [W1 F1].
    assert (Hb : fs (snd b) = fs0) by (destruct W1 as (H & _); now rewrite H).
    destruct (Hbc F1 Hb) as [W2 F2].
    split; [exact (within_trans _ _ _ _ _ _ W1 W2)|exact F2].
Qed.

#[local] Instance unregistering_run_lenient e delete_live fs0 rd0 :
  Lenient (unregistering_run e delete_live fs0 rd0).
Proof. apply allowed_lenient. Qed.

#[local] Instance unregistering_lenient e delete_live w : Lenient (unregistering e delete_live w).
Proof. apply allowed_lenient. Qed.

Section MissingData.

Variables (e : env) (delete_live : bool) (fs0 : list string) (rd0 : rundoc).

#[local] Abbreviation Pdb := (unregistering_run e delete_live fs0 rd0).
#[local] Abbreviation Rdb := (from_db Pdb fs0 rd0).

Lemma idle_from_db s w' : idle (snd s) w' -> Rdb s (fst s, w').
Proof.
  intros H Hf _. split; [apply idle_within; [exact _|exact H]|exact Hf].
Qed.

Lemma clean_database_step i rd w :
  Rdb (rd, w)
    (snd (match nth_error (data rd) i with
          | None => ret tt
          | Some ddoc =>
              if host_is (hostname e) ddoc || (host_is "daq" ddoc && delete_live) then
                loc <- getitem_str "location" ddoc ;;
                ex <- lift (path_exists loc) ;;
                if negb ex then
                  lift (log_info ("clean_database::	delete entry of data from " ++
                                  PyStr.of_Z (number rd) ++ " at " ++ loc ++
                                  " as it does not exist")) ;;
                  ty <- getitem_str "type" ddoc ;;
                  delete_data e loc ty (negb (args_production e)) false
                              "reason already removed from eb?!"
                else ret tt
              else ret tt
          end (rd, w))).
Proof.
  destruct (nth_error (data rd) i) as [ddoc|] eqn:Hn; [|apply (stepwise_refl (R := Rdb))].
  destruct (host_is (hostname e) ddoc || (host_is "daq" ddoc && delete_live)) eqn:Hh;
    [|apply (stepwise_refl (R := Rdb))].
  rewrite bind_getitem_str.
  destruct (Dict.get "location" ddoc) as [[loc| |]|] eqn:Hl;
    try apply (stepwise_refl (R := Rdb)).
  rewrite bind_path_exists.
  destruct (in_strings loc (fs w)) eqn:Hex; [apply (stepwise_refl (R := Rdb))|]. cbn [negb].
  rewrite bind_lift_log_info, bind_getitem_str.
  set (w1 := snd (log_info _ w)).
  assert (Hlog : Rdb (rd, w) (rd, w1))
    by (apply (idle_from_db (rd, w)), (keeps_log_info true true passive _ w)).
  destruct (Dict.get "type" ddoc) as [[ty| |]|] eqn:Hty; try exact Hlog.
  intros Hf Hfs. cbn [fst snd] in Hf, Hfs.
  destruct (Forall2_nth_error_r _ _ _ i ddoc (proj2 (proj2 Hf)) Hn)
    as (d & Hd & [[Ht Hho] Hlo]).
  assert (Hmissing : missing_entry e delete_live fs0 rd0 ty).
  { exists d, loc. split; [exact (nth_error_In _ _ Hd)|].
    split; [unfold host_is in *; now rewrite Hho|].
    split; [destruct Hlo as [Hlo|Hlo]; congruence|].
    split; [now rewrite <- Hfs|congruence]. }
  assert (Hid : rd_id (fst (rd, w1)) = rd_id rd0) by (destruct Hf as [H _]; exact H).
  destruct (delete_data_acts Pdb e (rd_id rd0) loc ty (negb (args_production e)) false
              "reason already removed from eb?!"
              (fun added => conj eq_refl Hmissing) true (rd, w1) Hid) as [W F].
  - cbn [snd]. change (fs w1) with (fs w). rewrite Hex. discriminate.
  - split.
    + refine (within_trans _ _ _ _ _ _ _ W).
      apply (keeps_log_info true false Pdb _ w).
    + exact (fades_trans _ _ _ Hf F).
Qed.

Lemma clean_database_ddocs_missing rounds :
  forall i, follows Rdb (clean_database_ddocs e delete_live rounds i).
Proof.
  induction rounds as [|rounds IH]; intros i; cbn [clean_database_ddocs].
  - apply follows_ret. exact _.
  - intros [rd w]. rewrite bind_get_rd. cbn [fst].
    apply follows_bind_at; [exact _|apply clean_database_step|].
    intros a s' _. apply IH.
Qed.

End MissingData.

Lemma clean_database_runs_missing e delete_live w0 rds :
  (forall rd, In rd rds -> In rd (filter (database_query e delete_live w0) (run_coll w0))) ->
  forall w, fs w = fs w0 ->
    within true false (unregistering e delete_live w0) w
      (snd (clean_database_runs e delete_live rds w)).
Proof.
  induction rds as [|rd rds IH]; intros Hsel w Hfs; cbn [clean_database_runs].
  - apply within_refl.
  - assert (H1 : within true false (unregistering e delete_live w0) w
                   (snd (with_rd rd (clean_database_ddocs e delete_live (length (data rd)) 0) w))).
    { unfold with_rd.
      destruct (clean_database_ddocs_missing e delete_live (fs w0) rd (length (data rd)) 0
                  (rd, w) (fades_refl rd) Hfs) as [W _].
      destruct (clean_database_ddocs e delete_live (length (data rd)) 0 (rd, w))
        as [r [rd' w']]. cbn [snd] in *.
      apply (within_weaken _ _ _ _ _ _ _ _ W); trivial.
      intros [] Hev; simpl in *; trivial.
      destruct Hev as [Hid Hm]. exists rd. split; [apply Hsel; now left|now split]. }
    unfold bind.
    destruct (with_rd rd (clean_database_ddocs e delete_live (length (data rd)) 0) w)
      as [[[]|x] w1]; cbn [snd] in *; [|exact H1].
    apply (within_trans _ _ _ _ _ _ H1). apply IH.
    + intros r Hr. apply Hsel. now right.
    + destruct H1 as (H & _). now rewrite H.
Qed.

(** X1. [clean_database] leaves the disk alone and sends updates only for
    types that have a missing entry: in a dry run or in real execution the
    file system stays as it was, no path is removed or moved and no thread
    is started, and every update it sends is one of the document of a run
    that its query selected, pulling the type of an entry of that run (on
    this host, or on "daq" with [delete_live]) whose location is not on the
    disk. The pull itself takes every entry of that type on this host or on
    "daq". *)
Theorem clean_database_updates_for_missing_entries
  (e : env) (delete_live : bool) (w : world) :
  fs (snd (clean_database e delete_live w)) = fs w
  /\ exists new,
       trace (snd (clean_database e delete_live w)) = (new ++ trace w)%list
       /\ Forall (unregistering e delete_live w) new.
Proof.
  cut (within true false (unregistering e delete_live w) w
         (snd (clean_database e delete_live w))).
  { intros (Hfs & _ & Hnew). split; [now apply Hfs|exact Hnew]. }
  unfold clean_database.
  rewrite (bind_ok (set_state "clean_database") _ w tt
             (snd (set_state "clean_database" w)) eq_refl).
  set (w1 := snd (set_state "clean_database" w)).
  assert (H1 : within true false (unregistering e delete_live w) w w1)
    by (apply (keeps_set_state true false _ "clean_database" w)).
  apply (within_trans _ _ _ _ _ _ H1).
  rewrite (bind_ok (now _) _ w1 _ w1 eq_refl).
  rewrite (bind_ok (find_all _) _ w1 _ w1 eq_refl).
  apply (clean_database_runs_missing e delete_live w); [|reflexivity].
  intros rd Hrd. exact Hrd.
Qed.

(** ** [clean_old_hash] *)

#[local] Instance old_hash_removal_lenient st e files : Lenient (old_hash_removal st e files).
Proof. apply allowed_lenient. Qed.

Lemma clean_old_hash_files_stale st e files :
  forall files',
    (forall f, In f files' -> In f files) ->
    keeps world_of_world (within false false (old_hash_removal st e files))
          (clean_old_hash_files st e files').
Proof.
  induction files' as [|f files' IH]; intros Hsub; cbn [clean_old_hash_files]; [keeps_auto|].
  destruct (PyLib.split "-" f) as [|run_id [|t [|lineage_hash [|? ?]]]] eqn:Hsplit;
    try solve [keeps_auto].
  apply keeps_bind; [|intros ?; apply IH; intros g Hg; apply Hsub; now right].
  destruct (is_low_level t || PyStr.contains "_temp" lineage_hash) eqn:Hlow; [keeps_auto|].
  apply orb_false_iff in Hlow. destruct Hlow as [Hlow Htemp].
  destruct (negb (in_strings t (_plugin_class_registry st))) eqn:Hreg; [keeps_auto|].
  apply negb_false_iff in Hreg. cbv zeta.
  destruct (negb (key_for_lineage_hash st run_id t =? lineage_hash)) eqn:Hhash; [|keeps_auto].
  apply negb_true_iff, String.eqb_neq in Hhash.
  assert (Hstale : stale_file st f t).
  { exists run_id, lineage_hash. repeat split; assumption. }
  apply keeps_bind; [keeps_auto|intros ?].
  apply keeps_bind; [keeps_auto|intros processed_before].
  apply keeps_bind; [keeps_auto|intros n].
  apply keeps_bind; [keeps_auto|intros [rd|]]; [|keeps_auto].
  destruct (PyStr.contains "raw_records" t); [keeps_auto|].
  intros w. unfold with_rd, world_of_world.
  destruct (delete_data_acts (old_hash_removal st e files) e (rd_id rd)
              (PyStr.path_join (output_folder e) f) t (negb (args_production e)) false
              "old lineage hash"
              (fun added => ex_intro _ f (conj (Hsub f (or_introl eq_refl)) Hstale))
              false (rd, w) eq_refl) as [W _].
  - intros _. split; [reflexivity|]. exists f, t.
    split; [apply Hsub; now left|]. now split.
  - now destruct (delete_data e (PyStr.path_join (output_folder e) f) t
                    (negb (args_production e)) false "old lineage hash" (rd, w))
      as [r [rd' w']].
Qed.

(** X5. [clean_old_hash] removes stale files only: every path it removes is
    a file of the output folder whose name has three parts, whose data type
    is not low level (so no raw_records, records, veto_regions,
    pulse_counts, led_calibration or peaklets) and is registered in the
    context, and whose hash is neither one of a temporary folder nor the hash
    the context gives now; every update pulls the type of such a file; it
    moves nothing and starts no thread. *)
Theorem clean_old_hash_removes_stale_files_only (st : context) (e : env) (w : world) :
  exists new,
    trace (snd (clean_old_hash st e w)) = (new ++ trace w)%list
    /\ Forall (old_hash_removal st e (children (output_folder e) (fs w))) new.
Proof.
  cut (within false false (old_hash_removal st e (children (output_folder e) (fs w))) w
         (snd (clean_old_hash st e w))).
  { intros (_ & _ & H). exact H. }
  unfold clean_old_hash.
  rewrite (bind_ok (set_state "clean_old_hash") _ w tt
             (snd (set_state "clean_old_hash" w)) eq_refl).
  set (w1 := snd (set_state "clean_old_hash" w)).
  assert (H1 : within false false (old_hash_removal st e (children (output_folder e) (fs w)))
                 w w1)
    by (apply (keeps_set_state false false _ "clean_old_hash" w)).
  apply (within_trans _ _ _ _ _ _ H1).
  unfold bind, listdir. change (fs w1) with (fs w).
  destruct (in_strings (output_folder e) (fs w)); [|apply within_refl].
  apply (clean_old_hash_files_stale st e _ _ (fun f H => H) w1).
Qed.

(** ** [confirm] *)

Lemma read_answer_true l rest :
  read_answer l = (Ok true, rest) ->
  exists line, l = line :: rest /\ PyStr.strip (PyStr.lower line) = "y".
Proof.
  destruct l as [|line l]; cbn [read_answer]; [discriminate|]. cbv zeta.
  destruct (in_strings (PyStr.strip (PyStr.lower line)) ["y"; "n"]).
  - intros H. injection H as Hy Hr. exists line.
    split; [now rewrite Hr|now apply String.eqb_eq].
  - destruct (read_answer l) as [[b|x] r]; discriminate.
Qed.

(** X6. [confirm] gives a true value only when no confirmation is asked for
    or the first line the operator types is y (in any case, with white
    space around it): after a line that is neither y nor n the question is
    put again, but whatever is answered then, y too, the value is not true. *)
Theorem confirm_first_answer (e : env) (question : string) (w : world) :
  fst (confirm e question w) = Ok true
  <-> (args_ask_confirm e = false
       \/ exists line rest,
            stdin w = line :: rest /\ PyStr.strip (PyStr.lower line) = "y").
Proof.
  unfold confirm. destruct (args_ask_confirm e); cbn [negb].
  - split.
    + intros H. right.
      destruct (read_answer (stdin w)) as [r rest] eqn:E. cbn [fst] in H. subst r.
      destruct (read_answer_true _ _ E) as [line [Hl Hy]]. now exists line, rest.
    + intros [H|[line [rest [Hl Hy]]]]; [discriminate|].
      rewrite Hl. cbn [read_answer]. cbv zeta. rewrite Hy. reflexivity.
  - split; [now left|reflexivity].
Qed.

(** ** Run identifiers *)

Lemma length_append (a b : string) :
  String.length (a ++ b) = String.length a + String.length b.
Proof. induction a as [|c a IH]; simpl; congruence. Qed.

Lemma zfill_length width digits : width <= String.length (PyStr.zfill width digits).
Proof.
  unfold PyStr.zfill. rewrite length_append.
  assert (H : forall k, String.length (PyStr.zeros k) = k)
    by (induction k; simpl; congruence).
  rewrite H. lia.
Qed.

(** X7. The run identifier ["%06d" % number] has six characters at least,
    [int] gives the number back from it, and two numbers never share an
    identifier: the fresh lookup of [_remove_unregistered_run] asks for the
    run number [remove_if_unregistered] was given. *)
Theorem run_id_round_trip (n : Z) :
  PyStr.to_Z (PyStr.format06 n) = Some n
  /\ 6 <= String.length (PyStr.format06 n)
  /\ (forall m, PyStr.format06 m = PyStr.format06 n -> m = n).
Proof.
  split; [apply to_Z_format06|]. split.
  - unfold PyStr.format06. destruct (Z.to_int n) as [d|d].
    + apply zfill_length.
    + simpl. pose proof (zfill_length 5 (NilEmpty.string_of_uint d)). lia.
  - intros m H. apply (f_equal PyStr.to_Z) in H. rewrite !to_Z_format06 in H. congruence.
Qed.

(** ** [clean_non_latest] *)

Lemma clean_non_latest_runs_break e l1 rd l2 :
  raw_records_elsewhere (hostname e) (data rd) = Ok false ->
  forall w, clean_non_latest_runs e (l1 ++ rd :: l2)%list w = clean_non_latest_runs e l1 w.
Proof.
  intros Hrd. induction l1 as [|a l1 IH]; intros w.
  - cbn [app clean_non_latest_runs]. rewrite bind_of_result, Hrd. reflexivity.
  - cbn [app clean_non_latest_runs]. apply bind_ext. intros h w1.
    destruct (negb h); [reflexivity|]. apply bind_ext. intros ? w2. apply IH.
Qed.

(** X8. The loop of [clean_non_latest] over the runs stops at the first run
    that has no raw_records registered on another host: that run and every
    run after it in the result of the query are left as they are, whatever
    they have on this host. *)
Theorem clean_non_latest_stops_at_the_first_unsafe_run
  (e : env) (w : world) (l1 l2 : list rundoc) (rd : rundoc) :
  filter (non_latest_query e w) (run_coll w) = (l1 ++ rd :: l2)%list ->
  raw_records_elsewhere (hostname e) (data rd) = Ok false ->
  clean_non_latest e w
  = clean_non_latest_runs e l1 (snd (set_state "clean_non_latest" w)).
Proof.
  intros Hq Hrd. unfold clean_non_latest.
  rewrite (bind_ok (set_state "clean_non_latest") _ w tt
             (snd (set_state "clean_non_latest" w)) eq_refl).
  set (w1 := snd (set_state "clean_non_latest" w)).
  rewrite (bind_ok (now (- wait_after_processing)) _ w1
             (clock w + - wait_after_processing)%Z w1 eq_refl).
  match goal with
  | |- bind (find_all ?q) ?k w1 = _ =>
      rewrite (bind_ok (find_all q) k w1 (filter q (run_coll w)) w1 eq_refl)
  end.
  fold (non_latest_query e w). rewrite Hq.
  now apply clean_non_latest_runs_break.
Qed.

(** Run 24399 comes first and has no raw_records elsewhere: run 24400, which
    could be cleaned, is not looked at, in real execution either. *)
Lemma clean_non_latest_stops_at_the_first_unsafe_run_eb1 :
  filter (non_latest_query eb1 non_latest_world) (run_coll non_latest_world)
  = [unsafe_first; safe_second]
  /\ raw_records_elsewhere (hostname eb1) (data safe_second) = Ok true
  /\ clean_non_latest eb1 non_latest_world
     = (Ok tt, add_events non_latest_world [EvSetState "clean_non_latest"]).
Proof.
  split; [vm_compute; reflexivity|]. split; [vm_compute; reflexivity|].
  exact (clean_non_latest_stops_at_the_first_unsafe_run eb1 non_latest_world
           [] [safe_second] unsafe_first eq_refl eq_refl).
Defined.

(** ** Data of a run that no document knows *)

Lemma find_none_weaker {A} (p q : A -> bool) l :
  (forall x, q x = true -> p x = true) -> List.find p l = None -> List.find q l = None.
Proof.
  intros Hpq. induction l as [|a l IH]; simpl; [reflexivity|].
  destruct (p a) eqn:Ep; [discriminate|]. intros H.
  destruct (q a) eqn:Eq; [rewrite (Hpq a Eq) in Ep; discriminate|now apply IH].
Qed.

Lemma remove_unregistered_folders_unknown e base_folder n folders :
  forall w,
    List.find (fun rd => Z.eqb (number rd) n) (run_coll w) = None ->
    let r := remove_unregistered_folders e base_folder (PyStr.format06 n) folders false w in
    fst r = (if existsb (PyStr.contains (PyStr.format06 n)) folders
             then Raise (TypeError "'NoneType' object is not subscriptable")
             else Ok false)
    /\ idle w (snd r).
Proof.
  induction folders as [|folder rest IH]; intros w Hfind; cbv zeta.
  - split; [reflexivity|apply within_refl].
  - cbn [remove_unregistered_folders existsb].
    destruct (PyStr.contains (PyStr.format06 n) folder); cbn [orb].
    + rewrite (bind_ok (log_info _) _ w tt (snd (log_info ("Cleaning " ++ base_folder ++ folder) w))
                 eq_refl).
      rewrite to_Z_format06.
      rewrite (bind_ok (of_option (Some n) _) _ _ n _ eq_refl).
      rewrite (bind_ok (find_one _) _ _ None _)
        by (unfold find_one; cbn [run_coll log_info emit snd]; now rewrite Hfind).
      split; [reflexivity|].
      apply (keeps_log_info true true passive _ w).
    + exact (IH w Hfind).
Qed.

(** X9. Data of a run that no run document knows is never moved away:
    when no document has the run number, [remove_if_unregistered] reports
    the run and then raises, in a dry run and in real execution: TypeError,
    from the copy count of a document that was not found, when a folder name
    contains the run identifier, and FileNotFoundError when none does. The
    disk and the runs collection are as they were. *)
Theorem remove_if_unregistered_unknown_run
  (e : env) (n : Z) (delete_live : bool) (clean_from : string) (w : world) :
  let base := if negb delete_live then clean_from else ceph_folder e in
  let r := remove_if_unregistered e n delete_live clean_from w in
  List.find (fun rd => Z.eqb (number rd) n) (run_coll w) = None ->
  in_strings base (fs w) = true ->
  fst r = (if existsb (PyStr.contains (PyStr.format06 n)) (children base (fs w))
           then Raise (TypeError "'NoneType' object is not subscriptable")
           else Raise (FileNotFoundError ("No data registered on " ++ hostname e ++ " for " ++
                                          PyStr.format06 n)))
  /\ fs (snd r) = fs w
  /\ run_coll (snd r) = run_coll w
  /\ exists new, trace (snd r) = (new ++ trace w)%list /\ Forall passive new.
Proof.
  intros base r Hnone Hbase.
  cut (fst r = (if existsb (PyStr.contains (PyStr.format06 n)) (children base (fs w))
                then Raise (TypeError "'NoneType' object is not subscriptable")
                else Raise (FileNotFoundError ("No data registered on " ++ hostname e ++
                                               " for " ++ PyStr.format06 n)))
       /\ idle w (snd r)).
  { intros [Hr (Hfs & Hcoll & Hnew)].
    split; [exact Hr|]. split; [now apply Hfs|]. split; [now apply Hcoll|exact Hnew]. }
  subst r. unfold remove_if_unregistered.
  rewrite (bind_ok (find_one _) _ w None w).
  2:{ unfold find_one. f_equal. f_equal.
      apply (find_none_weaker (fun rd => Z.eqb (number rd) n)); [|exact Hnone].
      intros rd H. unfold number_on_host in H. now apply andb_true_iff in H. }
  cbv zeta. rewrite bind_ret. cbv iota.
  rewrite (bind_ok (log_warning _ _ _) _ w tt _ (log_warning_run _ _ _ w)).
  set (w0 := reported _ "error" _ w).
  assert (H0 : idle w w0) by (apply (keeps_log_warning true true passive _ _ _ w)).
  assert (Hrun : forall b, b = base ->
            fst (_remove_unregistered_run e b (PyStr.format06 n) true w0)
            = (if existsb (PyStr.contains (PyStr.format06 n)) (children base (fs w))
               then Raise (TypeError "'NoneType' object is not subscriptable")
               else Raise (FileNotFoundError ("No data registered on " ++ hostname e ++
                                              " for " ++ PyStr.format06 n)))
            /\ idle w (snd (_remove_unregistered_run e b (PyStr.format06 n) true w0))).
  { intros b ->. unfold _remove_unregistered_run. cbn [negb].
    rewrite (bind_ok (log_warning _ _ _) _ w0 tt _ (log_warning_run _ _ _ w0)).
    set (w1 := reported _ "warning" _ w0).
    assert (H1 : idle w w1).
    { apply (within_trans _ _ _ _ _ _ H0).
      apply (keeps_log_warning true true passive _ _ _ w0). }
    rewrite (bind_ok (listdir base) _ w1 (children base (fs w)) w1)
      by (unfold listdir; change (fs w1) with (fs w); now rewrite Hbase).
    destruct (remove_unregistered_folders_unknown e base n (children base (fs w)) w1 Hnone)
      as [Hr Hi].
    destruct (remove_unregistered_folders e base (PyStr.format06 n) (children base (fs w))
                false w1) as [res w2] eqn:E.
    cbn [fst snd] in Hr, Hi. subst res.
    destruct (existsb (PyStr.contains (PyStr.format06 n)) (children base (fs w))).
    - rewrite (bind_raised _ _ _ _ _ E). split; [reflexivity|].
      exact (within_trans _ _ _ _ _ _ H1 Hi).
    - rewrite (bind_ok _ _ _ _ _ E). cbn [negb].
      split; [reflexivity|].
      apply (within_trans _ _ _ _ _ _ H1), (within_trans _ _ _ _ _ _ Hi).
      unfold bind. rewrite log_warning_run. cbn [snd raise].
      apply (keeps_log_warning true true passive _ _ _ w2). }
  unfold base in *. destruct delete_live; cbn [negb] in *; now apply Hrun.
Qed.

(** Scenario C: a folder of run 123 on eb1, and no document for run 123. *)
Lemma remove_if_unregistered_unknown_run_123 :
  fst (remove_if_unregistered eb1 123 false "/data/pre_processed" nowhere_world)
  = Raise (TypeError "'NoneType' object is not subscriptable")
  /\ fs (snd (remove_if_unregistered eb1 123 false "/data/pre_processed" nowhere_world))
     = fs nowhere_world.
Proof.
  destruct (remove_if_unregistered_unknown_run eb1 123 false "/data/pre_processed"
              nowhere_world eq_refl eq_refl) as (Hr & Hfs & _).
  split; [exact Hr|exact Hfs].
Defined.

(** ** [clean_unregistered] *)

Lemma In_insert_unique x y l : In x (PyLib.insert_unique y l) -> x = y \/ In x l.
Proof.
  induction l as [|z l IH]; simpl.
  - intros [H|[]]. now left.
  - destruct (String.compare y z); simpl.
    + tauto.
    + intros [H|H]; [now left|now right].
    + intros [H|H]; [right; now left|]. destruct (IH H); [now left|right; now right].
Qed.

Lemma In_unique x l :
  In x (PyLib.unique l) -> exists y, In y l /\ x = PyLib.rstrip_nul y.
Proof.
  unfold PyLib.unique. induction l as [|y l IH]; simpl; [intros []|].
  intros H. destruct (In_insert_unique _ _ _ H) as [->|H'].
  - exists y. split; [now left|reflexivity].
  - destruct (IH H') as (z & Hz & ->). exists z. split; [now right|reflexivity].
Qed.

Lemma clean_unregistered_runs_registered e delete_live clean_from w0 run_ids :
  (forall run_id, In run_id run_ids ->
     exists n rd,
       PyLib.int_of_str run_id = Some n
       /\ List.find (number_on_host n (if negb delete_live then hostname e else "daq"))
                    (run_coll w0) = Some rd
       /\ any_location_under clean_from (data rd) = Ok true) ->
  forall w, run_coll w = run_coll w0 ->
    clean_unregistered_runs e delete_live clean_from run_ids w = (Ok tt, w).
Proof.
  induction run_ids as [|run_id rest IH]; intros Hreg w Hw; [reflexivity|].
  cbn [clean_unregistered_runs].
  destruct (Hreg run_id (or_introl eq_refl)) as (n & rd & Hn & Hfind & Hloc).
  rewrite Hn. rewrite (bind_ok (of_option (Some n) _) _ w n w eq_refl).
  assert (Hone : remove_if_unregistered e n delete_live clean_from w = (Ok tt, w)).
  { unfold remove_if_unregistered.
    rewrite (bind_ok (find_one _) _ w (Some rd) w)
      by (unfold find_one; now rewrite Hw, Hfind).
    cbv zeta. rewrite bind_of_result, Hloc. reflexivity. }
  rewrite (bind_ok _ _ _ _ _ Hone).
  apply IH; [|exact Hw]. intros r Hr. apply Hreg. now right.
Qed.

(** X10. [clean_unregistered] leaves registered data alone: when the folder
    it checks exists and every name in it starts with a run number whose
    document has a location under the folder that is cleaned, it returns
    having done nothing but record its state and log one line, in real
    execution too. *)
Theorem clean_unregistered_leaves_registered_runs
  (e : env) (delete_live : bool) (clean_from : string) (w : world) :
  let folder_to_check := if negb delete_live then clean_from else ceph_folder e in
  let run_ids := PyLib.unique (map (fun f => hd "" (PyLib.split "-" f))
                                   (children folder_to_check (fs w))) in
  in_strings folder_to_check (fs w) = true ->
  (forall f, In f (children folder_to_check (fs w)) -> registered e delete_live clean_from w f) ->
  clean_unregistered e delete_live clean_from w
  = (Ok tt,
     add_events w
       [EvLog "info" ("clean_unregistered::	found " ++ PyStr.of_nat (length run_ids) ++
                      " runs stored on" ++ folder_to_check ++
                      ". Checking that each is in the runs-database");
        EvSetState "clean_unregistered"]).
Proof.
  intros folder_to_check run_ids Hbase Hreg. unfold clean_unregistered.
  rewrite (bind_ok (set_state "clean_unregistered") _ w tt
             (snd (set_state "clean_unregistered" w)) eq_refl).
  set (w1 := snd (set_state "clean_unregistered" w)).
  cbv zeta. fold folder_to_check.
  rewrite (bind_ok (listdir folder_to_check) _ w1 (children folder_to_check (fs w)) w1)
    by (unfold listdir; change (fs w1) with (fs w); now rewrite Hbase).
  fold run_ids.
  rewrite (bind_ok (log_info _) _ w1 tt _ eq_refl).
  apply (clean_unregistered_runs_registered e delete_live clean_from w); [|reflexivity].
  intros run_id Hin. apply In_unique in Hin. destruct Hin as (y & Hy & ->).
  apply in_map_iff in Hy. destruct Hy as (f & <- & Hin). exact (Hreg f Hin).
Qed.

(** The raw_records of Scenario B on eb1, with [/data/eb1] cleaned. *)
Lemma clean_unregistered_leaves_registered_runs_scenario_B :
  children "/data/eb1" (fs registered_world) = ["24399-raw"]
  /\ clean_unregistered eb1 false "/data/eb1" registered_world
     = (Ok tt,
        add_events registered_world
          [EvLog "info" ("clean_unregistered::	found 1 runs stored on/data/eb1" ++
                         ". Checking that each is in the runs-database");
           EvSetState "clean_unregistered"]).
Proof.
  split; [vm_compute; reflexivity|].
  refine (clean_unregistered_leaves_registered_runs eb1 false "/data/eb1" registered_world
            eq_refl _).
  intros f Hf. vm_compute in Hf. destruct Hf as [<-|[]].
  exists 24399%Z, scenario_B. repeat split.
Defined.

(** ** [delete_data] without a matching entry *)

Lemma find_all_false {A} (p : A -> bool) l :
  Forall (fun x => p x = false) l -> List.find p l = None.
Proof. induction 1 as [|x l Hx _ IH]; simpl; [reflexivity|now rewrite Hx]. Qed.

Lemma replace_nth_last x y l : replace_nth (length l) y (l ++ [x]) = (l ++ [y])%list.
Proof. induction l as [|z l IH]; simpl; [reflexivity|now rewrite IH]. Qed.

Lemma nth_error_last {A} (x : A) l : nth_error (l ++ [x]) (length l) = Some x.
Proof. induction l as [|z l IH]; simpl; [reflexivity|exact IH]. Qed.

Lemma filter_all_true {A} (p : A -> bool) l :
  Forall (fun x => p x = true) l -> filter p l = l.
Proof. induction 1 as [|x l Hx _ IH]; simpl; [reflexivity|now rewrite Hx, IH]. Qed.

(** X11. A deletion that finds no entry to remove records another one. In
    real execution, when the path is absent and no entry of the run has the
    data type on "daq" or on this host, [delete_data] raises nothing: it
    takes the last entry of [data], whatever its type and host, strips and
    stamps it, and sends the update. In the document the update leaves
    [data] as it is and adds the record of that last entry to
    [deleted_data]. *)
Theorem delete_data_without_a_matching_entry
  (e : env) (rd : rundoc) (path data_type reason : string) (ignore : bool) (w : world)
  (rest : list ddoc) (last_entry : ddoc) :
  args_production e = true ->
  may_delete rd data_type ignore = true ->
  in_strings path (fs w) = false ->
  confirmed e (stdin w) = Ok true ->
  data rd = (rest ++ [last_entry])%list ->
  Forall (fun d => Dict.get "type" d <> None /\ Dict.get "host" d <> None) (data rd) ->
  Forall (fun d => pull_matches (hostname e) data_type d = false) (data rd) ->
  let record := deletion_record (hostname e) reason (clock w) last_entry in
  delete_data e path data_type false ignore reason (rd, w)
  = (Ok tt,
     (set_data rd (rest ++ [record]),
      mkWorld (fs w)
              (update_first (rd_id rd) (apply_update (hostname e) record data_type)
                            (run_coll w))
              (clock w) (after_confirm e (stdin w))
              (EvUpdateOne (rd_id rd) record data_type
               :: EvLog "info" "update with {ddoc}"
               :: EvLog "info" "changing data field in rundoc"
               :: EvLog "info" ("There is no data on " ++ path ++ "! Just doing the rundoc.")
               :: trace w)))
  /\ data (apply_update (hostname e) record data_type rd) = data rd
  /\ deleted_data (apply_update (hostname e) record data_type rd)
     = add_to_set record (deleted_data rd).
Proof.
  intros Hprod Hmay Habs Hyes Hdata Hall Hnone record.
  assert (Hty : typed rd).
  { unfold typed. eapply Forall_impl; [|exact Hall]. now intros d [H _]. }
  assert (Hguard : low_data_check e data_type false ignore (rd, w) = (Ok tt, (rd, w))).
  { rewrite (low_data_check_run _ _ _ _ _ _ Hty). now rewrite Hmay. }
  assert (Hsel : select_ddoc (hostname e) data_type (data rd) 0 = Ok (length rest)).
  { pose proof (select_ddoc_first (hostname e) data_type (data rd) Hall 0) as H.
    rewrite (find_all_false _ _ Hnone) in H. rewrite H, Hdata.
    rewrite length_app. simpl. now rewrite Nat.add_1_r. }
  assert (Hnth : nth_error (data rd) (length rest) = Some last_entry).
  { rewrite Hdata. apply nth_error_last. }
  split; [|split].
  - pose proof (delete_data_absent e rd path data_type ignore reason w (length rest)
                  last_entry Hprod Hguard Habs Hsel Hnth Hyes) as Hrun.
    cbv zeta in Hrun. rewrite Hrun. fold record.
    rewrite Hdata at 1. now rewrite replace_nth_last.
  - simpl. apply filter_all_true. eapply Forall_impl; [|exact Hnone].
    intros d Hd. simpl in Hd. now rewrite Hd.
  - reflexivity.
Qed.

(** Scenario B on eb1, asked to delete peaks that were never registered: the
    record of the live data enters [deleted_data]. *)
Lemma delete_data_without_a_matching_entry_scenario_B :
  let record := deletion_record "eb1" "manual" (clock world_B) live_on_daq in
  delete_data eb1 "/data/eb1/24399-peaks" "peaks" false false "manual" (scenario_B, world_B)
  = (Ok tt,
     (set_data scenario_B [raw_on_eb1; record],
      mkWorld (fs world_B)
              (update_first 1 (apply_update "eb1" record "peaks") (run_coll world_B))
              (clock world_B) []
              (EvUpdateOne 1 record "peaks"
               :: EvLog "info" "update with {ddoc}"
               :: EvLog "info" "changing data field in rundoc"
               :: EvLog "info" "There is no data on /data/eb1/24399-peaks! Just doing the rundoc."
               :: trace world_B)))
  /\ data (apply_update "eb1" record "peaks" scenario_B) = [raw_on_eb1; live_on_daq]
  /\ deleted_data (apply_update "eb1" record "peaks" scenario_B) = [record].
Proof.
  refine (delete_data_without_a_matching_entry eb1 scenario_B "/data/eb1/24399-peaks" "peaks"
            "manual" false world_B [raw_on_eb1] live_on_daq
            eq_refl eq_refl eq_refl eq_refl eq_refl _ _).
  - repeat constructor; discriminate.
  - repeat constructor.
Defined.

(** ** The operator's answers in [delete_data] *)

Lemma confirmed_false_asks e l : confirmed e l = Ok false -> args_ask_confirm e = true.
Proof. unfold confirmed. destruct (args_ask_confirm e); [trivial|discriminate]. Qed.

(** X12. Declining the removal is no error. In real execution, when the path
    exists and the operator answers no to the removal, [delete_data] returns
    normally with the disk, the runs collection and the run document in
    memory as they were: its only trace is two log lines, the second saying
    that the deletion finished. *)
Theorem delete_data_removal_declined
  (e : env) (rd : rundoc) (path data_type reason : string) (ignore : bool) (w : world) :
  args_production e = true ->
  typed rd ->
  may_delete rd data_type ignore = true ->
  in_strings path (fs w) = true ->
  confirmed e (stdin w) = Ok false ->
  delete_data e path data_type false ignore reason (rd, w)
  = (Ok tt,
     (rd,
      mkWorld (fs w) (run_coll w) (clock w) (after_confirm e (stdin w))
              (EvLog "info" ("deleting " ++ path ++ " finished")
               :: EvLog "info" ("Deleting data at " ++ path)
               :: trace w))).
Proof.
  intros Hprod Hty Hmay Hpres Hno.
  pose proof (confirmed_false_asks _ _ Hno) as Hask.
  assert (Hguard : low_data_check e data_type false ignore (rd, w) = (Ok tt, (rd, w))).
  { rewrite (low_data_check_run _ _ _ _ _ _ Hty). now rewrite Hmay. }
  unfold delete_data. rewrite (bind_ok _ _ _ _ _ Hguard).
  unfold _rmtree, rmtree.
  unfold bind, lift, path_exists, log_info, emit, get_rd, of_result, of_option, put_rd, now.
  repeat (run_cbn;
          progress (try rewrite Hpres; try rewrite Hprod; try rewrite Hask;
                    try (rewrite confirm_run; run_cbn; rewrite Hno))).
  reflexivity.
Qed.

Lemma delete_data_removal_declined_scenario_B :
  delete_data eb1_ask "/data/eb1/24399-raw" "raw_records" false false "manual"
              (scenario_B, world_B_answers ["n"])
  = (Ok tt,
     (scenario_B,
      mkWorld (fs world_B) (run_coll world_B) (clock world_B) []
              [EvLog "info" "deleting /data/eb1/24399-raw finished";
               EvLog "info" "Deleting data at /data/eb1/24399-raw"])).
Proof.
  refine (delete_data_removal_declined eb1_ask scenario_B "/data/eb1/24399-raw" "raw_records"
            "manual" false (world_B_answers ["n"]) eq_refl _ eq_refl eq_refl eq_refl).
  repeat constructor; discriminate.
Defined.

(** X13. Declining the update leaves the registry behind the disk. In real
    execution, when the path exists, the operator grants the removal and
    then answers no to the update, [delete_data] returns normally with the
    path removed and the runs collection untouched: the document still lists
    the location that is gone. Only the run document in memory has the
    entry stripped and stamped. *)
Theorem delete_data_update_declined
  (e : env) (rd : rundoc) (path data_type reason : string) (ignore : bool) (w : world)
  (i : nat) (old : ddoc) :
  args_production e = true ->
  typed rd ->
  may_delete rd data_type ignore = true ->
  in_strings path (fs w) = true ->
  select_ddoc (hostname e) data_type (data rd) 0 = Ok i ->
  nth_error (data rd) i = Some old ->
  confirmed e (stdin w) = Ok true ->
  confirmed e (after_confirm e (stdin w)) = Ok false ->
  let record := deletion_record (hostname e) reason (clock w) old in
  delete_data e path data_type false ignore reason (rd, w)
  = (Ok tt,
     (set_data rd (replace_nth i record (data rd)),
      mkWorld (filter (fun q => negb (under path q)) (fs w)) (run_coll w) (clock w)
              (after_confirm e (after_confirm e (stdin w)))
              (EvLog "info" "update with {ddoc}"
               :: EvLog "info" "changing data field in rundoc"
               :: EvLog "info" ("deleting " ++ path ++ " finished")
               :: EvRmtree path
               :: EvLog "info" ("Deleting data at " ++ path)
               :: trace w))).
Proof.
  intros Hprod Hty Hmay Hpres Hsel Hnth Hyes Hno record.
  assert (Hguard : low_data_check e data_type false ignore (rd, w) = (Ok tt, (rd, w))).
  { rewrite (low_data_check_run _ _ _ _ _ _ Hty). now rewrite Hmay. }
  unfold delete_data. rewrite (bind_ok _ _ _ _ _ Hguard).
  unfold _rmtree, rmtree.
  unfold bind, lift, path_exists, log_info, emit, get_rd, of_result, of_option, put_rd, now.
  repeat (run_cbn;
          progress (try rewrite Hpres; try rewrite Hprod; try rewrite rmtree_removes;
                    try rewrite Hsel; try rewrite Hnth;
                    try (rewrite confirm_run; run_cbn;
                         first [rewrite Hyes | rewrite Hno]))).
  rewrite Z.add_0_r. reflexivity.
Qed.

Lemma delete_data_update_declined_scenario_B :
  let record := deletion_record "eb1" "manual" (clock world_B) raw_on_eb1 in
  delete_data eb1_ask "/data/eb1/24399-raw" "raw_records" false false "manual"
              (scenario_B, world_B_answers ["y"; "n"])
  = (Ok tt,
     (set_data scenario_B [record; live_on_daq],
      mkWorld ["/live_data/xenonnt"; "/live_data/xenonnt/024399"] [scenario_B]
              (clock world_B) []
              [EvLog "info" "update with {ddoc}";
               EvLog "info" "changing data field in rundoc";
               EvLog "info" "deleting /data/eb1/24399-raw finished";
               EvRmtree "/data/eb1/24399-raw";
               EvLog "info" "Deleting data at /data/eb1/24399-raw"])).
Proof.
  refine (delete_data_update_declined eb1_ask scenario_B "/data/eb1/24399-raw" "raw_records"
            "manual" false (world_B_answers ["y"; "n"]) 0 raw_on_eb1
            eq_refl _ eq_refl eq_refl eq_refl eq_refl eq_refl eq_refl).
  repeat constructor; discriminate.
Defined.

(** ** Names that [clean_unregistered] and [clean_old_hash] cannot read *)

Lemma In_insert_unique_back x y l : x = y \/ In x l -> In x (PyLib.insert_unique y l).
Proof.
  induction l as [|z l IH]; simpl.
  - intros [->|[]]. now left.
  - destruct (String.compare y z) eqn:E; simpl.
    + apply String.compare_eq_iff in E. subst z. intros [->|H]; [now left|exact H].
    + intros [->|H]; [now left|now right].
    + intros [->|[->|H]]; [right; apply IH; now left|now left|right; apply IH; now right].
Qed.

Lemma In_unique_back x l : In x l -> In (PyLib.rstrip_nul x) (PyLib.unique l).
Proof.
  unfold PyLib.unique. induction l as [|y l IH]; simpl; [trivial|].
  intros [->|H]; apply In_insert_unique_back; [now left|right; now apply IH].
Qed.

Lemma clean_unregistered_runs_stray e delete_live clean_from run_ids :
  (exists run_id, In run_id run_ids /\ PyLib.int_of_str run_id = None) ->
  forall w, exists x, fst (clean_unregistered_runs e delete_live clean_from run_ids w) = Raise x.
Proof.
  induction run_ids as [|r rest IH]; intros (bad & Hin & Hbad) w; [destruct Hin|].
  cbn [clean_unregistered_runs].
  destruct (PyLib.int_of_str r) as [n|] eqn:En.
  - rewrite (bind_ok (of_option (Some n) _) _ w n w eq_refl).
    destruct (remove_if_unregistered e n delete_live clean_from w) as [[[]|x] w1] eqn:E1.
    + rewrite (bind_ok _ _ _ _ _ E1). apply IH. exists bad. split; [|exact Hbad].
      destruct Hin as [->|H]; [congruence|exact H].
    + exists x. unfold bind. now rewrite E1.
  - eexists. unfold bind, of_option. reflexivity.
Qed.

(** X14. One stray name stops [clean_unregistered]: when the folder it checks
    holds a name whose part before the first dash is not a number,
    [clean_unregistered] does not return normally, it ends in an exception
    (the ValueError of [int], unless a run that comes earlier in the sorted
    list raised first). *)
Theorem clean_unregistered_stops_on_a_stray_name
  (e : env) (delete_live : bool) (clean_from : string) (w : world) (f : string) :
  In f (children (if negb delete_live then clean_from else ceph_folder e) (fs w)) ->
  PyLib.int_of_str (run_id_of f) = None ->
  exists x, fst (clean_unregistered e delete_live clean_from w) = Raise x.
Proof.
  intros Hin Hbad. unfold clean_unregistered.
  rewrite (bind_ok (set_state "clean_unregistered") _ w tt
             (snd (set_state "clean_unregistered" w)) eq_refl).
  set (w1 := snd (set_state "clean_unregistered" w)).
  cbv zeta. set (folder := if negb delete_live then clean_from else ceph_folder e) in *.
  unfold bind at 1. unfold listdir. change (fs w1) with (fs w).
  destruct (in_strings folder (fs w)); [|eexists; reflexivity].
  rewrite (bind_ok (log_info _) _ w1 tt _ eq_refl).
  apply clean_unregistered_runs_stray.
  exists (run_id_of f). split; [|exact Hbad].
  apply In_unique_back. apply in_map_iff. exists f. split; [reflexivity|exact Hin].
Qed.

(** A folder "tmp" beside the registered raw_records of Scenario B. *)
Lemma clean_unregistered_stops_on_a_stray_name_tmp :
  exists x,
    fst (clean_unregistered eb1 false "/data/eb1"
           (world_of ["/data/eb1"; "/data/eb1/24399-raw"; "/data/eb1/tmp"] [scenario_B]))
    = Raise x.
Proof.
  refine (clean_unregistered_stops_on_a_stray_name eb1 false "/data/eb1"
            (world_of ["/data/eb1"; "/data/eb1/24399-raw"; "/data/eb1/tmp"] [scenario_B])
            "tmp" _ eq_refl).
  vm_compute. right. now left.
Defined.

Lemma prefix_app a b s : String.prefix (a ++ b) s = true -> String.prefix a s = true.
Proof.
  revert s. induction a as [|c a IH]; intros s; simpl.
  - now destruct s.
  - destruct s as [|c' s]; simpl; [discriminate|].
    destruct (Ascii.ascii_dec c c'); [|discriminate].
    intros H. apply IH. exact H.
Qed.

Lemma contains_app a b s : PyStr.contains (a ++ b) s = true -> PyStr.contains a s = true.
Proof.
  induction s as [|c s IH]; cbn [PyStr.contains]; rewrite !orb_true_iff.
  - intros [H|H]; [left; now apply (prefix_app a b)|discriminate].
  - intros [H|H]; [left; now apply (prefix_app a b)|right; now apply IH].
Qed.

Lemma raw_records_low_level t : PyStr.contains "raw_records" t = true -> is_low_level t = true.
Proof.
  intros H. unfold is_low_level, low_level_stems. cbn [existsb].
  now rewrite (contains_app "raw_record" "s" t H).
Qed.

(** X15. [clean_old_hash] passes over raw_records without a trace: a file of
    three parts whose data type contains raw_records is skipped by the test
    on the low-level types, with no log line, no query and no error, so the
    later check that raises the "sloppy regex" ValueError is never reached
    with such a type. *)
Theorem clean_old_hash_skips_raw_records
  (st : context) (e : env) (f run_id data_type lineage_hash : string) (files : list string)
  (w : world) :
  PyLib.split "-" f = [run_id; data_type; lineage_hash] ->
  PyStr.contains "raw_records" data_type = true ->
  clean_old_hash_files st e (f :: files) w = clean_old_hash_files st e files w.
Proof.
  intros Hsplit Hraw. cbn [clean_old_hash_files]. rewrite Hsplit.
  rewrite (raw_records_low_level _ Hraw). reflexivity.
Qed.

Lemma clean_old_hash_skips_raw_records_of_24399 :
  clean_old_hash_files peaks_context eb1
    ["024399-raw_records_aqmon-abc"; "024399-peaks-new"] old_hash_world
  = clean_old_hash_files peaks_context eb1 ["024399-peaks-new"] old_hash_world.
Proof.
  exact (clean_old_hash_skips_raw_records peaks_context eb1 "024399-raw_records_aqmon-abc"
           "024399" "raw_records_aqmon" "abc" ["024399-peaks-new"] old_hash_world
           eq_refl eq_refl).
Defined.

Lemma clean_old_hash_files_odd_name st e files :
  (exists f, In f files /\ length (PyLib.split "-" f) <> 3) ->
  forall w, exists x, fst (clean_old_hash_files st e files w) = Raise x.
Proof.
  induction files as [|g rest IH]; intros (bad & Hin & Hbad) w; [destruct Hin|].
  cbn [clean_old_hash_files].
  destruct (PyLib.split "-" g) as [|a [|b [|c [|d parts]]]] eqn:Eg;
    try (eexists; reflexivity).
  match goal with
  | |- exists x, fst (bind ?m _ w) = Raise x =>
      set (m0 := m); destruct (m0 w) as [[[]|x] w1] eqn:E1
  end.
  - rewrite (bind_ok m0 _ _ _ _ E1). apply IH. exists bad. split; [|exact Hbad].
    destruct Hin as [->|H]; [|exact H]. rewrite Eg in Hbad. now elim Hbad.
  - exists x. unfold bind. now rewrite E1.
Qed.

(** X16. One odd name stops [clean_old_hash]: when the output folder holds a
    name that does not split into exactly three parts at its dashes,
    [clean_old_hash] does not return normally, it ends in an exception (the
    ValueError of the unpacking, unless a file that comes earlier raised
    first). *)
Theorem clean_old_hash_stops_on_an_odd_name
  (st : context) (e : env) (w : world) (f : string) :
  In f (children (output_folder e) (fs w)) ->
  length (PyLib.split "-" f) <> 3 ->
  exists x, fst (clean_old_hash st e w) = Raise x.
Proof.
  intros Hin Hbad. unfold clean_old_hash.
  rewrite (bind_ok (set_state "clean_old_hash") _ w tt
             (snd (set_state "clean_old_hash" w)) eq_refl).
  set (w1 := snd (set_state "clean_old_hash" w)).
  unfold bind at 1. unfold listdir. change (fs w1) with (fs w).
  destruct (in_strings (output_folder e) (fs w)); [|eexists; reflexivity].
  apply clean_old_hash_files_odd_name. exists f. now split.
Qed.

(** A data type written with a dash. *)
Lemma clean_old_hash_stops_on_an_odd_name_with_a_dash :
  exists x,
    fst (clean_old_hash peaks_context eb1
           (world_of ["/data/xenonnt_processed";
                      "/data/xenonnt_processed/024399-peak-basics-abc"] []))
    = Raise x.
Proof.
  refine (clean_old_hash_stops_on_an_odd_name peaks_context eb1
            (world_of ["/data/xenonnt_processed";
                       "/data/xenonnt_processed/024399-peak-basics-abc"] [])
            "024399-peak-basics-abc" _ _).
  - vm_compute. now left.
  - vm_compute. discriminate.
Defined.

(** ** [main_ajax] with a run number *)

(** X17. A run number that is not registered with data on the host asked
    for (this host, or "daq" with [--delete_live]) is no error: [main_ajax]
    reports it at priority info, waits for the threads and returns, with the
    disk and the runs collection as they were. *)
Theorem main_ajax_unknown_number
  (st : context) (depth rounds : nat) (e : env) (a : cli) (n : Z) (w : world) :
  given_number a = Some n ->
  List.find (number_on_host n (if negb (args_delete_live a) then hostname e else "daq"))
            (run_coll w) = None ->
  let message := "No registered data for " ++ PyStr.of_Z n ++ " on " ++ hostname e in
  main_ajax st depth rounds e a w
  = (Ok Returned,
     add_events w
       [EvLog "info" ("wait_on_delete_thread::	Checked that all " ++ thread_prefix ++
                      "* finished");
        EvJoinThreads;
        EvReport "info" (Some (PyStr.format06 n)) message;
        EvLog "info" message]).
Proof.
  intros Hn Hfind message. unfold main_ajax. rewrite Hn.
  unfold main_ajax_number, remove_run_from_host.
  unfold bind at 1 2 3. unfold find_one. rewrite Hfind. reflexivity.
Qed.

Lemma main_ajax_unknown_number_7 :
  main_ajax no_plugins 3 2 eb1 (mkCli (Some 7%Z) None false) world_B
  = (Ok Returned,
     add_events world_B
       [EvLog "info" "wait_on_delete_thread::	Checked that all ajax_delete* finished";
        EvJoinThreads;
        EvReport "info" (Some "000007") "No registered data for 7 on eb1";
        EvLog "info" "No registered data for 7 on eb1"]).
Proof.
  exact (main_ajax_unknown_number no_plugins 3 2 eb1 (mkCli (Some 7%Z) None false) 7 world_B
           eq_refl eq_refl).
Defined.

(** ** What [clean_unregistered] does *)

Section SetAside.

Variables (e : env) (delete_live : bool) (clean_from : string) (runs : list rundoc).

#[local] Abbreviation P := (setting_aside e delete_live clean_from runs).
#[local] Abbreviation base := (if negb delete_live then clean_from else ceph_folder e).

#[local] Instance setting_aside_lenient : Lenient P.
Proof. intros [] H; simpl in *; try exact I; discriminate H. Qed.

#[local] Instance sets_aside_stepwise : Stepwise (sets_aside e delete_live clean_from runs).
Proof.
  split.
  - intros w _. apply within_refl.
  - intros a b c Hab Hbc Ha. specialize (Hab Ha).
    assert (Hb : run_coll b = runs) by (destruct Hab as (_ & Hc & _); now rewrite Hc).
    exact (within_trans _ _ _ _ _ _ Hab (Hbc Hb)).
Qed.

Lemma keeps_sets_aside {A} (m : M A) :
  keeps world_of_world (within false true P) m ->
  follows (sets_aside e delete_live clean_from runs) m.
Proof. intros H w _. exact (H w). Qed.

Lemma remove_unregistered_folders_aside n folders :
  unregistered e delete_live clean_from runs n ->
  forall deleted_data,
    keeps world_of_world (within false true P)
      (remove_unregistered_folders e base (PyStr.format06 n) folders deleted_data).
Proof.
  intros Hn. induction folders as [|folder rest IH]; intros deleted_data;
    cbn [remove_unregistered_folders]; [keeps_auto|].
  destruct (PyStr.contains (PyStr.format06 n) folder) eqn:Hin; [|apply IH].
  repeat first
    [ apply IH
    | apply keeps_move; [reflexivity|exists folder, n; repeat split; assumption]
    | keeps_step ].
Qed.

Lemma _remove_unregistered_run_aside n :
  unregistered e delete_live clean_from runs n ->
  keeps world_of_world (within false true P)
    (_remove_unregistered_run e base (PyStr.format06 n) true).
Proof.
  intros Hn. unfold _remove_unregistered_run. cbn [negb].
  repeat first [apply (remove_unregistered_folders_aside n _ Hn) | keeps_step].
Qed.

Lemma unregistered_run_aside n :
  unregistered e delete_live clean_from runs n ->
  keeps world_of_world (within false true P)
    (log_warning ("remove_if_unregistered::	run " ++ PyStr.of_Z n ++
                  " is NOT registered in the runDB but is stored on " ++ hostname e)
                 "error" (Some (PyStr.format06 n)) ;;
     if negb delete_live then _remove_unregistered_run e clean_from (PyStr.format06 n) true
     else _remove_unregistered_run e (ceph_folder e) (PyStr.format06 n) true).
Proof.
  intros Hn. apply keeps_bind; [keeps_auto|intros ?].
  match goal with
  | |- keeps _ _ ?m =>
      replace m with (_remove_unregistered_run e base (PyStr.format06 n) true)
        by now destruct delete_live
  end.
  now apply _remove_unregistered_run_aside.
Qed.

Lemma remove_if_unregistered_aside n :
  follows (sets_aside e delete_live clean_from runs)
    (remove_if_unregistered e n delete_live clean_from).
Proof.
  intros w Hw. unfold remove_if_unregistered.
  rewrite (bind_ok (find_one _) _ w _ w eq_refl). cbv zeta.
  pose proof (unregistered_run_aside n) as Hrun.
  unfold unregistered in Hrun. unfold find_one. cbn [fst snd]. rewrite Hw.
  destruct (List.find _ runs) as [rd|].
  - rewrite bind_of_result.
    destruct (any_location_under clean_from (data rd)) as [[|]|x] eqn:Eloc;
      try apply within_refl.
    exact (Hrun eq_refl w).
  - exact (Hrun I w).
Qed.

Lemma clean_unregistered_runs_aside run_ids :
  follows (sets_aside e delete_live clean_from runs)
    (clean_unregistered_runs e delete_live clean_from run_ids).
Proof.
  induction run_ids as [|run_id rest IH]; cbn [clean_unregistered_runs].
  - apply follows_ret. exact _.
  - apply follows_bind; [exact _|apply follows_of_option; exact _|intros n].
    apply follows_bind; [exact _|apply remove_if_unregistered_aside|intros ?; exact IH].
Qed.

Lemma clean_unregistered_aside :
  follows (sets_aside e delete_live clean_from runs)
    (clean_unregistered e delete_live clean_from).
Proof.
  unfold clean_unregistered.
  apply follows_bind; [exact _|apply keeps_sets_aside; keeps_auto|intros ?]. cbv zeta.
  apply follows_bind; [exact _|apply keeps_sets_aside; keeps_auto|intros all_data].
  apply follows_bind; [exact _|apply keeps_sets_aside; keeps_auto|intros ?].
  apply clean_unregistered_runs_aside.
Qed.

End SetAside.

(** X18. [clean_unregistered] sets aside, it never deletes: it leaves the
    runs collection as it is, removes no path and starts no thread, and
    every move takes a folder whose name contains the identifier of a run
    that the collection does not register (no document with that number on
    the host asked for, or none of its locations under the folder that is
    cleaned) from the folder it checks to the folder for unregistered data,
    under the same name. *)
Theorem clean_unregistered_sets_unregistered_data_aside
  (e : env) (delete_live : bool) (clean_from : string) (w : world) :
  run_coll (snd (clean_unregistered e delete_live clean_from w)) = run_coll w
  /\ exists new,
       trace (snd (clean_unregistered e delete_live clean_from w)) = (new ++ trace w)%list
       /\ Forall (setting_aside e delete_live clean_from (run_coll w)) new.
Proof.
  destruct (clean_unregistered_aside e delete_live clean_from (run_coll w) w eq_refl)
    as (_ & Hcoll & Hnew).
  split; [now apply Hcoll|exact Hnew].
Qed.

(** ** What [clean_non_latest] does *)

#[local] Instance non_latest_removal_run_lenient e rd : Lenient (non_latest_removal_run e rd).
Proof. apply allowed_lenient. Qed.

#[local] Instance non_latest_removal_lenient e w : Lenient (non_latest_removal e w).
Proof. apply allowed_lenient. Qed.

Section NonLatest.

Variables (e : env) (rd0 : rundoc).

#[local] Abbreviation Pnl := (non_latest_removal_run e rd0).
#[local] Abbreviation Rnl := (from_run Pnl rd0).

Lemma clean_non_latest_step i rd w :
  Rnl (rd, w)
    (snd (match nth_error (data rd) i with
          | None => ret tt
          | Some ddoc =>
              if host_is (hostname e) ddoc then
                loc <- getitem_str "location" ddoc ;;
                ex <- lift (path_exists loc) ;;
                let loc := if ex then loc else loc ++ "_temp" in
                lift (log_info ("clean_non_latest::	delete data at " ++ loc)) ;;
                ty <- getitem_str "type" ddoc ;;
                delete_data e loc ty (negb (args_production e)) false "non latest"
              else ret tt
          end (rd, w))).
Proof.
  destruct (nth_error (data rd) i) as [ddoc|] eqn:Hn; [|apply (stepwise_refl (R := Rnl))].
  destruct (host_is (hostname e) ddoc) eqn:Hh; [|apply (stepwise_refl (R := Rnl))].
  rewrite bind_getitem_str.
  destruct (Dict.get "location" ddoc) as [[loc| |]|] eqn:Hl;
    try apply (stepwise_refl (R := Rnl)).
  rewrite bind_path_exists. cbv zeta.
  set (p := if in_strings loc (fs w) then loc else loc ++ "_temp").
  assert (Hp : p = loc \/ p = loc ++ "_temp")
    by (unfold p; destruct (in_strings loc (fs w)); [now left|now right]).
  rewrite bind_lift_log_info, bind_getitem_str.
  set (w1 := snd (log_info _ w)).
  intros Hf. cbn [fst snd] in Hf.
  assert (Hlog : within false false Pnl w w1)
    by (apply (keeps_log_info false false Pnl _ w)).
  destruct (Dict.get "type" ddoc) as [[ty| |]|] eqn:Hty;
    try (split; [exact Hlog|exact Hf]).
  destruct (Forall2_nth_error_r _ _ _ i ddoc (proj2 (proj2 Hf)) Hn)
    as (d & Hd & [[Ht Hho] Hlo]).
  assert (Hentry : entry_on_host e rd0 loc ty).
  { exists d. split; [exact (nth_error_In _ _ Hd)|].
    split; [unfold host_is in *; now rewrite Hho|].
    split; [destruct Hlo as [Hlo|Hlo]; congruence|congruence]. }
  assert (Hid : rd_id (fst (rd, w1)) = rd_id rd0) by (destruct Hf as [H _]; exact H).
  destruct (delete_data_acts Pnl e (rd_id rd0) p ty (negb (args_production e)) false
              "non latest" (fun added => conj eq_refl (ex_intro _ loc Hentry))
              false (rd, w1) Hid) as [W F].
  - intros _. split; [reflexivity|]. exists loc, ty. now split.
  - split; [exact (within_trans _ _ _ _ _ _ Hlog W)|exact (fades_trans _ _ _ Hf F)].
Qed.

Lemma clean_non_latest_ddocs_own rounds :
  forall i, follows Rnl (clean_non_latest_ddocs e rounds i).
Proof.
  induction rounds as [|rounds IH]; intros i; cbn [clean_non_latest_ddocs].
  - apply follows_ret. exact _.
  - intros [rd w]. rewrite bind_get_rd. cbn [fst].
    apply follows_bind_at; [exact _|apply clean_non_latest_step|].
    intros a s' _. apply IH.
Qed.

End NonLatest.

Lemma clean_non_latest_runs_own e w0 rds :
  (forall rd, In rd rds -> In rd (filter (non_latest_query e w0) (run_coll w0))) ->
  forall w,
    within false false (non_latest_removal e w0) w (snd (clean_non_latest_runs e rds w)).
Proof.
  induction rds as [|rd rds IH]; intros Hsel w; cbn [clean_non_latest_runs].
  - apply within_refl.
  - rewrite bind_of_result.
    destruct (raw_records_elsewhere (hostname e) (data rd)) as [[|]|x] eqn:Hraw;
      try apply within_refl.
    cbn [negb].
    assert (H1 : within false false (non_latest_removal e w0) w
                   (snd (with_rd rd (clean_non_latest_ddocs e (length (data rd)) 0) w))).
    { unfold with_rd.
      destruct (clean_non_latest_ddocs_own e rd (length (data rd)) 0 (rd, w) (fades_refl rd))
        as [W _].
      destruct (clean_non_latest_ddocs e (length (data rd)) 0 (rd, w)) as [r [rd' w']].
      cbn [snd] in *.
      assert (Hrun : non_latest_run e w0 rd) by (split; [apply Hsel; now left|exact Hraw]).
      apply (within_weaken _ _ _ _ _ _ _ _ W); trivial.
      intros [] Hev; simpl in *; trivial.
      - destruct Hev as (loc & t & Hent & Hp). now exists rd, loc, t.
      - destruct Hev as (Hid & loc & Hent). now exists rd, loc. }
    unfold bind.
    destruct (with_rd rd (clean_non_latest_ddocs e (length (data rd)) 0) w)
      as [[[]|x] w1]; cbn [snd] in *; [|exact H1].
    apply (within_trans _ _ _ _ _ _ H1). apply IH.
    intros r Hr. apply Hsel. now right.
Qed.

(** X19. [clean_non_latest] only removes what runs with raw_records elsewhere
    have on this host: every path it removes is the location of an entry on
    this host (or that location with "_temp" added), and every update pulls
    the type of such an entry from the document, of a run that its query
    selected and that has raw_records registered on another host; it moves
    nothing and starts no thread. *)
Theorem clean_non_latest_removes_own_copies_only (e : env) (w : world) :
  exists new,
    trace (snd (clean_non_latest e w)) = (new ++ trace w)%list
    /\ Forall (non_latest_removal e w) new.
Proof.
  cut (within false false (non_latest_removal e w) w (snd (clean_non_latest e w))).
  { intros (_ & _ & Hnew). exact Hnew. }
  unfold clean_non_latest.
  rewrite (bind_ok (set_state "clean_non_latest") _ w tt
             (snd (set_state "clean_non_latest" w)) eq_refl).
  set (w1 := snd (set_state "clean_non_latest" w)).
  assert (H1 : within false false (non_latest_removal e w) w w1)
    by (apply (keeps_set_state false false _ "clean_non_latest" w)).
  apply (within_trans _ _ _ _ _ _ H1).
  rewrite (bind_ok (now _) _ w1 _ w1 eq_refl).
  rewrite (bind_ok (find_all _) _ w1 _ w1 eq_refl).
  apply (clean_non_latest_runs_own e w).
  intros rd Hrd. exact Hrd.
Qed.

(** ** What the cleaning sequence can raise *)

Section RaisesOnly.

Context {S : Type}.

Lemma raises_ret {A} (a : A) : raises_only caught (@ret S A a).
Proof. intros s x s' H. discriminate H. Qed.

Lemma raises_raise {A} (x : exn) : caught x -> raises_only caught (@raise S A x).
Proof. intros Hx s y s' H. inversion H; subst. exact Hx. Qed.

Lemma raises_of_result {A} (r : result A) :
  (forall x, r = Raise x -> caught x) -> raises_only caught (@of_result S A r).
Proof. intros Hr s x s' H. inversion H; subst. now apply Hr. Qed.

Lemma raises_of_option {A} (o : option A) (x : exn) :
  caught x -> raises_only caught (@of_option S A o x).
Proof. intros Hx. destruct o; [apply raises_ret|now apply raises_raise]. Qed.

Lemma raises_getitem_str k d : raises_only caught (@getitem_str S k d).
Proof.
  unfold getitem_str. destruct (Dict.get k d) as [[]|];
    first [apply raises_ret | now apply raises_raise].
Qed.

Lemma raises_bind {A B} (m : ST S A) (f : A -> ST S B) :
  raises_only caught m -> (forall a, raises_only caught (f a)) ->
  raises_only caught (bind m f).
Proof.
  intros Hm Hf s x s' H. unfold bind in H.
  destruct (m s) as [[a|y] s1] eqn:E.
  - exact (Hf a s1 x s' H).
  - inversion H; subst. exact (Hm s x s' E).
Qed.

End RaisesOnly.

Lemma raises_emit ev : raises_only caught (emit ev).
Proof. intros w x w' H. discriminate H. Qed.

Lemma raises_log_info msg : raises_only caught (log_info msg).
Proof. apply raises_emit. Qed.

Lemma raises_log_warn msg : raises_only caught (log_warn msg).
Proof. apply raises_emit. Qed.

Lemma raises_log_error msg : raises_only caught (log_error msg).
Proof. apply raises_emit. Qed.

Lemma raises_set_state st : raises_only caught (set_state st).
Proof. apply raises_emit. Qed.

Lemma raises_log_warning message priority run_id :
  raises_only caught (log_warning message priority run_id).
Proof. unfold log_warning. apply raises_bind; [|intros ?]; apply raises_emit. Qed.

Lemma raises_now plus : raises_only caught (now plus).
Proof. intros w x w' H. discriminate H. Qed.

Lemma raises_sleep n : raises_only caught (sleep n).
Proof. intros w x w' H. discriminate H. Qed.

Lemma raises_path_exists p : raises_only caught (path_exists p).
Proof. intros w x w' H. discriminate H. Qed.

Lemma raises_find_one q : raises_only caught (find_one q).
Proof. intros w x w' H. discriminate H. Qed.

Lemma raises_find_all q : raises_only caught (find_all q).
Proof. intros w x w' H. discriminate H. Qed.

Lemma raises_update_one e id added data_type :
  raises_only caught (update_one e id added data_type).
Proof. intros w x w' H. discriminate H. Qed.

Lemma raises_confirm e question : raises_only caught (confirm e question).
Proof. intros w x w' H. now rewrite (confirm_raises _ _ _ _ _ H). Qed.

Lemma raises_rmtree path : raises_only caught (rmtree path).
Proof.
  intros w x w' H. unfold rmtree in H.
  destruct (in_strings path (fs w)); [discriminate|]. now inversion H.
Qed.

Lemma raises_wait_on_delete_thread : raises_only caught wait_on_delete_thread.
Proof.
  unfold wait_on_delete_thread.
  apply raises_bind; [apply raises_emit|intros ?; apply raises_log_info].
Qed.

Lemma raises_lift {A} (m : M A) : raises_only caught m -> raises_only caught (lift m).
Proof.
  intros Hm [rd w] x s' H. unfold lift in H. cbn [snd fst] in H.
  destruct (m w) as [r w1] eqn:E. inversion H; subst. exact (Hm w x w1 E).
Qed.

Lemma raises_get_rd : raises_only caught get_rd.
Proof. intros s x s' H. discriminate H. Qed.

Lemma raises_put_rd rd : raises_only caught (put_rd rd).
Proof. intros s x s' H. discriminate H. Qed.

Lemma raises_with_rd {A} rd (m : RD A) :
  raises_only caught m -> raises_only caught (with_rd rd m).
Proof.
  intros Hm w x w' H. unfold with_rd in H.
  destruct (m (rd, w)) as [r s1] eqn:E. inversion H; subst. exact (Hm _ x s1 E).
Qed.

Lemma count_live_and_raw_raises l :
  forall a b x, count_live_and_raw l a b = Raise x -> caught x.
Proof.
  induction l as [|d l IH]; intros a b x H; simpl in H; [discriminate|].
  destruct (Dict.get "type" d); [exact (IH _ _ _ H)|now inversion H].
Qed.

Lemma check_rundoc_raises rd x :
  check_rundoc_for_live_and_raw rd = Raise x -> caught x.
Proof.
  destruct rd as [rd|]; simpl; intros H.
  - exact (count_live_and_raw_raises _ _ _ _ H).
  - now inversion H.
Qed.

Lemma select_ddoc_raises host data_type l :
  forall i x, select_ddoc host data_type l i = Raise x -> caught x.
Proof.
  induction l as [|d l IH]; intros i x H; simpl in H.
  - destruct i; [now inversion H|discriminate].
  - destruct (Dict.get "type" d) as [t|]; [|now inversion H].
    destruct (value_eqb t (VStr data_type)); [|exact (IH _ _ H)].
    destruct (Dict.get "host" d) as [h|]; [|now inversion H].
    destruct (value_eqb h (VStr "daq") || value_eqb h (VStr host));
      [discriminate|exact (IH _ _ H)].
Qed.

Lemma raw_records_elsewhere_raises host l x :
  raw_records_elsewhere host l = Raise x -> caught x.
Proof.
  induction l as [|d l IH]; intros H; simpl in H; [discriminate|].
  destruct (Dict.get "type" d) as [t|]; [|now inversion H].
  destruct (value_eqb t (VStr "raw_records")); [|exact (IH H)].
  destruct (Dict.get "host" d) as [h|]; [|now inversion H].
  destruct (negb (value_eqb h (VStr host))); [discriminate|exact (IH H)].
Qed.

Create HintDb raises.
#[local] Hint Resolve raises_ret raises_getitem_str raises_emit raises_log_info raises_log_warn
  raises_log_error raises_set_state raises_log_warning raises_now raises_sleep
  raises_path_exists raises_find_one raises_find_all raises_update_one raises_confirm
  raises_rmtree raises_wait_on_delete_thread raises_lift raises_get_rd raises_put_rd
  raises_with_rd : raises.
#[local] Hint Extern 1 (raises_only caught (raise _)) =>
  apply raises_raise; reflexivity : raises.
#[local] Hint Extern 1 (raises_only caught (of_option _ _)) =>
  apply raises_of_option; reflexivity : raises.
#[local] Hint Extern 1 (raises_only caught (of_result (check_rundoc_for_live_and_raw _))) =>
  apply raises_of_result, check_rundoc_raises : raises.
#[local] Hint Extern 1 (raises_only caught (of_result (select_ddoc _ _ _ _))) =>
  apply raises_of_result, select_ddoc_raises : raises.
#[local] Hint Extern 1 (raises_only caught (of_result (raw_records_elsewhere _ _))) =>
  apply raises_of_result, raw_records_elsewhere_raises : raises.

(** One step of a proof about the exceptions of a program: follow its
    shape. *)
Ltac raises_step :=
  match goal with
  | |- raises_only _ (bind _ _) => apply raises_bind; [|intros]
  | |- context [let '(_, _) := ?p in _] => destruct p
  | |- context [if ?b then _ else _] => destruct b eqn:?
  | |- context [match ?x with Some _ => _ | None => _ end] => destruct x eqn:?
  | |- _ => solve [eauto with raises]
  end.

Ltac raises_auto := repeat raises_step.

Lemma raises__rmtree e path : raises_only caught (_rmtree e path).
Proof. unfold _rmtree. raises_auto. Qed.

Lemma raises_low_data_check e data_type test ignore :
  raises_only caught (low_data_check e data_type test ignore).
Proof. unfold low_data_check. raises_auto. Qed.

Lemma raises_delete_data e path data_type test ignore reason :
  raises_only caught (delete_data e path data_type test ignore reason).
Proof.
  unfold delete_data.
  repeat first [apply raises_low_data_check | apply raises_lift, raises__rmtree | raises_step].
Qed.

Lemma raises_threaded_delete_data e path data_type test ignore reason :
  raises_only caught (threaded_delete_data e path data_type test ignore reason).
Proof.
  unfold threaded_delete_data.
  apply raises_bind; [raises_auto|intros ?].
  apply raises_bind; [raises_auto|intros ?].
  apply raises_bind; [|intros ?; raises_auto].
  intros s x s' H. discriminate H.
Qed.

Lemma raises_remove_run_from_host_step e number delete_live force reason n_live n_rr i :
  raises_only caught
    (remove_run_from_host_step e number delete_live force reason n_live n_rr i).
Proof.
  unfold remove_run_from_host_step.
  repeat first [apply raises_delete_data | apply raises_threaded_delete_data | raises_step].
Qed.

Lemma raises_remove_run_from_host_loop e number delete_live force reason n_live n_rr rounds :
  forall i,
    raises_only caught
      (remove_run_from_host_loop e number delete_live force reason n_live n_rr rounds i).
Proof.
  induction rounds as [|rounds IH]; intros i; cbn [remove_run_from_host_loop];
    [raises_auto|].
  apply raises_bind; [apply raises_remove_run_from_host_step|intros ?; apply IH].
Qed.

Lemma raises_remove_run_from_host e number delete_live force reason :
  raises_only caught (remove_run_from_host e number delete_live force reason).
Proof.
  unfold remove_run_from_host.
  apply raises_bind; [raises_auto|intros [rd|]]; [|raises_auto].
  apply raises_bind; [raises_auto|intros [n_live n_rr]].
  apply raises_with_rd, raises_remove_run_from_host_loop.
Qed.

Lemma raises_clean_ceph e depth : raises_only caught (clean_ceph depth e).
Proof.
  induction depth as [|depth IH]; cbn [clean_ceph]; [raises_auto|].
  repeat first [apply raises_remove_run_from_host | apply IH | raises_step].
Qed.

Lemma raises_clean_abandoned_runs e delete_live i_max rds :
  forall i, raises_only caught (clean_abandoned_runs e delete_live i_max rds i).
Proof.
  induction rds as [|rd rds IH]; intros i; cbn [clean_abandoned_runs]; [raises_auto|].
  repeat first [apply raises_remove_run_from_host | apply IH | raises_step].
Qed.

Lemma raises_clean_abandoned e delete_live depth :
  raises_only caught (clean_abandoned depth e delete_live).
Proof.
  induction depth as [|depth IH]; cbn [clean_abandoned]; [raises_auto|].
  repeat first [apply raises_clean_abandoned_runs | apply IH | raises_step].
Qed.

Lemma raises_clean_non_latest_ddocs e rounds :
  forall i, raises_only caught (clean_non_latest_ddocs e rounds i).
Proof.
  induction rounds as [|rounds IH]; intros i; cbn [clean_non_latest_ddocs]; [raises_auto|].
  repeat first [apply raises_delete_data | apply IH | raises_step].
Qed.

Lemma raises_clean_non_latest_runs e rds :
  raises_only caught (clean_non_latest_runs e rds).
Proof.
  induction rds as [|rd rds IH]; cbn [clean_non_latest_runs]; [raises_auto|].
  repeat first [apply raises_with_rd, raises_clean_non_latest_ddocs | apply IH | raises_step].
Qed.

Lemma raises_clean_non_latest e : raises_only caught (clean_non_latest e).
Proof.
  unfold clean_non_latest.
  repeat first [apply raises_clean_non_latest_runs | raises_step].
Qed.

(** Nothing in the cleaning sequence raises KeyboardInterrupt, SystemExit or
    NotImplementedError. *)
Lemma raises_cleaning_sequence e depth : raises_only caught (cleaning_sequence depth e).
Proof.
  unfold cleaning_sequence.
  repeat first [apply raises_clean_ceph | apply raises_clean_abandoned
               | apply raises_clean_non_latest | raises_step].
Qed.

(** ** The main loop and the errors of the sequence *)

Lemma main_ajax_all_goes_on e depth :
  args_production e = true ->
  forall rounds w, fst (main_ajax_all depth e rounds w) = Ok StillRunning.
Proof.
  intros Hprod. unfold main_ajax_all.
  induction rounds as [|rounds IH]; intros w; [reflexivity|].
  cbn [main_loop]. destruct (cleaning_sequence depth e w) as [[[]|x] w1] eqn:E.
  - rewrite Hprod. cbn [negb]. apply IH.
  - rewrite (raises_cleaning_sequence e depth w x w1 E). apply IH.
Qed.

(** C6. In the loop of [--clean all], whatever the cleaning sequence raises
    is caught at the outermost loop: nothing in the sequence raises one of
    the exceptions the first [except] clause lets through, so the error is
    logged, reported with priority error, 60 seconds are slept, and the
    sequence starts again from the world the failed pass left. With
    [--production] the loop goes on whatever the passes do: after any number
    of rounds it has neither returned nor raised. An interrupt
    (KeyboardInterrupt, SystemExit) that ends a pass leaves the loop, raised
    again after the wait for the delete threads; any other exception that
    ends a pass, but NotImplementedError, which the first clause names as
    well, is treated like those of the sequence. *)
Theorem main_loop_restarts
  (e : env) (depth rounds : nat) (w w1 : world) (x : exn)
  (Hraise : cleaning_sequence depth e w = (Raise x, w1)) :
  caught x
  /\ main_ajax_all depth e (Datatypes.S rounds) w
     = main_ajax_all depth e rounds (after_backoff x w1)
  /\ (args_production e = true ->
      forall n w0, fst (main_ajax_all depth e n w0) = Ok StillRunning)
  /\ (forall (pass : M unit) n w0 w2 y,
         pass w0 = (Raise y, w2) -> interrupts y = true ->
         main_loop pass e (Datatypes.S n) w0 = (Raise y, after_drain w2))
  /\ (forall (pass : M unit) n w0 w2 y,
         pass w0 = (Raise y, w2) -> caught y ->
         main_loop pass e (Datatypes.S n) w0 = main_loop pass e n (after_backoff y w2)).
Proof.
  pose proof (raises_cleaning_sequence e depth w x w1 Hraise) as Hx.
  split; [exact Hx|]. split; [|split; [|split]].
  - unfold main_ajax_all. rewrite (main_loop_raise _ _ _ _ _ _ Hraise). now rewrite Hx.
  - intros Hprod. now apply main_ajax_all_goes_on.
  - intros pass n w0 w2 y Hpass Hy. rewrite (main_loop_raise _ _ _ _ _ _ Hpass).
    now destruct y.
  - intros pass n w0 w2 y Hpass Hy. rewrite (main_loop_raise _ _ _ _ _ _ Hpass).
    now rewrite Hy.
Qed.

(** On eb1 in real execution, [clean_non_latest] meets an entry without a
    location: the [KeyError] is caught, reported, and the loop goes on. *)
Lemma main_loop_restarts_after_a_key_error :
  cleaning_sequence 5 eb1 broken_world
  = (Raise (KeyError "location"), snd (cleaning_sequence 5 eb1 broken_world))
  /\ main_ajax_all 5 eb1 3 broken_world
     = main_ajax_all 5 eb1 2
         (after_backoff (KeyError "location") (snd (cleaning_sequence 5 eb1 broken_world)))
  /\ fst (main_ajax_all 5 eb1 3 broken_world) = Ok StillRunning.
Proof.
  assert (H : cleaning_sequence 5 eb1 broken_world
              = (Raise (KeyError "location"), snd (cleaning_sequence 5 eb1 broken_world)))
    by (vm_compute; reflexivity).
  split; [exact H|].
  destruct (main_loop_restarts eb1 5 2 broken_world _ _ H) as (_ & Hgo & Hon & _ & _).
  split; [exact Hgo|exact (Hon eq_refl 3 broken_world)].
Defined.

(** ** Abandoned runs and the copy-count check *)

Create HintDb unchecked.

Section Unchecked.

#[local] Abbreviation unchecked m := (keeps world_of_world (within false false no_refusal) m).
#[local] Abbreviation unchecked_rd m := (keeps world_of_rd (within false false no_refusal) m).

Lemma unchecked_log_info msg : unchecked (log_info msg).
Proof. apply keeps_emit. discriminate. Qed.

Lemma unchecked_emit_act ev : is_act ev = true -> unchecked (emit ev).
Proof. intros H. apply keeps_emit. now destruct ev. Qed.

Lemma unchecked_sleep n : unchecked (sleep n).
Proof. intros w. apply (within_event _ _ _ (EvSleep n)); [exact I|reflexivity..]. Qed.

Lemma unchecked_set_state st : unchecked (set_state st).
Proof. apply keeps_emit. exact I. Qed.

Lemma unchecked_log_warning_info message run_id : unchecked (log_warning message "info" run_id).
Proof.
  unfold log_warning. apply keeps_bind; [|intros ?]; apply keeps_emit; discriminate.
Qed.

Lemma unchecked_wait_on_delete_thread : unchecked wait_on_delete_thread.
Proof.
  unfold wait_on_delete_thread.
  apply keeps_bind; [now apply unchecked_emit_act|intros ?; apply unchecked_log_info].
Qed.

Lemma unchecked_rmtree path : unchecked (rmtree path).
Proof. apply keeps_rmtree; [reflexivity|exact I]. Qed.

Lemma unchecked_update_one e id added data_type : unchecked (update_one e id added data_type).
Proof. apply keeps_update_one; [reflexivity|exact I]. Qed.

#[local] Hint Resolve keeps_ret keeps_raise keeps_of_result keeps_of_option keeps_getitem_str
  keeps_now keeps_path_exists keeps_find_one keeps_find_all keeps_confirm keeps_lift
  keeps_get_rd keeps_put_rd keeps_with_rd
  unchecked_log_info unchecked_sleep unchecked_set_state unchecked_log_warning_info
  unchecked_wait_on_delete_thread unchecked_rmtree unchecked_update_one : unchecked.

Ltac unchecked_step :=
  match goal with
  | |- keeps _ _ (bind _ _) => apply keeps_bind; [|intros]
  | |- context [let '(_, _) := ?p in _] => destruct p
  | |- context [if ?b then _ else _] => destruct b eqn:?
  | |- context [match ?x with Some _ => _ | None => _ end] => destruct x eqn:?
  | |- _ => solve [eauto with unchecked]
  end.

Lemma unchecked__rmtree e path : unchecked (_rmtree e path).
Proof. unfold _rmtree. repeat unchecked_step. Qed.

(** With the check overridden, [delete_data] reports no refusal. *)
Lemma unchecked_delete_data e path data_type test reason :
  unchecked_rd (delete_data e path data_type test true reason).
Proof.
  unfold delete_data, low_data_check. cbn [negb].
  repeat first [apply keeps_lift, unchecked__rmtree | unchecked_step].
Qed.

Lemma unchecked_threaded_delete_data e path data_type test reason :
  unchecked_rd (threaded_delete_data e path data_type test true reason).
Proof.
  unfold threaded_delete_data.
  apply keeps_bind; [repeat unchecked_step|intros ?].
  apply keeps_bind; [apply keeps_lift; now apply unchecked_emit_act|intros ?].
  apply keeps_bind; [|intros ?; repeat unchecked_step].
  intros s. exact (unchecked_delete_data e path data_type test reason s).
Qed.

Variable e : env.

Lemma unchecked_remove_run_from_host_step number delete_live reason n_live n_rr i :
  unchecked_rd (remove_run_from_host_step e number delete_live true reason n_live n_rr i).
Proof.
  unfold remove_run_from_host_step. cbn [negb andb].
  repeat first [apply unchecked_delete_data | apply unchecked_threaded_delete_data
               | unchecked_step].
Qed.

Lemma unchecked_remove_run_from_host_loop number delete_live reason n_live n_rr rounds :
  forall i,
    unchecked_rd
      (remove_run_from_host_loop e number delete_live true reason n_live n_rr rounds i).
Proof.
  induction rounds as [|rounds IH]; intros i; cbn [remove_run_from_host_loop];
    [repeat unchecked_step|].
  apply keeps_bind; [apply unchecked_remove_run_from_host_step|intros ?; apply IH].
Qed.

Lemma unchecked_remove_run_from_host number delete_live reason :
  unchecked (remove_run_from_host e number delete_live true reason).
Proof.
  unfold remove_run_from_host.
  apply keeps_bind; [repeat unchecked_step|intros [rd|]]; [|repeat unchecked_step].
  apply keeps_bind; [repeat unchecked_step|intros [n_live n_rr]].
  apply keeps_with_rd, unchecked_remove_run_from_host_loop.
Qed.

Lemma unchecked_clean_abandoned_runs delete_live i_max rds :
  forall i, unchecked (clean_abandoned_runs e delete_live i_max rds i).
Proof.
  induction rds as [|rd rds IH]; intros i; cbn [clean_abandoned_runs];
    [repeat unchecked_step|].
  repeat first [apply unchecked_remove_run_from_host | apply IH | unchecked_step].
Qed.

Lemma unchecked_clean_abandoned delete_live depth :
  unchecked (clean_abandoned depth e delete_live).
Proof.
  induction depth as [|depth IH]; cbn [clean_abandoned]; [repeat unchecked_step|].
  repeat first [apply unchecked_clean_abandoned_runs | apply IH | unchecked_step].
Qed.

End Unchecked.


